(** * ALBERT model definition ([transformers/modeling_albert.py])

    A shallow embedding of the parts of [modeling_albert.py] that carry the
    behaviour described in the specification: the layer-group schedule of
    [AlbertTransformer.forward], the checkpoint conversion routine
    [load_tf_weights_in_albert], the input selection of [AlbertModel.forward],
    the output projection of [AlbertAttention.forward] and the task heads
    [AlbertForSequenceClassification] and [AlbertForQuestionAnswering].

    Python exceptions are values of [exn] carried by the [result] monad.
    Python objects that the code mutates (model parameters, label tensors)
    live in explicit stores.  Python floats are IEEE 754 doubles.  Tensors
    are a shape and the elements in row-major order; their elements belong
    to a class [Scalar] of which nothing is assumed but where a statement
    says so.  What the repository takes from PyTorch and from
    [modeling_bert] without defining it (the loss functions, the embeddings,
    dropout, layer normalisation) is a field of the class [Primitives]; so
    is [AlbertLayer.forward], a composition of such layers that is taken as
    a total function of its parameters and inputs.

    The first part holds the definitions, module by module in the order of
    the source file; the second part holds the properties. *)

From Stdlib Require Import ZArith List Bool Lia String Ascii QArith Qround.
From Stdlib Require Import Floats.SpecFloat.
From stdpp Require Import base option list gmap strings.

Close Scope Q_scope.
Open Scope Z_scope.

(** ** Exceptions and the error monad *)

Module Py.

(** The exceptions the modelled code can raise.  [AssertionError] carries the
    [args] tuple of the exception, here a tuple of shapes. *)
Inductive exn : Type :=
| ZeroDivisionError
| OverflowError
| IndexError
| TypeError
| AttributeError
| ValueError (msg : string)
| RuntimeError
| AssertionError (args : list (list nat)).

Inductive result (A : Type) : Type :=
| Ok (a : A)
| Raise (e : exn).

Arguments Ok {A} a.
Arguments Raise {A} e.

Definition bind {A B : Type} (m : result A) (k : A -> result B) : result B :=
  match m with
  | Ok a => k a
  | Raise e => Raise e
  end.

(** [l[i]] on a Python sequence: negative indices count from the end, an
    index outside [-len, len) raises [IndexError]. *)
Definition getitem {A : Type} (l : list A) (i : Z) : result A :=
  let n := Z.of_nat (length l) in
  let j := if i <? 0 then i + n else i in
  if (j <? 0) || (n <=? j) then Raise IndexError
  else match nth_error l (Z.to_nat j) with
       | Some a => Ok a
       | None => Raise IndexError
       end.

(** The bound of a slice, clamped to [0, len] as [slice.indices] does. *)
Definition slice_bound (n i : Z) : Z :=
  let j := if i <? 0 then i + n else i in
  Z.max 0 (Z.min n j).

(** [l[a:b]] on a Python list: never raises, clamps both bounds. *)
Definition slice {A : Type} (l : list A) (a b : Z) : list A :=
  let n := Z.of_nat (length l) in
  let lo := slice_bound n a in
  let hi := slice_bound n b in
  firstn (Z.to_nat (hi - lo)) (skipn (Z.to_nat lo) l).

End Py.

#[export] Instance result_bind : MBind Py.result :=
  fun A B k m => Py.bind m k.
#[export] Instance result_ret : MRet Py.result := fun A a => Py.Ok a.

(** ** Python floats (IEEE 754 binary64) *)

Module PyFloat.

Definition prec : Z := 53.
Definition emax : Z := 1024.

Abbreviation float := spec_float.

(** [float(z)] for an integer [z]: round to nearest even; an integer too
    large for a double raises [OverflowError]. *)
Definition of_int (z : Z) : Py.result float :=
  match binary_normalize prec emax z 0 false with
  | S754_infinity _ => Py.Raise Py.OverflowError
  | f => Py.Ok f
  end.

Definition is_zero (f : float) : bool :=
  match f with S754_zero _ => true | _ => false end.

(** [x / y] on floats: a zero divisor raises [ZeroDivisionError]. *)
Definition div (x y : float) : Py.result float :=
  if is_zero y then Py.Raise Py.ZeroDivisionError
  else Py.Ok (SFdiv prec emax x y).

(** [a / b] on two Python integers (true division).  The integers of a
    configuration are far below 2^53, where the quotient is the IEEE quotient
    of the two converted operands. *)
Definition int_truediv (a b : Z) : Py.result float :=
  if b =? 0 then Py.Raise Py.ZeroDivisionError
  else x ← of_int a; y ← of_int b; div x y.

(** [i / f] with an integer on the left and a float on the right. *)
Definition int_div_float (i : Z) (f : float) : Py.result float :=
  x ← of_int i; div x f.

(** [int(f)]: truncation toward zero; infinities and NaN raise. *)
Definition to_int (f : float) : Py.result Z :=
  match f with
  | S754_zero _ => Py.Ok 0
  | S754_infinity _ => Py.Raise Py.OverflowError
  | S754_nan => Py.Raise (Py.ValueError "cannot convert float NaN to integer")
  | S754_finite s m e =>
      let a := if 0 <=? e then Z.shiftl (Zpos m) e
               else Z.shiftr (Zpos m) (- e) in
      Py.Ok (if s then - a else a)
  end.

End PyFloat.

(** ** Configuration ([AlbertConfig], the fields the code reads) *)

Record AlbertConfig : Type := {
  num_hidden_layers : Z;
  num_hidden_groups : Z;
  inner_group_num : Z;
  num_labels : Z;
  output_attentions : bool;
  output_hidden_states : bool
}.

(** [range(n)] *)
Definition range (n : Z) : list Z := map Z.of_nat (seq 0 (Z.to_nat n)).

(** A [for] loop whose body may raise: the first exception ends the loop. *)
Fixpoint for_each {S A : Type} (body : S -> A -> Py.result S) (l : list A) (s : S)
  : Py.result S :=
  match l with
  | [] => Py.Ok s
  | a :: l' => s' ← body s a; for_each body l' s'
  end.

(** ** The encoder: [AlbertLayerGroup] and [AlbertTransformer] *)

Module Encoder.

Section WithLayers.

(** Hidden states, the extended attention mask, one entry of the head mask,
    attention probabilities, and the parameters of one [AlbertLayer]. *)
Context {Hidden Mask HeadMask Attn Layer : Type}.

(** [AlbertLayer.forward], as a total function of the parameters of the
    layer and of its inputs: the new hidden states and the attention
    probabilities ([layer_output[1]], read only under [output_attentions]). *)
Variable AlbertLayer_forward : Layer -> Hidden -> Mask -> HeadMask -> Hidden * Attn.

(** The linear layer [embedding_hidden_mapping_in]; it raises on an input
    of the wrong width. *)
Variable embedding_hidden_mapping_in : Hidden -> Py.result Hidden.

Record AlbertLayerGroup : Type := {
  albert_layers : list Layer
}.

Record AlbertTransformer : Type := {
  config : AlbertConfig;
  albert_layer_groups : list AlbertLayerGroup
}.

(** [AlbertLayerGroup.__init__]: [inner_group_num] fresh layers; [fresh k]
    is the [k]-th layer constructed. *)
Definition AlbertLayerGroup_init (cfg : AlbertConfig) (fresh : Z -> Layer)
  : AlbertLayerGroup :=
  {| albert_layers := map fresh (range (inner_group_num cfg)) |}.

(** [AlbertTransformer.__init__]: [num_hidden_groups] layer groups, each
    with layers of its own; [fresh g k] is layer [k] of group [g]. *)
Definition AlbertTransformer_init (cfg : AlbertConfig) (fresh : Z -> Z -> Layer)
  : AlbertTransformer :=
  {| config := cfg;
     albert_layer_groups :=
       map (fun g => AlbertLayerGroup_init cfg (fresh g))
           (range (num_hidden_groups cfg)) |}.

(** The tuple a layer group returns: the last hidden state, then the layer
    hidden states and the layer attentions when they are requested. *)
Record group_output : Type := {
  g_hidden : Hidden;
  g_layer_hidden_states : list Hidden;
  g_layer_attentions : list Attn
}.

(** One iteration of the loop of [AlbertLayerGroup.forward]; the argument
    [head_mask[layer_index]] is evaluated before the layer is called. *)
Definition group_step (cfg : AlbertConfig) (attention_mask : Mask)
    (head_mask : list HeadMask) (st : group_output) (it : Z * Layer)
  : Py.result group_output :=
  let '(layer_index, albert_layer) := it in
  hm ← Py.getitem head_mask layer_index;
  let layer_output := AlbertLayer_forward albert_layer (g_hidden st) attention_mask hm in
  let hidden_states := fst layer_output in
  Py.Ok {| g_hidden := hidden_states;
           g_layer_attentions :=
             if output_attentions cfg
             then g_layer_attentions st ++ [snd layer_output]
             else g_layer_attentions st;
           g_layer_hidden_states :=
             if output_hidden_states cfg
             then g_layer_hidden_states st ++ [hidden_states]
             else g_layer_hidden_states st |}.

(** [enumerate(l)] *)
Definition enumerate {A : Type} (l : list A) : list (Z * A) :=
  combine (range (Z.of_nat (length l))) l.

(** [AlbertLayerGroup.forward] *)
Definition AlbertLayerGroup_forward (cfg : AlbertConfig) (self : AlbertLayerGroup)
    (hidden_states : Hidden) (attention_mask : Mask) (head_mask : list HeadMask)
  : Py.result group_output :=
  for_each (group_step cfg attention_mask head_mask)
           (enumerate (albert_layers self))
           {| g_hidden := hidden_states;
              g_layer_hidden_states := [];
              g_layer_attentions := [] |}.

(** [int(num_hidden_layers / num_hidden_groups)] *)
Definition layers_per_group (cfg : AlbertConfig) : Py.result Z :=
  q ← PyFloat.int_truediv (num_hidden_layers cfg) (num_hidden_groups cfg);
  PyFloat.to_int q.

(** [int(i / (num_hidden_layers / num_hidden_groups))] *)
Definition group_idx (cfg : AlbertConfig) (i : Z) : Py.result Z :=
  q ← PyFloat.int_truediv (num_hidden_layers cfg) (num_hidden_groups cfg);
  x ← PyFloat.int_div_float i q;
  PyFloat.to_int x.

(** The state of the loop of [AlbertTransformer.forward].  [t_calls] is
    ghost state: it logs, for each call of a layer group that returned, the
    index of the group that was called. *)
Record loop_state : Type := {
  t_hidden : Hidden;
  t_all_hidden_states : list Hidden;
  t_all_attentions : list Attn;
  t_calls : list Z
}.

(** The body of the loop of [AlbertTransformer.forward] at iteration [i]. *)
Definition transformer_step (self : AlbertTransformer) (attention_mask : Mask)
    (head_mask : list HeadMask) (st : loop_state) (i : Z) : Py.result loop_state :=
  let cfg := config self in
  layers_per_group ← layers_per_group cfg;
  group_idx ← group_idx cfg i;
  let layer_idx := i - group_idx * layers_per_group in
  group ← Py.getitem (albert_layer_groups self) group_idx;
  layer_group_output ←
    AlbertLayerGroup_forward cfg group (t_hidden st) attention_mask
      (Py.slice head_mask (group_idx * layers_per_group)
                          ((group_idx + 1) * layers_per_group));
  let hidden_states := g_hidden layer_group_output in
  Py.Ok {| t_hidden := hidden_states;
           t_all_attentions :=
             if output_attentions cfg
             then t_all_attentions st ++ g_layer_attentions layer_group_output
             else t_all_attentions st;
           t_all_hidden_states :=
             if output_hidden_states cfg
             then t_all_hidden_states st ++ [hidden_states]
             else t_all_hidden_states st;
           t_calls := t_calls st ++ [group_idx] |}.

(** The tuple [AlbertTransformer.forward] returns, with the ghost log. *)
Record transformer_output : Type := {
  last_hidden_state : Hidden;
  all_hidden_states : option (list Hidden);
  all_attentions : option (list Attn);
  calls : list Z
}.

(** [AlbertTransformer.forward] *)
Definition AlbertTransformer_forward (self : AlbertTransformer)
    (hidden_states : Hidden) (attention_mask : Mask) (head_mask : list HeadMask)
  : Py.result transformer_output :=
  let cfg := config self in
  hidden_states ← embedding_hidden_mapping_in hidden_states;
  st ← for_each (transformer_step self attention_mask head_mask)
                (range (num_hidden_layers cfg))
                {| t_hidden := hidden_states;
                   t_all_hidden_states := [hidden_states];
                   t_all_attentions := [];
                   t_calls := [] |};
  Py.Ok {| last_hidden_state := t_hidden st;
           all_hidden_states :=
             if output_hidden_states cfg then Some (t_all_hidden_states st) else None;
           all_attentions :=
             if output_attentions cfg then Some (t_all_attentions st) else None;
           calls := t_calls st |}.

(** What one iteration needs in order to return: a group index inside the
    list of groups, and a slice of the head mask that covers the layers of
    that group. *)
Definition iteration_ready (self : AlbertTransformer)
    (head_mask : list HeadMask) (lpg i g : Z) : Prop :=
  group_idx (config self) i = Py.Ok g /\
  0 <= g < Z.of_nat (length (albert_layer_groups self)) /\
  forall grp, nth_error (albert_layer_groups self) (Z.to_nat g) = Some grp ->
              (length (albert_layers grp)
               <= length (Py.slice head_mask (g * lpg) ((g + 1) * lpg)))%nat.

End WithLayers.

End Encoder.

(** ** Python string operations used by the checkpoint loader *)

Module Str.

Open Scope string_scope.

(** [old.join]-free helper of [replace] for an empty pattern:
    ["abc".replace("", "-") == "-a-b-c-"]. *)
Fixpoint interleave (new s : string) : string :=
  match s with
  | EmptyString => new
  | String c s' => new ++ String c (interleave new s')
  end.

(** Left-to-right scan of [str.replace]: [skip] counts the characters of a
    match that has been replaced and is still to be passed over. *)
Fixpoint replace_from (old new : string) (skip : nat) (s : string) : string :=
  match s with
  | EmptyString => EmptyString
  | String c s' =>
      match skip with
      | S k => replace_from old new k s'
      | O =>
          if String.prefix old s
          then new ++ replace_from old new (String.length old - 1) s'
          else String c (replace_from old new 0 s')
      end
  end.

(** [s.replace(old, new)]: every non-overlapping occurrence of [old], found
    from the left, becomes [new]. *)
Definition replace (old new s : string) : string :=
  match old with
  | EmptyString => interleave new s
  | _ => replace_from old new 0 s
  end.

(** [sub in s] *)
Fixpoint contains (sub s : string) : bool :=
  match s with
  | EmptyString => String.prefix sub s
  | String _ s' => String.prefix sub s || contains sub s'
  end.

(** [s.split(sep)] for a separator of one character; the result always has
    at least one component. *)
Fixpoint split (sep : ascii) (s : string) : list string :=
  match s with
  | EmptyString => [EmptyString]
  | String c s' =>
      if Ascii.eqb c sep then EmptyString :: split sep s'
      else match split sep s' with
           | h :: t => String c h :: t
           | [] => [String c EmptyString]
           end
  end.

(** [sep.join(l)] *)
Fixpoint join (sep : string) (l : list string) : string :=
  match l with
  | [] => EmptyString
  | [x] => x
  | x :: l' => x ++ sep ++ join sep l'
  end.

(** [x in l] for a list of strings *)
Definition mem (x : string) (l : list string) : bool :=
  existsb (String.eqb x) l.

Definition is_alpha (c : ascii) : bool :=
  let n := nat_of_ascii c in
  ((65 <=? n) && (n <=? 90) || (97 <=? n) && (n <=? 122))%nat.

Definition is_digit (c : ascii) : bool :=
  let n := nat_of_ascii c in ((48 <=? n) && (n <=? 57))%nat.

Fixpoint all_chars (p : ascii -> bool) (s : string) : bool :=
  match s with
  | EmptyString => true
  | String c s' => p c && all_chars p s'
  end.

(** The longest prefix of characters satisfying [p], and the rest. *)
Fixpoint span (p : ascii -> bool) (s : string) : string * string :=
  match s with
  | EmptyString => (EmptyString, EmptyString)
  | String c s' =>
      if p c then let '(a, b) := span p s' in (String c a, b)
      else (EmptyString, s)
  end.

(** [re.fullmatch(r'[A-Za-z]+_\d+', s)]: the letters and the digits of a
    name that matches, [None] for a name that does not. *)
Definition match_name_number (s : string) : option (string * string) :=
  match span is_alpha s with
  | (String a letters, String "_" (String d digits)) =>
      if all_chars is_digit (String d digits)
      then Some (String a letters, String d digits)
      else None
  | _ => None
  end.

(** [int(s)] for a string of decimal digits. *)
Fixpoint int_of_digits_from (acc : Z) (s : string) : Z :=
  match s with
  | EmptyString => acc
  | String c s' =>
      int_of_digits_from (10 * acc + (Z.of_nat (nat_of_ascii c) - 48)) s'
  end.

Definition int_of_digits (s : string) : Z := int_of_digits_from 0 s.

(** [str(n)] read backwards: the index that the key [s] of a [ModuleList]
    stands for, when [s] is the decimal numeral of a natural number. *)
Definition index_of_key (s : string) : option nat :=
  match s with
  | EmptyString => None
  | String "0" (String _ _) => None
  | _ => if all_chars is_digit s then Some (Z.to_nat (int_of_digits s)) else None
  end.

(** [s[-n:] == suffix] where [n] is the length of [suffix]. *)
Definition ends_with (suffix s : string) : bool :=
  let n := String.length suffix in
  let m := String.length s in
  String.eqb (String.substring (m - n) n s) suffix && (n <=? m)%nat.

End Str.

(** ** Tensors: a shape and the elements in row-major order *)

Module Tensor.

Record tensor (A : Type) : Type := {
  shape : list nat;
  data : list A
}.

Arguments shape {A} t.
Arguments data {A} t.

Definition numel (s : list nat) : nat := fold_right Nat.mul 1%nat s.

(** A tensor is well formed when it has one element per index. *)
Definition wf {A : Type} (t : tensor A) : Prop :=
  length (data t) = numel (shape t).

(** The position of the element at index [idx] in row-major order. *)
Fixpoint offset (s idx : list nat) : nat :=
  match s, idx with
  | d :: s', i :: idx' => (i * numel s' + offset s' idx')%nat
  | _, _ => 0%nat
  end.

(** All indices of a shape, in row-major order. *)
Fixpoint indices (s : list nat) : list (list nat) :=
  match s with
  | [] => [[]]
  | d :: s' => flat_map (fun i => map (cons i) (indices s')) (seq 0 d)
  end.

(** [idx] is an index of shape [s]. *)
Fixpoint in_range (s idx : list nat) : bool :=
  match s, idx with
  | [], [] => true
  | d :: s', i :: idx' => (i <? d)%nat && in_range s' idx'
  | _, _ => false
  end.

Section Elements.

Context {A : Type} `{Inhabited A}.

(** [t[idx]] for a full index. *)
Definition get (t : tensor A) (idx : list nat) : A :=
  nth (offset (shape t) idx) (data t) inhabitant.

(** The tensor of shape [s] whose element at [idx] is [f idx]. *)
Definition tabulate (s : list nat) (f : list nat -> A) : tensor A :=
  {| shape := s; data := map f (indices s) |}.

(** [torch.full(s, a)] *)
Definition full (s : list nat) (a : A) : tensor A :=
  tabulate s (fun _ => a).

(** [np.transpose(a)]: the axes in reverse order. *)
Definition transpose (t : tensor A) : tensor A :=
  tabulate (rev (shape t)) (fun idx => get t (rev idx)).

(** [t.permute(0, 2, 1, 3)] on a tensor with four dimensions. *)
Definition permute_0213 (t : tensor A) : Py.result (tensor A) :=
  match shape t with
  | [b; n; f; d] =>
      Py.Ok (tabulate [b; f; n; d]
               (fun idx => match idx with
                           | [ib; jf; jn; id] => get t [ib; jn; jf; id]
                           | _ => inhabitant
                           end))
  | _ => Py.Raise Py.RuntimeError
  end.

(** The size that [-1] stands for in [t.view(dims)], when it can be
    inferred: the other sizes must divide the number of elements. *)
Definition infer_dim (n : nat) (dims : list Z) : option nat :=
  let known := fold_right Z.mul 1 (List.filter (fun d => negb (d =? -1)) dims) in
  if known =? 0 then None
  else if Z.of_nat n mod known =? 0 then Some (Z.to_nat (Z.of_nat n / known))
  else None.

(** [t.view(dims)] on a contiguous tensor: at most one size is [-1], no
    other size is negative, and the number of elements is kept. *)
Definition view (t : tensor A) (dims : list Z) : Py.result (tensor A) :=
  let n := length (data t) in
  if existsb (fun d => d <? -1) dims then Py.Raise Py.RuntimeError
  else match count_occ Z.eq_dec dims (-1) with
       | O =>
           let s := map Z.to_nat dims in
           if (numel s =? n)%nat then Py.Ok {| shape := s; data := data t |}
           else Py.Raise Py.RuntimeError
       | S O =>
           match infer_dim n dims with
           | Some k =>
               Py.Ok {| shape := map (fun d => if d =? -1 then k else Z.to_nat d) dims;
                        data := data t |}
           | None => Py.Raise Py.RuntimeError
           end
       | _ => Py.Raise Py.RuntimeError
       end.

(** [t.unsqueeze(k)] for [k >= 0]: a dimension beyond [t.dim()] raises. *)
Definition unsqueeze (k : nat) (t : tensor A) : Py.result (tensor A) :=
  if (k <=? length (shape t))%nat
  then Py.Ok {| shape := firstn k (shape t) ++ 1%nat :: skipn k (shape t);
                data := data t |}
  else Py.Raise Py.IndexError.

(** [t.unsqueeze(-1)] *)
Definition unsqueeze_last (t : tensor A) : tensor A :=
  {| shape := shape t ++ [1%nat]; data := data t |}.

(** The shape of [t.squeeze(-1)]: a last dimension of size one is dropped,
    any other shape is kept. *)
Definition squeeze_last_shape (s : list nat) : list nat :=
  match rev s with
  | 1%nat :: r => rev r
  | _ => s
  end.

(** [t.squeeze(-1)] *)
Definition squeeze_last (t : tensor A) : tensor A :=
  {| shape := squeeze_last_shape (shape t); data := data t |}.

(** [t.split(1, dim=-1)]: one chunk of width one per position of the last
    dimension (an empty last dimension gives the tensor itself as the only
    chunk).  A tensor without dimensions cannot be split. *)
Definition split_last (t : tensor A) : Py.result (list (tensor A)) :=
  match rev (shape t) with
  | [] => Py.Raise Py.RuntimeError
  | O :: r => Py.Ok [t]
  | d :: r =>
      let s := rev r in
      Py.Ok (map (fun c => tabulate (s ++ [1%nat])
                             (fun idx => get t (removelast idx ++ [c])))
                 (seq 0 d))
  end.

(** [t.expand(n, -1, ..., -1)] on a tensor whose first dimension has size
    one. *)
Definition expand_first (n : nat) (t : tensor A) : Py.result (tensor A) :=
  match shape t with
  | 1%nat :: s => Py.Ok {| shape := n :: s; data := concat (repeat (data t) n) |}
  | _ => Py.Raise Py.RuntimeError
  end.

(** The sub-tensors [t[0], t[1], ...] along the first dimension; a tensor
    without dimensions has none. *)
Definition rows (t : tensor A) : list (tensor A) :=
  match shape t with
  | [] => []
  | d :: s =>
      map (fun i => {| shape := s;
                       data := firstn (numel s) (skipn (i * numel s) (data t)) |})
          (seq 0 d)
  end.

(** [t[:, 0]] on a tensor with at least two dimensions. *)
Definition select_first_of_dim1 (t : tensor A) : Py.result (tensor A) :=
  match shape t with
  | b :: O :: s => Py.Raise Py.IndexError
  | b :: S _ :: s =>
      Py.Ok (tabulate (b :: s)
               (fun idx => match idx with
                           | ib :: rest => get t (ib :: 0%nat :: rest)
                           | [] => inhabitant
                           end))
  | _ => Py.Raise Py.IndexError
  end.

(** Element-wise map. *)
Definition map_elems {B : Type} (f : A -> B) (t : tensor A) : tensor B :=
  {| shape := shape t; data := map f (data t) |}.

End Elements.

End Tensor.

Export Tensor(tensor).

(** ** The checkpoint loader [load_tf_weights_in_albert] *)

Module Loader.

Import Tensor.

Open Scope string_scope.

(** The derivation of the parameter path from the name of a TensorFlow
    variable (the renaming statements of the loop body, in their order). *)
Definition remap_name (name : string) : string :=
  (* If saved from the TF HUB module *)
  let name := Str.replace "module/" "" name in
  (* Renaming and simplifying *)
  let name := Str.replace "ffn_1" "ffn" name in
  let name := Str.replace "bert/" "albert/" name in
  let name := Str.replace "attention_1" "attention" name in
  let name := Str.replace "transform/" "" name in
  let name := Str.replace "LayerNorm_1" "full_layer_layer_norm" name in
  let name := Str.replace "LayerNorm" "attention/LayerNorm" name in
  let name := Str.replace "transformer/" "" name in
  (* The feed forward layer had an 'intermediate' step *)
  let name := Str.replace "intermediate/dense/" "" name in
  let name := Str.replace "ffn/intermediate/output/dense/" "ffn_output/" name in
  (* ALBERT attention was split between self and output *)
  let name := Str.replace "/output/" "/" name in
  let name := Str.replace "/self/" "/" name in
  (* The pooler is a linear layer *)
  let name := Str.replace "pooler/dense" "pooler" name in
  (* The classifier was simplified to predictions from cls/predictions *)
  let name := Str.replace "cls/predictions" "predictions" name in
  let name := Str.replace "predictions/attention" "predictions" name in
  (* Naming was changed to be more explicit *)
  let name := Str.replace "embeddings/attention" "embeddings" name in
  let name := Str.replace "inner_group_" "albert_layers/" name in
  let name := Str.replace "group_" "albert_layer_groups/" name in
  (* Classifier *)
  if (length (Str.split "/" name) =? 1)%nat
     && (Str.contains "output_bias" name || Str.contains "output_weights" name)
  then "classifier/" ++ name
  else name.

(** The two tests that make the loop skip a variable. *)
Definition skipped_by_name (name : string) : bool :=
  Str.contains "seq_relationship" name.

Definition skipped_by_path (path : list string) : bool :=
  Str.mem "adam_m" path || Str.mem "adam_v" path || Str.mem "global_step" path.

(** [l] of the inner loop: [re.split(r'_(\d+)', m_name)] for a name that
    matches [[A-Za-z]+_\d+], the name alone otherwise. *)
Definition split_m_name (m_name : string) : list string :=
  match Str.match_name_number m_name with
  | Some (letters, digits) => [letters; digits; ""]
  | None => [m_name]
  end.

Section WithElements.

(** The element type of the arrays of the checkpoint. *)
Context {A : Type} `{Inhabited A}.

(** Objects of the PyTorch model: a module with named children (sub-modules
    and parameters), a [ModuleList], or a parameter holding a tensor.
    Children are references into the store, so that two attributes may
    share one parameter. *)
Inductive obj : Type :=
| NnModule (attrs : gmap string nat)
| NnModuleList (items : list nat)
| NnParameter (value : tensor A).

Abbreviation store := (gmap nat obj).

(** What [pointer] is bound to: an object of the store, or a temporary
    tensor obtained by indexing a parameter (a view with the given shape,
    not an attribute of any module). *)
Inductive ptr : Type :=
| PObj (l : nat)
| PView (shape : list nat).

(** [getattr(pointer, name)].  Attributes that PyTorch itself defines on
    modules and tensors are not part of the model. *)
Definition getattr (σ : store) (p : ptr) (name : string) : Py.result ptr :=
  match p with
  | PObj l =>
      match σ !! l with
      | Some (NnModule attrs) =>
          match attrs !! name with
          | Some l' => Py.Ok (PObj l')
          | None => Py.Raise Py.AttributeError
          end
      | Some (NnModuleList items) =>
          match Str.index_of_key name with
          | Some i =>
              match items !! i with
              | Some l' => Py.Ok (PObj l')
              | None => Py.Raise Py.AttributeError
              end
          | None => Py.Raise Py.AttributeError
          end
      | _ => Py.Raise Py.AttributeError
      end
  | PView _ => Py.Raise Py.AttributeError
  end.

(** [pointer[num]] for [num >= 0]: an item of a [ModuleList], or a view of
    a tensor along its first dimension. *)
Definition getitem (σ : store) (p : ptr) (num : Z) : Py.result ptr :=
  let index_shape (s : list nat) :=
    match s with
    | d :: s' =>
        if (num <? Z.of_nat d)%Z then Py.Ok (PView s') else Py.Raise Py.IndexError
    | [] => Py.Raise Py.IndexError
    end in
  match p with
  | PObj l =>
      match σ !! l with
      | Some (NnModuleList items) =>
          l' ← Py.getitem items num; Py.Ok (PObj l')
      | Some (NnParameter t) => index_shape (shape t)
      | _ => Py.Raise Py.TypeError
      end
  | PView s => index_shape s
  end.

(** [pointer.shape] *)
Definition shape_of (σ : store) (p : ptr) : Py.result (list nat) :=
  match p with
  | PObj l =>
      match σ !! l with
      | Some (NnParameter t) => Py.Ok (shape t)
      | _ => Py.Raise Py.AttributeError
      end
  | PView s => Py.Ok s
  end.

(** [pointer.data = torch.from_numpy(array)]: the parameter that [pointer]
    refers to now holds [array]; a temporary view is rebound and the store
    stays as it is. *)
Definition set_data (σ : store) (p : ptr) (array : tensor A) : store :=
  match p with
  | PObj l => <[l := NnParameter array]> σ
  | PView _ => σ
  end.

(** One iteration of [for m_name in name].  The [continue] of the
    [except AttributeError] branch belongs to this inner loop: the pointer
    stays where it is and the next component is looked at. *)
Definition walk_step (σ : store) (pointer : ptr) (m_name : string)
  : Py.result ptr :=
  let l := split_m_name m_name in
  let l0 := hd "" l in
  let index (pointer : ptr) :=
    match l with
    | _ :: l1 :: _ => getitem σ pointer (Str.int_of_digits l1)
    | _ => Py.Ok pointer
    end in
  if String.eqb l0 "kernel" || String.eqb l0 "gamma" then
    pointer ← getattr σ pointer "weight"; index pointer
  else if String.eqb l0 "output_bias" || String.eqb l0 "beta" then
    pointer ← getattr σ pointer "bias"; index pointer
  else if String.eqb l0 "output_weights" then
    pointer ← getattr σ pointer "weight"; index pointer
  else if String.eqb l0 "squad" then
    pointer ← getattr σ pointer "classifier"; index pointer
  else
    match getattr σ pointer l0 with
    | Py.Ok pointer => index pointer
    | Py.Raise Py.AttributeError => Py.Ok pointer
    | Py.Raise e => Py.Raise e
    end.

(** The inner loop: the pointer reached from [model] along [name]. *)
Definition walk (σ : store) (model : nat) (name : list string)
  : Py.result ptr :=
  for_each (walk_step σ) name (PObj model).

(** The statements after the inner loop; [m_name] is the last component of
    the path.  The result is the store after the statements and what they
    raised, if anything. *)
Definition assign (σ : store) (pointer : ptr) (m_name : string)
    (array : tensor A) : store * Py.result unit :=
  let step1 : Py.result (ptr * tensor A) :=
    if Str.ends_with "_embeddings" m_name then
      pointer ← getattr σ pointer "weight"; Py.Ok (pointer, array)
    else if String.eqb m_name "kernel" then
      Py.Ok (pointer, transpose array)
    else Py.Ok (pointer, array) in
  match step1 with
  | Py.Raise e => (σ, Py.Raise e)
  | Py.Ok (pointer, array) =>
      match shape_of σ pointer with
      | Py.Raise e => (σ, Py.Raise e)
      | Py.Ok pointer_shape =>
          if bool_decide (pointer_shape = shape array)
          then (set_data σ pointer array, Py.Ok tt)
          else (σ, Py.Raise (Py.AssertionError [pointer_shape; shape array]))
      end
  end.

(** The body of the main loop for one variable of the checkpoint. *)
Definition convert_variable (model : nat) (σ : store) (var : string * tensor A)
  : store * Py.result unit :=
  let '(original_name, array) := var in
  let name := remap_name original_name in
  if skipped_by_name name then (σ, Py.Ok tt)
  else
    let name := Str.split "/" name in
    if skipped_by_path name then (σ, Py.Ok tt)
    else
      match walk σ model name with
      | Py.Raise e => (σ, Py.Raise e)
      | Py.Ok pointer => assign σ pointer (List.last name "") array
      end.

(** The main loop over the variables of the checkpoint, in the order the
    checkpoint lists them; the first exception ends the conversion. *)
Fixpoint load_tf_weights_in_albert (model : nat) (σ : store)
    (vars : list (string * tensor A)) : store * Py.result unit :=
  match vars with
  | [] => (σ, Py.Ok tt)
  | var :: vars' =>
      match convert_variable model σ var with
      | (σ', Py.Ok _) => load_tf_weights_in_albert model σ' vars'
      | (σ', Py.Raise e) => (σ', Py.Raise e)
      end
  end.

End WithElements.

End Loader.

(** ** Scalars and the layers built from them *)

(** The arithmetic of tensor elements.  [of_Z] embeds the integer constants
    the code writes ([1.0], [-10000.0], [2]) and the integer tensors it casts
    to the element type of the parameters. *)
Class Scalar (F : Type) : Type := {
  of_Z : Z -> F;
  fadd : F -> F -> F;
  fsub : F -> F -> F;
  fmul : F -> F -> F;
  fdiv : F -> F -> F;
  (** [min(max(x, lo), hi)] for integer bounds *)
  fclamp : Z -> Z -> F -> F
}.

#[export] Instance scalar_inhabited {F : Type} `{Scalar F} : Inhabited F :=
  populate (of_Z 0).

Module Nn.

Import Tensor.

Section WithScalar.

Context {F : Type} `{Scalar F}.

(** The sum of a list of scalars, accumulated from the left. *)
Definition fsum (l : list F) : F := fold_left fadd l (of_Z 0).

(** The parameters of [nn.Linear(in_features, out_features)]. *)
Record Linear : Type := {
  weight : tensor F;   (* shape (out_features, in_features) *)
  bias : tensor F      (* shape (out_features,) *)
}.

(** [nn.Linear.forward]: [x @ weight.t() + bias] on the last dimension. *)
Definition linear (self : Linear) (x : tensor F) : Py.result (tensor F) :=
  match shape (weight self), shape (bias self), rev (shape x) with
  | [out_features; in_features], [out_bias], k :: r =>
      if ((k =? in_features) && (out_bias =? out_features))%nat then
        Py.Ok (tabulate (rev r ++ [out_features])
                 (fun idx =>
                    let h := List.last idx 0%nat in
                    let pre := removelast idx in
                    fadd (fsum (map (fun k => fmul (get x (pre ++ [k]))
                                                   (get (weight self) [h; k]))
                                    (seq 0 in_features)))
                         (get (bias self) [h])))
      else Py.Raise Py.RuntimeError
  | _, _, _ => Py.Raise Py.RuntimeError
  end.

(** [weight.t()] on a matrix. *)
Definition t (m : tensor F) : Py.result (tensor F) :=
  match shape m with
  | [_; _] => Py.Ok (transpose m)
  | _ => Py.Raise Py.RuntimeError
  end.

(** [torch.einsum("bfnd,ndh->bfh", c, w)]: the sum over the pairs (n, d) of
    the products [c[b, f, n, d] * w[n, d, h]].  The library flattens the
    contracted dimensions into one and multiplies matrices: one sum over
    the pairs, in row-major order. *)
Definition einsum_bfnd_ndh_bfh (c w : tensor F) : Py.result (tensor F) :=
  match shape c, shape w with
  | [b; f; n; d], [n'; d'; h] =>
      if ((n =? n') && (d =? d'))%nat then
        Py.Ok (tabulate [b; f; h]
                 (fun idx =>
                    match idx with
                    | [ib; jf; ih] =>
                        fsum (flat_map (fun jn =>
                                   map (fun jd => fmul (get c [ib; jf; jn; jd])
                                                       (get w [jn; jd; ih]))
                                       (seq 0 d))
                                   (seq 0 n))
                    | _ => of_Z 0
                    end))
      else Py.Raise Py.RuntimeError
  | _, _ => Py.Raise Py.RuntimeError
  end.


(** The shape two shapes broadcast to, on reversed shapes. *)
Fixpoint broadcast_rev (r1 r2 : list nat) : option (list nat) :=
  match r1, r2 with
  | [], r => Some r
  | r, [] => Some r
  | a :: r1', b :: r2' =>
      if (a =? b)%nat then cons a <$> broadcast_rev r1' r2'
      else if (a =? 1)%nat then cons b <$> broadcast_rev r1' r2'
      else if (b =? 1)%nat then cons a <$> broadcast_rev r1' r2'
      else None
  end.

(** The index of an operand of reversed shape [r] that the reversed index
    [ridx] of the broadcast result reads. *)
Fixpoint broadcast_index_rev (r ridx : list nat) : list nat :=
  match r, ridx with
  | d :: r', i :: ridx' =>
      (if (d =? 1)%nat then 0%nat else i) :: broadcast_index_rev r' ridx'
  | _, _ => []
  end.

(** [a + b] on tensors, with broadcasting. *)
Definition add (a b : tensor F) : Py.result (tensor F) :=
  match broadcast_rev (rev (shape a)) (rev (shape b)) with
  | Some rs =>
      Py.Ok (tabulate (rev rs)
               (fun idx =>
                  fadd (get a (rev (broadcast_index_rev (rev (shape a)) (rev idx))))
                       (get b (rev (broadcast_index_rev (rev (shape b)) (rev idx))))))
  | None => Py.Raise Py.RuntimeError
  end.

End WithScalar.

Arguments Linear F : clear implicits.

End Nn.

(** ** Tensor values and framework primitives *)

Module Torch.

Import Tensor.

(** A tensor as Python sees it: of integers ([torch.long]) or of the element
    type of the parameters. *)
Inductive tval (F : Type) : Type :=
| TLong (t : tensor Z)
| TFloat (t : tensor F).

Arguments TLong {F} t.
Arguments TFloat {F} t.

Definition size {F : Type} (v : tval F) : list nat :=
  match v with TLong t => shape t | TFloat t => shape t end.

(** [v.to(dtype=next(self.parameters()).dtype)] *)
Definition to_float {F : Type} `{Scalar F} (v : tval F) : tensor F :=
  match v with TLong t => map_elems of_Z t | TFloat t => t end.

(** [v.view(dims)] *)
Definition view_v {F : Type} (v : tval F) (dims : list Z) : Py.result (tval F) :=
  match v with
  | TLong t => t' ← view t dims; Py.Ok (TLong t')
  | TFloat t => t' ← view t dims; Py.Ok (TFloat t')
  end.

(** The value [v.view(-1)] of a label tensor. *)
Definition flat_v {F : Type} (v : tval F) : tval F :=
  match v with
  | TLong t => TLong {| shape := [length (data t)]; data := data t |}
  | TFloat t => TFloat {| shape := [length (data t)]; data := data t |}
  end.

(** An element of an output tuple. *)
Inductive pyval (F : Type) : Type :=
| VScalar (x : F)
| VTensor (t : tensor F)
| VTuple (l : list (tensor F)).

Arguments VScalar {F} x.
Arguments VTensor {F} t.
Arguments VTuple {F} l.

(** What the repository takes from PyTorch and from [modeling_bert] without
    defining it, and [AlbertLayer.forward].  [Layer] and [Embeddings] are the
    parameters of an [AlbertLayer] and of the embeddings module.  A layer is
    a total function: the widths of its linear layers are those of the
    configuration, and on hidden states of that width it does not raise.
    The dropout modules are functions of their input: in training mode the
    random mask is the one drawn for the call at hand. *)
Class Primitives (F : Type) `{Scalar F} : Type := {
  Layer : Type;
  Embeddings : Type;
  LayerNormParams : Type;
  (** [AlbertLayer.forward] on hidden states of the configured width *)
  AlbertLayer_forward :
    Layer -> tensor F -> tensor F -> option (tensor F) -> tensor F * tensor F;
  (** [BertEmbeddings.forward(input_ids, position_ids=, token_type_ids=,
      inputs_embeds=)] *)
  BertEmbeddings_forward :
    Embeddings -> option (tval F) -> option (tval F) -> option (tval F)
    -> option (tval F) -> Py.result (tensor F);
  (** [nn.Tanh] *)
  tanh : F -> F;
  (** [nn.Dropout(config.hidden_dropout_prob)] *)
  hidden_dropout : tensor F -> tensor F;
  (** [nn.Dropout(config.attention_probs_dropout_prob)] *)
  attention_dropout : tensor F -> tensor F;
  (** [nn.LayerNorm] *)
  LayerNorm_forward : LayerNormParams -> tensor F -> tensor F;
  (** [CrossEntropyLoss(ignore_index=k)(input, target)] *)
  CrossEntropyLoss : Z -> tensor F -> tval F -> Py.result F;
  (** [MSELoss()(input, target)] *)
  MSELoss : tensor F -> tval F -> Py.result F
}.

(** The default [ignore_index] of [CrossEntropyLoss]. *)
Definition default_ignore_index : Z := -100.

End Torch.

(** ** [AlbertAttention.forward]: the output projection *)

Module Attention.

Import Tensor Torch.

Section WithPrimitives.

Context {F : Type} `{Primitives F}.

Record AlbertAttention : Type := {
  output_attentions : bool;
  num_attention_heads : nat;
  hidden_size : nat;
  attention_head_size : nat;
  all_head_size : nat;       (* set by [BertSelfAttention.__init__] *)
  dense : Nn.Linear F;
  LayerNorm : LayerNormParams
}.

(** The statements from [context_layer = context_layer.permute(...)] to
    [projected_context_layer = torch.einsum(...) + b], given the product
    [torch.matmul(attention_probs, value_layer)].  Returns
    [projected_context_layer] and [reshaped_context_layer]. *)
Definition project_context (self : AlbertAttention) (context_layer : tensor F)
  : Py.result (tensor F * tensor F) :=
  context_layer ← permute_0213 context_layer;
  let new_context_layer_shape :=
    removelast (removelast (shape context_layer)) ++ [all_head_size self] in
  reshaped_context_layer ← view context_layer (map Z.of_nat new_context_layer_shape);
  (* Should find a better way to do this *)
  wt ← Nn.t (Nn.weight (dense self));
  w ← view wt [Z.of_nat (num_attention_heads self);
               Z.of_nat (attention_head_size self);
               Z.of_nat (hidden_size self)];
  let b := Nn.bias (dense self) in
  e ← Nn.einsum_bfnd_ndh_bfh context_layer w;
  projected_context_layer ← Nn.add e b;
  Py.Ok (projected_context_layer, reshaped_context_layer).


End WithPrimitives.

End Attention.

(** ** The store of the caller's tensors *)

Module Heap.

Import Tensor Torch.

Section WithScalar.

Context {F : Type} `{Scalar F}.

(** The elements behind one or several tensor objects. *)
Inductive storage : Type :=
| SLong (l : list Z)
| SFloat (l : list F).

(** A tensor object: a reference to its storage, and its size.  An object
    spans the whole of its storage, in row-major order. *)
Record tensor_obj : Type := {
  storage_of : nat;
  size_of : list nat
}.

Record heap : Type := {
  objects : gmap nat tensor_obj;
  storages : gmap nat storage
}.

(** Computations that read and write the heap and may raise; the heap at
    the moment of the exception is kept. *)
Definition M (A : Type) : Type := heap -> heap * Py.result A.

Definition ret {A : Type} (a : A) : M A := fun h => (h, Py.Ok a).

Definition bind {A B : Type} (m : M A) (k : A -> M B) : M B :=
  fun h => match m h with
           | (h', Py.Ok a) => k a h'
           | (h', Py.Raise e) => (h', Py.Raise e)
           end.

(** A pure computation that may raise. *)
Definition lift {A : Type} (r : Py.result A) : M A := fun h => (h, r).

(** The value of the tensor behind a reference. *)
Definition read (r : nat) : M (tval F) :=
  fun h =>
    match objects h !! r with
    | Some o =>
        match storages h !! storage_of o with
        | Some (SLong l) => (h, Py.Ok (TLong {| shape := size_of o; data := l |}))
        | Some (SFloat l) => (h, Py.Ok (TFloat {| shape := size_of o; data := l |}))
        | None => (h, Py.Raise Py.RuntimeError)
        end
    | None => (h, Py.Raise Py.RuntimeError)
    end.

(** The value of an optional argument. *)
Definition read_opt (r : option nat) : M (option (tval F)) :=
  match r with
  | Some r => bind (read r) (fun v => ret (Some v))
  | None => ret None
  end.

(** [r.size()] *)
Definition size (r : nat) : M (list nat) :=
  fun h =>
    match objects h !! r with
    | Some o => (h, Py.Ok (size_of o))
    | None => (h, Py.Raise Py.RuntimeError)
    end.

(** [r.squeeze(-1)]: a new tensor object on the storage of [r]. *)
Definition squeeze_last (r : nat) : M nat :=
  fun h =>
    match objects h !! r with
    | Some o =>
        let r' := fresh (dom (objects h)) in
        ({| objects := <[r' := {| storage_of := storage_of o;
                                  size_of := squeeze_last_shape (size_of o) |}]>
                         (objects h);
            storages := storages h |},
         Py.Ok r')
    | None => (h, Py.Raise Py.RuntimeError)
    end.

(** The size that a local variable sees after
    [if len(p.size()) > 1: p = p.squeeze(-1)]. *)
Definition local_size (s : list nat) : list nat :=
  if (1 <? length s)%nat then squeeze_last_shape s else s.

Definition clamp_Z (lo hi x : Z) : Z := Z.min (Z.max x lo) hi.

(** Every element of a storage clamped into [[lo, hi]]. *)
Definition clamp_storage (lo hi : Z) (st : storage) : storage :=
  match st with
  | SLong l => SLong (map (clamp_Z lo hi) l)
  | SFloat l => SFloat (map (fclamp lo hi) l)
  end.

(** [r.clamp_(lo, hi)]: the elements of the storage of [r] are replaced. *)
Definition clamp_ (r : nat) (lo hi : Z) : M unit :=
  fun h =>
    match objects h !! r with
    | Some o =>
        match storages h !! storage_of o with
        | Some st =>
            ({| objects := objects h;
                storages := <[storage_of o := clamp_storage lo hi st]> (storages h) |},
             Py.Ok tt)
        | None => (h, Py.Raise Py.RuntimeError)
        end
    | None => (h, Py.Raise Py.RuntimeError)
    end.

End WithScalar.

Arguments heap F : clear implicits.
Arguments storage F : clear implicits.
Arguments M F A : clear implicits.

End Heap.

#[export] Instance heap_bind {F : Type} : MBind (Heap.M F) :=
  fun A B k m => Heap.bind m k.
#[export] Instance heap_ret {F : Type} : MRet (Heap.M F) :=
  fun A a => Heap.ret a.

(** ** [AlbertModel] and the task heads *)

Module Model.

Import Tensor Torch.

Section WithPrimitives.

Context {F : Type} `{Primitives F}.

(** The modules of an [AlbertModel].  [embedding_hidden_mapping_in] is the
    linear layer of the encoder ([self.encoder.embedding_hidden_mapping_in]);
    the encoder holds the configuration that the model holds. *)
Record AlbertModel : Type := {
  config : AlbertConfig;
  embeddings : Embeddings;
  embedding_hidden_mapping_in : Nn.Linear F;
  encoder : @Encoder.AlbertTransformer Layer;
  pooler : Nn.Linear F
}.

(** The tuple [AlbertModel.forward] returns:
    [(sequence_output, pooled_output) + encoder_outputs[1:]]. *)
Record albert_outputs : Type := {
  sequence_output : tensor F;
  pooled_output : tensor F;
  rest : list (pyval F)         (* [outputs[2:]] *)
}.

(** The statements on [head_mask], and the head mask as the encoder then
    indexes it: one entry per position of the first dimension of the tensor
    (a tensor without dimensions has no entry).  [None] becomes
    [[None] * num_hidden_layers]. *)
Definition prepare_head_mask (cfg : AlbertConfig) (head_mask : option (tval F))
  : Py.result (list (option (tensor F))) :=
  match head_mask with
  | Some head_mask =>
      head_mask ←
        (match length (size head_mask) with
         | 1%nat =>
             let m := to_float head_mask in
             m ← unsqueeze 0 m; m ← unsqueeze 0 m;
             let m := unsqueeze_last (unsqueeze_last m) in
             (* [expand(-1, ...)] keeps the size of the first dimension *)
             if num_hidden_layers cfg =? -1 then Py.Ok m
             else if num_hidden_layers cfg <? 0 then Py.Raise Py.RuntimeError
             else expand_first (Z.to_nat (num_hidden_layers cfg)) m
         | 2%nat =>
             let m := to_float head_mask in
             m ← unsqueeze 1 m;
             Py.Ok (unsqueeze_last (unsqueeze_last m))
         | _ => Py.Ok (to_float head_mask)
         end);
      Py.Ok (map Some (rows head_mask))
  | None => Py.Ok (repeat None (Z.to_nat (num_hidden_layers cfg)))
  end.

(** [AlbertModel.forward] *)
Definition AlbertModel_forward (self : AlbertModel)
    (input_ids attention_mask token_type_ids position_ids head_mask
       inputs_embeds : option (tval F))
  : Py.result albert_outputs :=
  input_shape ←
    match input_ids, inputs_embeds with
    | Some _, Some _ =>
        Py.Raise (Py.ValueError
          "You cannot specify both input_ids and inputs_embeds at the same time")
    | Some input_ids, None => Py.Ok (size input_ids)
    | None, Some inputs_embeds => Py.Ok (removelast (size inputs_embeds))
    | None, None =>
        Py.Raise (Py.ValueError
          "You have to specify either input_ids or inputs_embeds")
    end;
  let attention_mask :=
    match attention_mask with
    | None => TFloat (full input_shape (of_Z 1))
    | Some m => m
    end in
  let token_type_ids :=
    match token_type_ids with
    | None => TLong (full input_shape 0)
    | Some ids => ids
    end in
  extended_attention_mask ← unsqueeze 1 (to_float attention_mask);
  extended_attention_mask ← unsqueeze 2 extended_attention_mask;
  let extended_attention_mask :=
    map_elems (fun x => fmul (fsub (of_Z 1) x) (of_Z (-10000)))
              extended_attention_mask in
  head_mask ← prepare_head_mask (config self) head_mask;
  embedding_output ←
    BertEmbeddings_forward (embeddings self) input_ids position_ids
      (Some token_type_ids) inputs_embeds;
  encoder_outputs ←
    Encoder.AlbertTransformer_forward AlbertLayer_forward
      (Nn.linear (embedding_hidden_mapping_in self))
      (encoder self) embedding_output extended_attention_mask head_mask;
  let sequence_output := Encoder.last_hidden_state encoder_outputs in
  first_token ← select_first_of_dim1 sequence_output;
  pooled ← Nn.linear (pooler self) first_token;
  let pooled_output := map_elems tanh pooled in
  Py.Ok {| sequence_output := sequence_output;
           pooled_output := pooled_output;
           rest :=
             match Encoder.all_hidden_states encoder_outputs with
             | Some l => [VTuple l] | None => []
             end ++
             match Encoder.all_attentions encoder_outputs with
             | Some l => [VTuple l] | None => []
             end |}.

(** What the model takes for granted about the shapes of the framework
    layers: the embeddings give every token of [input_ids] a vector of width
    [E], and a layer returns hidden states of the shape it was given. *)
Definition embeddings_keep_shape (self : AlbertModel) (E : nat) : Prop :=
  forall input_ids position_ids token_type_ids t,
    BertEmbeddings_forward (embeddings self) (Some input_ids) position_ids
      token_type_ids None = Py.Ok t ->
    shape t = size input_ids ++ [E].

Definition layers_keep_shape : Prop :=
  forall layer h m hm, shape (AlbertLayer_forward layer h m hm).1 = shape h.

(** *** [AlbertForSequenceClassification] *)

Record AlbertForSequenceClassification : Type := {
  sc_num_labels : Z;
  sc_albert : AlbertModel;
  classifier : Nn.Linear F
}.

(** [AlbertForSequenceClassification.forward]; the result is the output
    tuple [(loss), logits, (hidden_states), (attentions)]. *)
Definition AlbertForSequenceClassification_forward
    (self : AlbertForSequenceClassification)
    (input_ids attention_mask token_type_ids position_ids head_mask
       inputs_embeds labels : option (tval F))
  : Py.result (list (pyval F)) :=
  outputs ← AlbertModel_forward (sc_albert self) input_ids attention_mask
              token_type_ids position_ids head_mask inputs_embeds;
  let pooled_output := pooled_output outputs in
  let pooled_output := hidden_dropout pooled_output in
  logits ← Nn.linear (classifier self) pooled_output;
  let outputs := VTensor logits :: rest outputs in
  match labels with
  | Some labels =>
      loss ←
        (if sc_num_labels self =? 1 then
           (* We are doing regression *)
           x ← view logits [-1]; y ← view_v labels [-1]; MSELoss x y
         else
           x ← view logits [-1; sc_num_labels self];
           y ← view_v labels [-1];
           CrossEntropyLoss default_ignore_index x y);
      Py.Ok (VScalar loss :: outputs)
  | None => Py.Ok outputs
  end.

(** *** [AlbertForQuestionAnswering] *)

Record AlbertForQuestionAnswering : Type := {
  qa_num_labels : Z;
  qa_albert : AlbertModel;
  qa_outputs : Nn.Linear F
}.

(** [start_logits, end_logits = logits.split(1, dim=-1)] followed by the
    two [squeeze(-1)]: unpacking anything but two chunks raises. *)
Definition split_logits (logits : tensor F) : Py.result (tensor F * tensor F) :=
  chunks ← split_last logits;
  match chunks with
  | [start_logits; end_logits] =>
      Py.Ok (squeeze_last start_logits, squeeze_last end_logits)
  | _ :: _ :: _ :: _ =>
      Py.Raise (Py.ValueError "too many values to unpack (expected 2)")
  | _ => Py.Raise (Py.ValueError "not enough values to unpack")
  end.

(** [start_logits.size(1)] *)
Definition size1 (t : tensor F) : Py.result Z :=
  match shape t with
  | _ :: n :: _ => Py.Ok (Z.of_nat n)
  | _ => Py.Raise Py.IndexError
  end.

(** [if len(p.size()) > 1: p = p.squeeze(-1)]: the reference the local
    variable is bound to afterwards. *)
Definition squeeze_if_batched (p : nat) : Heap.M F nat :=
  s ← Heap.size p;
  if (1 <? length s)%nat then Heap.squeeze_last p else mret p.

(** The body of [if start_positions is not None and end_positions is not
    None]: the total loss. *)
Definition qa_loss (start_logits end_logits : tensor F)
    (start_positions end_positions : nat) : Heap.M F F :=
  (* If we are on multi-GPU, split add a dimension *)
  start_positions ← squeeze_if_batched start_positions;
  end_positions ← squeeze_if_batched end_positions;
  (* sometimes the start/end positions are outside our model inputs *)
  ignored_index ← Heap.lift (size1 start_logits);
  _ ← Heap.clamp_ start_positions 0 ignored_index;
  _ ← Heap.clamp_ end_positions 0 ignored_index;
  let loss_fct := CrossEntropyLoss ignored_index in
  sp ← Heap.read start_positions;
  start_loss ← Heap.lift (loss_fct start_logits sp);
  ep ← Heap.read end_positions;
  end_loss ← Heap.lift (loss_fct end_logits ep);
  let total_loss := fdiv (fadd start_loss end_loss) (of_Z 2) in
  mret total_loss.

(** [AlbertForQuestionAnswering.forward].  The arguments are references to
    the caller's tensors; the result is the output tuple
    [(loss), start_logits, end_logits, (hidden_states), (attentions)]. *)
Definition AlbertForQuestionAnswering_forward (self : AlbertForQuestionAnswering)
    (input_ids attention_mask token_type_ids position_ids head_mask
       inputs_embeds start_positions end_positions : option nat)
  : Heap.M F (list (pyval F)) :=
  input_ids_v ← Heap.read_opt input_ids;
  attention_mask_v ← Heap.read_opt attention_mask;
  token_type_ids_v ← Heap.read_opt token_type_ids;
  position_ids_v ← Heap.read_opt position_ids;
  head_mask_v ← Heap.read_opt head_mask;
  inputs_embeds_v ← Heap.read_opt inputs_embeds;
  outputs ← Heap.lift
    (AlbertModel_forward (qa_albert self) input_ids_v attention_mask_v
       token_type_ids_v position_ids_v head_mask_v inputs_embeds_v);
  let sequence_output := sequence_output outputs in
  logits ← Heap.lift (Nn.linear (qa_outputs self) sequence_output);
  '(start_logits, end_logits) ← Heap.lift (split_logits logits);
  let outputs := VTensor start_logits :: VTensor end_logits :: rest outputs in
  match start_positions, end_positions with
  | Some start_positions, Some end_positions =>
      total_loss ← qa_loss start_logits end_logits start_positions end_positions;
      mret (VScalar total_loss :: outputs)
  | _, _ => mret outputs
  end.

(** The label tensor that the loss reads for a caller's tensor of size [s]
    with elements [l]: the elements clamped into [[0, n]], seen at the size
    of the local variable. *)
Definition clamped_target (n : nat) (s : list nat) (l : list Z) : tval F :=
  TLong {| shape := Heap.local_size s; data := map (Heap.clamp_Z 0 (Z.of_nat n)) l |}.

(** The arguments of a call are references whose values can be read. *)
Definition inputs_read (h : Heap.heap F) (refs : list (option nat))
    (values : list (option (tval F))) : Prop :=
  Forall2 (fun r v => Heap.read_opt r h = (h, Py.Ok v)) refs values.

(** The encoder of a question answering head has returned [outputs] on a
    batch of [input_ids] of shape (batch_size, sequence_length): the
    arguments of the call can be read, no [inputs_embeds] is given, and the
    layers have the widths of the configuration ([E] for the embeddings,
    [Hd] for the hidden states, two for the scores). *)
Definition batch_encoded (self : AlbertForQuestionAnswering) (h : Heap.heap F)
    (input_ids attention_mask token_type_ids position_ids head_mask : option nat)
    (B S : nat) (outputs : albert_outputs) : Prop :=
  exists (ids : tval F) (am tti pos hm : option (tval F)) (E Hd : nat),
    inputs_read h
      [input_ids; attention_mask; token_type_ids; position_ids; head_mask; None]
      [Some ids; am; tti; pos; hm; None]
    /\ size ids = [B; S]
    /\ embeddings_keep_shape (qa_albert self) E
    /\ layers_keep_shape
    /\ shape (Nn.weight (embedding_hidden_mapping_in (qa_albert self))) = [Hd; E]
    /\ shape (Nn.bias (embedding_hidden_mapping_in (qa_albert self))) = [Hd]
    /\ shape (Nn.weight (qa_outputs self)) = [2%nat; Hd]
    /\ shape (Nn.bias (qa_outputs self)) = [2%nat]
    /\ AlbertModel_forward (qa_albert self) (Some ids) am tti pos hm None
       = Py.Ok outputs.

End WithPrimitives.

End Model.

(** ** The group index as the specification words it *)

(** Modelled on the specification's wording: [floor(i / (L / G))] over the
    rationals. *)
Definition spec_group_idx (L G i : Z) : Z :=
  Qfloor (Qdiv (inject_Z i) (Qdiv (inject_Z L) (inject_Z G))).

(** ** The renaming as the specification words it *)

Module LoaderSpec.

Open Scope string_scope.

(** Modelled on the specification's wording: the literal substring
    replacements, in their fixed order. *)
Definition replacements : list (string * string) :=
  [ ("module/", "");
    ("ffn_1", "ffn");
    ("bert/", "albert/");
    ("attention_1", "attention");
    ("transform/", "");
    ("LayerNorm_1", "full_layer_layer_norm");
    ("LayerNorm", "attention/LayerNorm");
    ("transformer/", "");
    ("intermediate/dense/", "");
    ("ffn/intermediate/output/dense/", "ffn_output/");
    ("/output/", "/");
    ("/self/", "/");
    ("pooler/dense", "pooler");
    ("cls/predictions", "predictions");
    ("predictions/attention", "predictions");
    ("embeddings/attention", "embeddings");
    ("inner_group_", "albert_layers/");
    ("group_", "albert_layer_groups/") ].

(** Modelled on the specification's wording: a name has exactly one
    slash-separated component when it has no slash. *)
Definition one_component (name : string) : bool :=
  negb (Str.contains "/" name).

(** Modelled on the specification's wording: the replacements applied in
    order, then the prefix ["classifier/"] for a one-component name that
    contains ["output_bias"] or ["output_weights"]. *)
Definition remap_name_spec (name : string) : string :=
  let name :=
    fold_left (fun s '(old, new) => Str.replace old new s) replacements name in
  if one_component name
     && (Str.contains "output_bias" name || Str.contains "output_weights" name)
  then "classifier/" ++ name
  else name.

End LoaderSpec.

(** ** The squeeze of the label tensors as the specification words it *)

(** Modelled on the specification's wording: an in-place squeeze
    ([r.squeeze_(-1)]) gives the caller's tensor object itself the squeezed
    size. *)
Definition squeeze_in_place {F : Type} (r : nat) (h : Heap.heap F) : Heap.heap F :=
  {| Heap.objects :=
       match Heap.objects h !! r with
       | Some o =>
           <[r := {| Heap.storage_of := Heap.storage_of o;
                     Heap.size_of := Tensor.squeeze_last_shape (Heap.size_of o) |}]>
             (Heap.objects h)
       | None => Heap.objects h
       end;
     Heap.storages := Heap.storages h |}.

(** ** Concrete instances used to run the definitions *)

Module Examples.

(** An encoder over lists of integers: a layer appends its own name to the
    hidden state, so that the hidden state records the layers it went
    through. *)
Definition layer_fwd (l : Z) (h : list Z) (_ : unit) (_ : option unit)
  : list Z * unit := (h ++ [l], tt).

Definition cfg (L G n : Z) : AlbertConfig :=
  {| num_hidden_layers := L; num_hidden_groups := G; inner_group_num := n;
     num_labels := 2; output_attentions := false; output_hidden_states := false |}.

(** The index that the code computes at iteration [i] is the floor of the
    specification. *)
Definition idx_agrees (L G i : Z) : bool :=
  match @Encoder.group_idx (cfg L G 1) i with
  | Py.Ok g => g =? spec_group_idx L G i
  | Py.Raise _ => false
  end.

(** [idx_agrees] at every iteration of every configuration with at most
    [bound] layers whose number of groups divides the number of layers. *)
Definition idx_agrees_upto (bound : Z) : bool :=
  forallb (fun L =>
    forallb (fun G =>
      if (0 <? G) && (L mod G =? 0)
      then forallb (idx_agrees L G) (range L)
      else true)
      (range (L + 1)))
    (range (bound + 1)).

(** The encoder built for [cfg L G n]; layer [k] of group [g] is named
    [100 * g + k]. *)
Definition encoder (L G n : Z) : @Encoder.AlbertTransformer Z :=
  Encoder.AlbertTransformer_init (cfg L G n) (fun g k => 100 * g + k).

(** [AlbertTransformer.forward] on that encoder, with the head mask
    [[None] * num_hidden_layers] that [AlbertModel.forward] passes. *)
Definition run (L G n : Z) : Py.result (@Encoder.transformer_output (list Z) unit) :=
  Encoder.AlbertTransformer_forward layer_fwd (fun h => Py.Ok h)
    (encoder L G n) [] tt (repeat None (Z.to_nat L)).

(** A model with a pooler: [model.albert.pooler] is a linear layer whose
    weight has shape (2, 3) and whose bias has shape (2,). *)
Definition pooler_store : gmap nat (@Loader.obj Z) :=
  {[ 0%nat := Loader.NnModule {[ "albert"%string := 1%nat ]};
     1%nat := Loader.NnModule {[ "pooler"%string := 2%nat ]};
     2%nat := Loader.NnModule {[ "weight"%string := 3%nat; "bias"%string := 4%nat ]};
     3%nat := Loader.NnParameter
                {| Tensor.shape := [2; 3]%nat; Tensor.data := [0; 0; 0; 0; 0; 0] |};
     4%nat := Loader.NnParameter
                {| Tensor.shape := [2]%nat; Tensor.data := [0; 0] |} ]}.

(** The kernel of the pooler as TensorFlow stores it, of shape (3, 2). *)
Definition pooler_kernel : tensor Z :=
  {| Tensor.shape := [3; 2]%nat; Tensor.data := [1; 2; 3; 4; 5; 6] |}.

(** A kernel of the wrong shape (2, 2). *)
Definition bad_kernel : tensor Z :=
  {| Tensor.shape := [2; 2]%nat; Tensor.data := [1; 2; 3; 4] |}.

(** Integer scalars, and primitives that can be run: a layer adds its name
    to every element, the embeddings give each token its identifier as a
    hidden state of width one, the activations and normalisations are the
    identity, and the losses add up the labels that are not ignored. *)
#[export] Instance z_scalar : Scalar Z :=
  {| of_Z := fun z => z; fadd := Z.add; fsub := Z.sub; fmul := Z.mul;
     fdiv := Z.div; fclamp := fun lo hi x => Z.min (Z.max x lo) hi |}.

Definition toy_loss (ignore_index : Z) (target : Torch.tval Z) : Py.result Z :=
  match target with
  | Torch.TLong t =>
      Py.Ok (fold_left Z.add
               (map (fun x => if x =? ignore_index then 0 else x + 100) (Tensor.data t))
               0)
  | Torch.TFloat _ => Py.Raise Py.RuntimeError
  end.

#[export] Instance z_primitives : Torch.Primitives Z :=
  {| Torch.Layer := Z;
     Torch.Embeddings := unit;
     Torch.LayerNormParams := unit;
     Torch.AlbertLayer_forward := fun l h _ _ => (Tensor.map_elems (Z.add l) h, h);
     Torch.BertEmbeddings_forward := fun _ input_ids _ _ inputs_embeds =>
       match inputs_embeds, input_ids with
       | Some (Torch.TFloat e), _ => Py.Ok e
       | None, Some (Torch.TLong t) => Py.Ok (Tensor.unsqueeze_last t)
       | _, _ => Py.Raise Py.RuntimeError
       end;
     Torch.tanh := fun x => x;
     Torch.hidden_dropout := fun t => t;
     Torch.attention_dropout := fun t => t;
     Torch.LayerNorm_forward := fun _ t => t;
     Torch.CrossEntropyLoss := fun k _ target => toy_loss k target;
     Torch.MSELoss := fun _ target => toy_loss 0 target |}.

(** The identity on width one, as a linear layer. *)
Definition identity_linear : Nn.Linear Z :=
  {| Nn.weight := {| Tensor.shape := [1; 1]%nat; Tensor.data := [1] |};
     Nn.bias := {| Tensor.shape := [1]%nat; Tensor.data := [0] |} |}.

(** An [AlbertModel] with two layers in one group and hidden width one. *)
Definition albert : @Model.AlbertModel Z z_scalar z_primitives :=
  {| Model.config := cfg 2 1 1;
     Model.embeddings := tt;
     Model.embedding_hidden_mapping_in := identity_linear;
     Model.encoder := Encoder.AlbertTransformer_init (cfg 2 1 1) (fun g k => 1);
     Model.pooler := identity_linear |}.

(** A question answering head: the start score of a token is its hidden
    state, the end score is twice its hidden state plus ten. *)
Definition qa_model : @Model.AlbertForQuestionAnswering Z z_scalar z_primitives :=
  {| Model.qa_num_labels := 2;
     Model.qa_albert := albert;
     Model.qa_outputs :=
       {| Nn.weight := {| Tensor.shape := [2; 1]%nat; Tensor.data := [1; 2] |};
          Nn.bias := {| Tensor.shape := [2]%nat; Tensor.data := [0; 10] |} |} |}.

(** A head for sequence classification with [n] labels. *)
Definition sc_model (n : Z) (w b : list Z)
  : @Model.AlbertForSequenceClassification Z z_scalar z_primitives :=
  {| Model.sc_num_labels := n;
     Model.sc_albert := albert;
     Model.classifier :=
       {| Nn.weight := {| Tensor.shape := [Z.to_nat n; 1%nat]; Tensor.data := w |};
          Nn.bias := {| Tensor.shape := [Z.to_nat n]; Tensor.data := b |} |} |}.

(** The caller's tensors: [input_ids] of size (1, 3), [start_positions] of
    size (1, 1) holding 9, and [end_positions] of size (1,) holding -4. *)
Definition caller_heap : Heap.heap Z :=
  {| Heap.objects :=
       {[ 0%nat := {| Heap.storage_of := 10%nat; Heap.size_of := [1; 3]%nat |};
          1%nat := {| Heap.storage_of := 11%nat; Heap.size_of := [1; 1]%nat |};
          2%nat := {| Heap.storage_of := 12%nat; Heap.size_of := [1]%nat |} ]};
     Heap.storages :=
       {[ 10%nat := Heap.SLong [5; 6; 7];
          11%nat := Heap.SLong [9];
          12%nat := Heap.SLong [-4] ]} |}.

Definition input_ids_value : Torch.tval Z :=
  Torch.TLong {| Tensor.shape := [1; 3]%nat; Tensor.data := [5; 6; 7] |}.

(** An attention module with two heads of size one and hidden size two. *)
Definition attention : @Attention.AlbertAttention Z z_scalar z_primitives :=
  {| Attention.output_attentions := false;
     Attention.num_attention_heads := 2;
     Attention.hidden_size := 2;
     Attention.attention_head_size := 1;
     Attention.all_head_size := 2;
     Attention.dense :=
       {| Nn.weight := {| Tensor.shape := [2; 2]%nat; Tensor.data := [1; 2; 3; 4] |};
          Nn.bias := {| Tensor.shape := [2]%nat; Tensor.data := [10; 20] |} |};
     Attention.LayerNorm := tt |}.

(** A context layer of shape (1, 2, 1, 1): batch, heads, sequence, head size. *)
Definition context : tensor Z :=
  {| Tensor.shape := [1; 2; 1; 1]%nat; Tensor.data := [5; 6] |}.

(** What the encoder of the examples returns on [input_ids]. *)
Definition encoded : @Model.albert_outputs Z :=
  {| Model.sequence_output := {| Tensor.shape := [1; 3; 1]%nat; Tensor.data := [7; 8; 9] |};
     Model.pooled_output := {| Tensor.shape := [1; 1]%nat; Tensor.data := [7] |};
     Model.rest := [] |}.

End Examples.

(** ** The structure of a model: what the checkpoint loader reads of it *)

Module Structure.

Import Tensor Loader.

Section WithElements.

Context {A : Type} `{Inhabited A}.

(** Two objects are alike when they are the same module, the same module
    list, or two parameters of the same shape. *)
Definition alike (o o' : @obj A) : Prop :=
  match o, o' with
  | NnModule attrs, NnModule attrs' => attrs = attrs'
  | NnModuleList items, NnModuleList items' => items = items'
  | NnParameter t, NnParameter t' => shape t = shape t'
  | _, _ => False
  end.

(** Two stores have the same structure when they hold alike objects at the
    same references. *)
Definition same_structure (σ σ' : gmap nat (@obj A)) : Prop :=
  forall l, option_Forall2 alike (σ !! l) (σ' !! l).

End WithElements.

End Structure.

(** ** [split_ques_context] *)

Module Split.

(** A tensor of shape (batch_size, sequence_length, hidden_size) is the
    list of its rows, a row the list of its hidden vectors; the function
    moves whole hidden vectors and never looks inside one.  A mask of shape
    (batch_size, length) is the list of its rows of scalars. *)

Definition ques_max_len : Z := 64.
Definition context_max_len : Z := 512 - 64.
Definition sep_tok_len : Z := 1.

(** [dst[a:b] = src] along one dimension: the source has as many entries
    as the slice, or a single entry that is repeated over the slice; any
    other length raises. *)
Definition setslice {X : Type} (dst : list X) (a b : Z) (src : list X)
  : Py.result (list X) :=
  let n := Z.of_nat (length dst) in
  let lo := Z.to_nat (Py.slice_bound n a) in
  let m := Z.to_nat (Py.slice_bound n b - Py.slice_bound n a) in
  if (length src =? m)%nat
  then Py.Ok (firstn lo dst ++ src ++ skipn (lo + m) dst)
  else match src with
       | [x] => Py.Ok (firstn lo dst ++ repeat x m ++ skipn (lo + m) dst)
       | _ => Py.Raise Py.RuntimeError
       end.

(** [t[i, a:b]] *)
Definition getitem_row_slice {X : Type} (t : list (list X)) (i a b : Z)
  : Py.result (list X) :=
  row ← Py.getitem t i; Py.Ok (Py.slice row a b).

(** [t[i, a:b] = src] *)
Definition setitem_row_slice {X : Type} (t : list (list X)) (i a b : Z)
    (src : list X) : Py.result (list (list X)) :=
  row ← Py.getitem t i;
  row' ← setslice row a b src;
  let j := if i <? 0 then i + Z.of_nat (length t) else i in
  Py.Ok (<[Z.to_nat j := row']> t).

Section WithVectors.

Context {F : Type} `{Scalar F} {V : Type}.

(** The hidden vector of zeros, of the width of the hidden vectors of
    [sequence_output]. *)
Variable zeros : V.

(** The four tensors that the function fills and returns. *)
Record outputs : Type := {
  ques_sequence_output : list (list V);
  context_sequence_output : list (list V);
  ques_attention_mask : list (list F);
  context_attention_mask : list (list F)
}.

(** The body of the loop for row [i] of the batch. *)
Definition split_step (sequence_output : list (list V))
    (pq_end_pos : list (list Z)) (st : outputs) (i : Z) : Py.result outputs :=
  pq ← Py.getitem pq_end_pos i;
  q_end ← Py.getitem pq 0;
  pq ← Py.getitem pq_end_pos i;
  p_end ← Py.getitem pq 1;
  src ← getitem_row_slice sequence_output i 1 (1 + Z.min ques_max_len q_end);
  ques ← setitem_row_slice (ques_sequence_output st) i 0
            (Z.min ques_max_len q_end) src;
  src ← getitem_row_slice sequence_output i (q_end + sep_tok_len + 1)
          (q_end + sep_tok_len + 1
           + Z.min (p_end - q_end - sep_tok_len) context_max_len);
  context ← setitem_row_slice (context_sequence_output st) i 0
               (Z.min context_max_len (p_end - q_end - sep_tok_len)) src;
  ones ← getitem_row_slice [repeat (of_Z 1) (Z.to_nat context_max_len)] 0 0
           (Z.min context_max_len (p_end - q_end - sep_tok_len));
  context_mask ← setitem_row_slice (context_attention_mask st) i 0
                    (Z.min context_max_len (p_end - q_end - sep_tok_len)) ones;
  ones ← getitem_row_slice [repeat (of_Z 1) (Z.to_nat ques_max_len)] 0 0
           (Z.min ques_max_len q_end);
  ques_mask ← setitem_row_slice (ques_attention_mask st) i 0
                 (Z.min ques_max_len q_end) ones;
  Py.Ok {| ques_sequence_output := ques;
           context_sequence_output := context;
           ques_attention_mask := ques_mask;
           context_attention_mask := context_mask |}.

(** [split_ques_context(sequence_output, pq_end_pos)] *)
Definition split_ques_context (sequence_output : list (list V))
    (pq_end_pos : list (list Z)) : Py.result outputs :=
  let batch_size := length sequence_output in
  let ques_sequence_output :=
    repeat (repeat zeros (Z.to_nat ques_max_len)) batch_size in
  let context_sequence_output :=
    repeat (repeat zeros (Z.to_nat context_max_len)) batch_size in
  let context_attention_mask :=
    repeat (repeat (of_Z 0) (Z.to_nat context_max_len)) batch_size in
  let ques_attention_mask :=
    repeat (repeat (of_Z 0) (Z.to_nat ques_max_len)) batch_size in
  for_each (split_step sequence_output pq_end_pos)
           (range (Z.of_nat batch_size))
           {| ques_sequence_output := ques_sequence_output;
              context_sequence_output := context_sequence_output;
              ques_attention_mask := ques_attention_mask;
              context_attention_mask := context_attention_mask |}.

End WithVectors.

(** What a row of the batch asks of its entry of [pq_end_pos]: the end of
    the question [q] and the end of the context [p], in this order, a
    context that does not end before it starts, and a sequence long enough
    to hold the tokens that are copied. *)
Definition row_fits {V : Type} (row : list V) (pq : list Z) (q p : Z) : Prop :=
  (exists rest, pq = q :: p :: rest)
  /\ 0 <= q /\ q + 1 <= p
  /\ q + 2 + Z.min context_max_len (p - q - 1) <= Z.of_nat (length row).

(** [l] followed by copies of [pad] up to the length [n]. *)
Definition padded {X : Type} (pad : X) (n : Z) (l : list X) : list X :=
  l ++ repeat pad (Z.to_nat n - length l).

(** The tokens of the question: at most [ques_max_len] tokens from position
    1 on. *)
Definition question_tokens {V : Type} (row : list V) (q : Z) : list V :=
  firstn (Z.to_nat (Z.min ques_max_len q)) (skipn 1 row).

(** The tokens of the context: at most [context_max_len] tokens from
    position [q + 2] on, up to position [p]. *)
Definition context_tokens {V : Type} (row : list V) (q p : Z) : list V :=
  firstn (Z.to_nat (Z.min context_max_len (p - q - 1)))
         (skipn (Z.to_nat (q + 2)) row).

(** The state of the loop before iteration [a]: the rows below [a] are
    filled, the rows from [a] on are zero. *)
Definition rows_filled {F : Type} `{Scalar F} {V : Type} (zeros : V)
    (sequence_output : list (list V)) (pq_end_pos : list (list Z)) (a : nat)
    (st : @outputs F V) : Prop :=
  (length (ques_sequence_output st) = length sequence_output
   /\ length (context_sequence_output st) = length sequence_output
   /\ length (ques_attention_mask st) = length sequence_output
   /\ length (context_attention_mask st) = length sequence_output)
  /\ (forall i, (a <= i < length sequence_output)%nat ->
        ques_sequence_output st !! i = Some (repeat zeros (Z.to_nat ques_max_len))
        /\ context_sequence_output st !! i
           = Some (repeat zeros (Z.to_nat context_max_len))
        /\ ques_attention_mask st !! i
           = Some (repeat (of_Z 0) (Z.to_nat ques_max_len))
        /\ context_attention_mask st !! i
           = Some (repeat (of_Z 0) (Z.to_nat context_max_len)))
  /\ (forall i row pq q p, (i < a)%nat ->
        sequence_output !! i = Some row -> pq_end_pos !! i = Some pq ->
        row_fits row pq q p ->
        ques_sequence_output st !! i
        = Some (padded zeros ques_max_len (question_tokens row q))
        /\ context_sequence_output st !! i
           = Some (padded zeros context_max_len (context_tokens row q p))
        /\ ques_attention_mask st !! i
           = Some (padded (of_Z 0) ques_max_len
                     (repeat (of_Z 1) (Z.to_nat (Z.min ques_max_len q))))
        /\ context_attention_mask st !! i
           = Some (padded (of_Z 0) context_max_len
                     (repeat (of_Z 1)
                        (Z.to_nat (Z.min context_max_len (p - q - 1)))))).

End Split.

(** ** [AlbertAttention.prune_heads] and [AlbertModel._prune_heads] *)

Module Pruning.

(** [l[i] = x] on a Python sequence or along the first dimension of a
    tensor: negative indices count from the end, an index outside
    [-len, len) raises [IndexError]. *)
Definition setitem {X : Type} (l : list X) (i : Z) (x : X) : Py.result (list X) :=
  let n := Z.of_nat (length l) in
  let j := if i <? 0 then i + n else i in
  if (j <? 0) || (n <=? j) then Py.Raise Py.IndexError
  else Py.Ok (<[Z.to_nat j := x]> l).

(** [torch.ones(n, d)]: a negative size raises. *)
Definition ones (n d : Z) : Py.result (list (list Z)) :=
  if (n <? 0) || (d <? 0) then Py.Raise Py.RuntimeError
  else Py.Ok (repeat (repeat 1 (Z.to_nat d)) (Z.to_nat n)).

(** [sum(1 if h < head else 0 for h in pruned_heads)] *)
Definition pruned_before (pruned_heads : gset Z) (head : Z) : Z :=
  Z.of_nat (length (List.filter (fun h => h <? head) (elements pruned_heads))).

(** The row of the mask that stands for a head that has not been pruned:
    the head number less the number of pruned heads before it. *)
Definition row_of (pruned_heads : gset Z) (head : Z) : Z :=
  head - pruned_before pruned_heads head.

(** The number of entries of a flat mask that hold one. *)
Definition count_ones (mask : list Z) : nat :=
  length (List.filter (fun x => x =? 1) mask).

(** The mask of [n] rows of width [d] after the heads [done] have been
    zeroed: the rows of these heads hold zeros, the other rows hold ones. *)
Definition masked (pruned_heads : gset Z) (n d : nat) (done : list Z)
    (mask : list (list Z)) : Prop :=
  length mask = n
  /\ Forall (fun row => length row = d) mask
  /\ (forall h, In h done ->
        mask !! Z.to_nat (row_of pruned_heads h) = Some (repeat 0 d))
  /\ (forall r, (r < n)%nat ->
        (forall h, In h done -> Z.to_nat (row_of pruned_heads h) <> r) ->
        mask !! r = Some (repeat 1 d))
  /\ (count_ones (concat mask) + d * length done)%nat = (d * n)%nat.

(** [torch.arange(len(mask))[mask]]: the positions at which the flat mask
    holds one, in increasing order. *)
Definition positions_of_ones (mask : list Z) : list nat :=
  List.filter (fun i => nth i mask 0 =? 1) (seq 0 (length mask)).

Section WithLinear.

(** The parameters of a linear layer, and [prune_linear_layer(layer, index,
    dim)] of [modeling_utils], which keeps the entries of [layer] at [index]
    along [dim]. *)
Context {Linear : Type}.
Variable prune_linear_layer : Linear -> list nat -> nat -> Py.result Linear.

(** The attributes of an [AlbertAttention] that [prune_heads] reads and
    writes. *)
Record AlbertAttention : Type := {
  num_attention_heads : Z;
  attention_head_size : Z;
  all_head_size : Z;
  pruned_heads : gset Z;
  query : Linear;
  key : Linear;
  value : Linear;
  dense : Linear
}.

(** One iteration of [for head in heads]. *)
Definition mask_step (self : AlbertAttention) (mask : list (list Z)) (head : Z)
  : Py.result (list (list Z)) :=
  (* Compute how many pruned heads are before the head and move the index
     accordingly *)
  let head := head - pruned_before (pruned_heads self) head in
  setitem mask head (repeat 0 (Z.to_nat (attention_head_size self))).

(** The statements of [prune_heads] from [mask = torch.ones(...)] to
    [index = ...], for the set [heads] of the heads that are not pruned
    yet.  The loop runs over the elements of a set; every exception it can
    raise is the same [IndexError] and the mask it builds does not depend
    on the order, so the order of [elements] stands for the order of the
    interpreter. *)
Definition kept_index (self : AlbertAttention) (heads : gset Z)
  : Py.result (list nat) :=
  mask ← ones (num_attention_heads self) (attention_head_size self);
  mask ← for_each (mask_step self) (elements heads) mask;
  let mask := concat mask in
  Py.Ok (positions_of_ones mask).

(** [AlbertAttention.prune_heads(heads)]: the attention module afterwards. *)
Definition prune_heads (self : AlbertAttention) (heads : list Z)
  : Py.result AlbertAttention :=
  if (length heads =? 0)%nat then Py.Ok self
  else
    (* Convert to set and remove already pruned heads *)
    let heads : gset Z := list_to_set heads ∖ pruned_heads self in
    index ← kept_index self heads;
    (* Prune linear layers *)
    query ← prune_linear_layer (query self) index 0;
    key ← prune_linear_layer (key self) index 0;
    value ← prune_linear_layer (value self) index 0;
    dense ← prune_linear_layer (dense self) index 1;
    (* Update hyper params and store pruned heads *)
    let num_attention_heads := num_attention_heads self - Z.of_nat (size heads) in
    Py.Ok {| num_attention_heads := num_attention_heads;
             attention_head_size := attention_head_size self;
             all_head_size := attention_head_size self * num_attention_heads;
             pruned_heads := pruned_heads self ∪ heads;
             query := query; key := key; value := value; dense := dense |}.

(** An attention module built with [heads] heads of which the set
    [pruned_heads] has been pruned: the pruned heads are heads of the
    module, and [num_attention_heads] counts the others. *)
Definition consistent (heads : Z) (self : AlbertAttention) : Prop :=
  (forall h, h ∈ pruned_heads self -> 0 <= h < heads)
  /\ num_attention_heads self = heads - Z.of_nat (size (pruned_heads self))
  /\ 0 <= heads
  /\ 0 <= attention_head_size self.

End WithLinear.

(** The position that the index [i] stands for in a sequence of length
    [n], for an index inside [-n, n). *)
Definition abs_index (n : nat) (i : Z) : nat :=
  Z.to_nat (if i <? 0 then i + Z.of_nat n else i).

Section WithModel.

Context {F : Type} `{Torch.Primitives F}.

(** [layer.attention.prune_heads(heads)] on an [AlbertLayer]: the layer
    afterwards. *)
Variable layer_prune_heads : Torch.Layer -> list Z -> Py.result Torch.Layer.

(** The body of the loop of [_prune_heads] for one item of the
    dictionary. *)
Definition prune_layer (self : Model.AlbertModel) (item : Z * list Z)
  : Py.result Model.AlbertModel :=
  let '(layer, heads) := item in
  let inner_group_num := inner_group_num (Model.config self) in
  q ← PyFloat.int_truediv layer inner_group_num;
  group_idx ← PyFloat.to_int q;
  let inner_group_idx := layer - group_idx * inner_group_num in
  let groups := Encoder.albert_layer_groups (Model.encoder self) in
  group ← Py.getitem groups group_idx;
  albert_layer ← Py.getitem (Encoder.albert_layers group) inner_group_idx;
  albert_layer ← layer_prune_heads albert_layer heads;
  let group :=
    {| Encoder.albert_layers :=
         <[abs_index (length (Encoder.albert_layers group)) inner_group_idx
             := albert_layer]> (Encoder.albert_layers group) |} in
  Py.Ok {| Model.config := Model.config self;
           Model.embeddings := Model.embeddings self;
           Model.embedding_hidden_mapping_in := Model.embedding_hidden_mapping_in self;
           Model.encoder :=
             {| Encoder.config := Encoder.config (Model.encoder self);
                Encoder.albert_layer_groups :=
                  <[abs_index (length groups) group_idx := group]> groups |};
           Model.pooler := Model.pooler self |}.

(** [AlbertModel._prune_heads(heads_to_prune)]: the model afterwards, when
    no exception is raised.  The dictionary is the list of its items in
    the order of insertion. *)
Definition _prune_heads (self : Model.AlbertModel)
    (heads_to_prune : list (Z * list Z)) : Py.result Model.AlbertModel :=
  for_each prune_layer heads_to_prune self.

End WithModel.

(** [int(layer / n)] is the quotient of the integer division. *)
Definition quotient_exact (n layer : Z) : bool :=
  match (q ← PyFloat.int_truediv layer n; PyFloat.to_int q) with
  | Py.Ok g => g =? layer / n
  | Py.Raise _ => false
  end.

End Pruning.

(** ** [AlbertTrmCoAtt]: splitting the hidden states into heads *)

Module CoAttention.

Import Tensor.

(** The attributes of an [AlbertTrmCoAtt] that the reshaping of the heads
    reads. *)
Record AlbertTrmCoAtt : Type := {
  num_attention_heads : nat;
  attention_head_size : nat;
  all_head_size : nat
}.

Section WithElements.

Context {A : Type} `{Inhabited A}.

(** [AlbertTrmCoAtt.transpose_for_scores] *)
Definition transpose_for_scores (self : AlbertTrmCoAtt) (x : tensor A)
  : Py.result (tensor A) :=
  let new_x_shape :=
    removelast (shape x) ++ [num_attention_heads self; attention_head_size self] in
  x ← view x (map Z.of_nat new_x_shape);
  permute_0213 x.

(** The statements of [AlbertTrmCoAtt.forward] that bring the heads of the
    context layer back together, from [context_layer.permute(0, 2, 1, 3)] to
    [reshaped_context_layer = context_layer.view(...)]. *)
Definition reshape_context (self : AlbertTrmCoAtt) (context_layer : tensor A)
  : Py.result (tensor A) :=
  context_layer ← permute_0213 context_layer;
  let new_context_layer_shape :=
    removelast (removelast (shape context_layer)) ++ [all_head_size self] in
  view context_layer (map Z.of_nat new_context_layer_shape).

End WithElements.

End CoAttention.

(** ** Further heads: [PoolerStartLogits], [AlbertForMaskedLM] and
    [AlbertForQuestionAnsweringAVPool] *)

Module Heads.

Import Tensor Torch Model.

Section WithScalar.

Context {F : Type} `{Scalar F}.

(** [f(a, b)] element by element on two tensors, with broadcasting. *)
Definition binop (f : F -> F -> F) (a b : tensor F) : Py.result (tensor F) :=
  match Nn.broadcast_rev (rev (shape a)) (rev (shape b)) with
  | Some rs =>
      Py.Ok (tabulate (rev rs)
               (fun idx =>
                  f (get a (rev (Nn.broadcast_index_rev (rev (shape a)) (rev idx))))
                    (get b (rev (Nn.broadcast_index_rev (rev (shape b)) (rev idx))))))
  | None => Py.Raise Py.RuntimeError
  end.

(** The parameters of a [PoolerStartLogits]; [half] says whether they are
    of type [torch.float16]. *)
Record PoolerStartLogits : Type := {
  psl_dense : Nn.Linear F;
  half : bool
}.

(** [PoolerStartLogits.forward] *)
Definition PoolerStartLogits_forward (self : PoolerStartLogits)
    (hidden_states : tensor F) (p_mask : option (tensor F))
  : Py.result (tensor F) :=
  x ← Nn.linear (psl_dense self) hidden_states;
  let x := squeeze_last x in
  match p_mask with
  | Some p_mask =>
      let large := if half self then 65500 else 10 ^ 30 in
      kept ← binop fmul x (map_elems (fsub (of_Z 1)) p_mask);
      binop fsub kept (map_elems (fmul (of_Z large)) p_mask)
  | None => Py.Ok x
  end.

End WithScalar.

Section WithPrimitives.

Context {F : Type} `{Primitives F}.

(** The activation [ACT2FN[config.hidden_act]], applied element by
    element. *)
Variable activation : F -> F.

(** *** [AlbertMLMHead] and [AlbertForMaskedLM] *)

Record AlbertMLMHead : Type := {
  mlm_LayerNorm : LayerNormParams;
  mlm_bias : tensor F;
  mlm_dense : Nn.Linear F;
  decoder : Nn.Linear F
}.

(** [AlbertMLMHead.forward] *)
Definition AlbertMLMHead_forward (self : AlbertMLMHead) (hidden_states : tensor F)
  : Py.result (tensor F) :=
  hidden_states ← Nn.linear (mlm_dense self) hidden_states;
  let hidden_states := map_elems activation hidden_states in
  let hidden_states := LayerNorm_forward (mlm_LayerNorm self) hidden_states in
  hidden_states ← Nn.linear (decoder self) hidden_states;
  prediction_scores ← Nn.add hidden_states (mlm_bias self);
  Py.Ok prediction_scores.

Record AlbertForMaskedLM : Type := {
  vocab_size : Z;                 (* [config.vocab_size] *)
  mlm_albert : AlbertModel;
  predictions : AlbertMLMHead
}.

(** [AlbertForMaskedLM.forward]; the result is the output tuple
    [(masked_lm_loss), prediction_scores, (hidden_states), (attentions)]. *)
Definition AlbertForMaskedLM_forward (self : AlbertForMaskedLM)
    (input_ids attention_mask token_type_ids position_ids head_mask
       inputs_embeds masked_lm_labels : option (tval F))
  : Py.result (list (pyval F)) :=
  outputs ← AlbertModel_forward (mlm_albert self) input_ids attention_mask
              token_type_ids position_ids head_mask inputs_embeds;
  let sequence_outputs := sequence_output outputs in
  prediction_scores ← AlbertMLMHead_forward (predictions self) sequence_outputs;
  let outputs := VTensor prediction_scores :: rest outputs in
  match masked_lm_labels with
  | Some masked_lm_labels =>
      x ← view prediction_scores [-1; vocab_size self];
      y ← view_v masked_lm_labels [-1];
      masked_lm_loss ← CrossEntropyLoss (-1) x y;
      Py.Ok (VScalar masked_lm_loss :: outputs)
  | None => Py.Ok outputs
  end.

(** *** [AlbertForQuestionAnsweringAVPool] *)

(** [has_ans] is [nn.Sequential(nn.Dropout(p=config.hidden_dropout_prob),
    nn.Linear(config.hidden_size, 2))]; the record holds its linear layer. *)
Record AlbertForQuestionAnsweringAVPool : Type := {
  avp_albert : AlbertModel;
  avp_qa_outputs : Nn.Linear F;
  has_ans : Nn.Linear F
}.

(** [t[:, 0, :]] *)
Definition first_word_of (t : tensor F) : Py.result (tensor F) :=
  match shape t with
  | b :: S _ :: _ :: s => select_first_of_dim1 t
  | _ => Py.Raise Py.IndexError
  end.

(** [if len(p.size()) > 1: p = p.squeeze(-1)] for an argument that may be
    [None]: [None.size] raises [AttributeError]. *)
Definition squeeze_label (p : option nat) : Heap.M F nat :=
  match p with
  | Some p => squeeze_if_batched p
  | None => Heap.lift (Py.Raise Py.AttributeError)
  end.

(** The body of [if start_positions is not None and end_positions is not
    None]: the total loss. *)
Definition avpool_loss (start_logits end_logits has_log : tensor F)
    (start_positions end_positions : nat) (is_impossibles : option nat)
  : Heap.M F F :=
  (* If we are on multi-GPU, split add a dimension *)
  start_positions ← squeeze_if_batched start_positions;
  end_positions ← squeeze_if_batched end_positions;
  is_impossibles ← squeeze_label is_impossibles;
  (* sometimes the start/end positions are outside our model inputs *)
  ignored_index ← Heap.lift (size1 start_logits);
  _ ← Heap.clamp_ start_positions 0 ignored_index;
  _ ← Heap.clamp_ end_positions 0 ignored_index;
  _ ← Heap.clamp_ is_impossibles 0 ignored_index;
  let loss_fct := CrossEntropyLoss ignored_index in
  sp ← Heap.read start_positions;
  start_loss ← Heap.lift (loss_fct start_logits sp);
  ep ← Heap.read end_positions;
  end_loss ← Heap.lift (loss_fct end_logits ep);
  imp ← Heap.read is_impossibles;
  choice_loss ← Heap.lift (loss_fct has_log imp);
  let total_loss := fdiv (fadd (fadd start_loss end_loss) choice_loss) (of_Z 3) in
  mret total_loss.

(** [AlbertForQuestionAnsweringAVPool.forward].  The arguments are
    references to the caller's tensors; the result is the output tuple
    [(loss), start_logits, end_logits, has_log, (hidden_states),
    (attentions)]. *)
Definition AlbertForQuestionAnsweringAVPool_forward
    (self : AlbertForQuestionAnsweringAVPool)
    (input_ids attention_mask token_type_ids position_ids head_mask
       inputs_embeds start_positions end_positions is_impossibles : option nat)
  : Heap.M F (list (pyval F)) :=
  input_ids_v ← Heap.read_opt input_ids;
  attention_mask_v ← Heap.read_opt attention_mask;
  token_type_ids_v ← Heap.read_opt token_type_ids;
  position_ids_v ← Heap.read_opt position_ids;
  head_mask_v ← Heap.read_opt head_mask;
  inputs_embeds_v ← Heap.read_opt inputs_embeds;
  outputs ← Heap.lift
    (AlbertModel_forward (avp_albert self) input_ids_v attention_mask_v
       token_type_ids_v position_ids_v head_mask_v inputs_embeds_v);
  let sequence_output := sequence_output outputs in
  logits ← Heap.lift (Nn.linear (avp_qa_outputs self) sequence_output);
  '(start_logits, end_logits) ← Heap.lift (split_logits logits);
  first_word ← Heap.lift (first_word_of sequence_output);
  has_log ← Heap.lift (Nn.linear (has_ans self) (hidden_dropout first_word));
  let outputs :=
    VTensor start_logits :: VTensor end_logits :: VTensor has_log :: rest outputs in
  match start_positions, end_positions with
  | Some start_positions, Some end_positions =>
      total_loss ← avpool_loss start_logits end_logits has_log
                     start_positions end_positions is_impossibles;
      mret (VScalar total_loss :: outputs)
  | _, _ => mret outputs
  end.

End WithPrimitives.

End Heads.

(** ** Checks on configurations with a single group *)

Module SingleGroup.

(** With one group, [int(L / 1)] is [L] and every iteration uses group 0. *)
Definition exact (L : Z) : bool :=
  match (q ← PyFloat.int_truediv L 1; PyFloat.to_int q) with
  | Py.Ok lpg =>
      (lpg =? L)
      && forallb (fun i =>
           match (q ← PyFloat.int_truediv L 1;
                  x ← PyFloat.int_div_float i q;
                  PyFloat.to_int x) with
           | Py.Ok g => g =? 0
           | Py.Raise _ => false
           end)
           (range L)
  | Py.Raise _ => false
  end.

End SingleGroup.

(** ** Further concrete instances *)

Module MoreExamples.

(** The pooler of [Examples.pooler_store] with another weight of the same
    shape. *)
Definition other_weight : tensor Z :=
  {| Tensor.shape := [2; 3]%nat; Tensor.data := [9; 9; 9; 9; 9; 9] |}.

Definition other_store : gmap nat (@Loader.obj Z) :=
  Loader.set_data Examples.pooler_store (Loader.PObj 3) other_weight.

(** A checkpoint whose second variable has the wrong shape. *)
Definition good_variable : string * tensor Z :=
  ("bert/pooler/dense/kernel"%string, Examples.pooler_kernel).

Definition bad_variable : string * tensor Z :=
  ("bert/pooler/dense/kernel"%string, Examples.bad_kernel).

Definition bias_variable : string * tensor Z :=
  ("bert/pooler/dense/bias"%string,
   {| Tensor.shape := [2]%nat; Tensor.data := [7; 8] |}).

(** A configuration that asks for the hidden states and the attentions. *)
Definition cfg_all (L G n : Z) : AlbertConfig :=
  {| num_hidden_layers := L; num_hidden_groups := G; inner_group_num := n;
     num_labels := 2; output_attentions := true; output_hidden_states := true |}.

(** A layer that appends the product of its name and of its entry of the
    head mask to the hidden state, and returns its name as attention. *)
Definition masked_layer (l : Z) (h : list Z) (_ : unit) (hm : Z) : list Z * Z :=
  (h ++ [l * hm], l).

Definition run_all (L G n : Z) (head_mask : list Z)
  : Py.result (@Encoder.transformer_output (list Z) Z) :=
  Encoder.AlbertTransformer_forward masked_layer (fun h => Py.Ok h)
    (Encoder.AlbertTransformer_init (cfg_all L G n) (fun g k => 10 * g + k + 1))
    [] tt head_mask.

(** A batch of one sequence of six tokens, a question that ends at
    position 2 and a context that ends at position 4. *)
Definition tokens : list (list Z) := [[10; 11; 12; 13; 14; 15]].
Definition ends : list (list Z) := [[2; 4]].

(** A sequence of three tokens for a question said to end at position 5. *)
Definition short_tokens : list (list Z) := [[10; 11; 12]].
Definition long_ends : list (list Z) := [[5; 9]].

(** Linear layers that remember the index and the dimension they were
    pruned with. *)
Definition pruned_with (layer : list nat * nat) (index : list nat) (dim : nat)
  : Py.result (list nat * nat) := Py.Ok (index, dim).

(** An attention module built with four heads of size two, of which head 0
    has been pruned. *)
Definition attention_heads : @Pruning.AlbertAttention (list nat * nat) :=
  {| Pruning.num_attention_heads := 3;
     Pruning.attention_head_size := 2;
     Pruning.all_head_size := 6;
     Pruning.pruned_heads := {[ 0 ]};
     Pruning.query := ([], 0%nat);
     Pruning.key := ([], 0%nat);
     Pruning.value := ([], 0%nat);
     Pruning.dense := ([], 0%nat) |}.

(** An [AlbertModel] with two groups of two layers; layer [k] of group [g]
    is named [10 * g + k]. *)
Definition albert22 : @Model.AlbertModel Z Examples.z_scalar Examples.z_primitives :=
  {| Model.config := Examples.cfg 4 2 2;
     Model.embeddings := (tt : @Torch.Embeddings Z Examples.z_scalar Examples.z_primitives);
     Model.embedding_hidden_mapping_in := Examples.identity_linear;
     Model.encoder :=
       @Encoder.AlbertTransformer_init Z (Examples.cfg 4 2 2) (fun g k => 10 * g + k);
     Model.pooler := Examples.identity_linear |}.

(** Pruning heads in a layer, seen on its name only: the name gets 100 for
    each head. *)
Definition prune_named (layer : Z) (heads : list Z) : Py.result Z :=
  Py.Ok (layer + 100 * Z.of_nat (length heads)).

(** Two heads of size one, and hidden states of shape (1, 2, 2). *)
Definition two_heads : CoAttention.AlbertTrmCoAtt :=
  {| CoAttention.num_attention_heads := 2;
     CoAttention.attention_head_size := 1;
     CoAttention.all_head_size := 2 |}.

Definition hidden122 : tensor Z :=
  {| Tensor.shape := [1; 2; 2]%nat; Tensor.data := [1; 2; 3; 4] |}.

(** A start pooler with the score [3 * h + 1], hidden states of shape
    (1, 2, 1), and a mask that hides the second position. *)
Definition start_pooler : @Heads.PoolerStartLogits Z :=
  {| Heads.psl_dense :=
       {| Nn.weight := {| Tensor.shape := [1; 1]%nat; Tensor.data := [3] |};
          Nn.bias := {| Tensor.shape := [1]%nat; Tensor.data := [1] |} |};
     Heads.half := false |}.

Definition hidden121 : tensor Z :=
  {| Tensor.shape := [1; 2; 1]%nat; Tensor.data := [5; 7] |}.

Definition p_mask : tensor Z :=
  {| Tensor.shape := [1; 2]%nat; Tensor.data := [0; 1] |}.

(** A masked language model with a vocabulary of two tokens on the model of
    the examples. *)
Definition mlm_model : @Heads.AlbertForMaskedLM Z Examples.z_scalar Examples.z_primitives :=
  {| Heads.vocab_size := 2;
     Heads.mlm_albert := Examples.albert;
     Heads.predictions :=
       {| Heads.mlm_LayerNorm :=
            (tt : @Torch.LayerNormParams Z Examples.z_scalar Examples.z_primitives);
          Heads.mlm_bias := {| Tensor.shape := [2]%nat; Tensor.data := [100; 200] |};
          Heads.mlm_dense := Examples.identity_linear;
          Heads.decoder :=
            {| Nn.weight := {| Tensor.shape := [2; 1]%nat; Tensor.data := [1; 2] |};
               Nn.bias := {| Tensor.shape := [2]%nat; Tensor.data := [10; 20] |} |} |} |}.

(** The caller's tensors with [is_impossibles] of size (1,) holding 7. *)
Definition caller_heap3 : Heap.heap Z :=
  {| Heap.objects :=
       {[ 0%nat := {| Heap.storage_of := 10%nat; Heap.size_of := [1; 3]%nat |};
          1%nat := {| Heap.storage_of := 11%nat; Heap.size_of := [1; 1]%nat |};
          2%nat := {| Heap.storage_of := 12%nat; Heap.size_of := [1]%nat |};
          3%nat := {| Heap.storage_of := 13%nat; Heap.size_of := [1]%nat |} ]};
     Heap.storages :=
       {[ 10%nat := Heap.SLong [5; 6; 7];
          11%nat := Heap.SLong [9];
          12%nat := Heap.SLong [-4];
          13%nat := Heap.SLong [7] ]} |}.

Definition scores13 : tensor Z :=
  {| Tensor.shape := [1; 3]%nat; Tensor.data := [7; 8; 9] |}.

Definition scores12 : tensor Z :=
  {| Tensor.shape := [1; 2]%nat; Tensor.data := [1; 2] |}.

(** A head mask for two heads. *)
Definition head_mask2 : Torch.tval Z :=
  Torch.TLong {| Tensor.shape := [2]%nat; Tensor.data := [1; 0] |}.

End MoreExamples.

(** * Properties *)

(** ** Python sequences *)

Section PySequences.

Context {A : Type}.

Lemma getitem_in_range (l : list A) (i : nat) :
  (i < length l)%nat ->
  exists a, Py.getitem l (Z.of_nat i) = Py.Ok a /\ nth_error l i = Some a.
Proof.
  intros Hi. unfold Py.getitem.
  destruct (Z.ltb_spec (Z.of_nat i) 0) as [Hneg|_]; [lia|].
  destruct (Z.ltb_spec (Z.of_nat i) 0) as [Hneg|_]; [lia|].
  destruct (Z.leb_spec (Z.of_nat (length l)) (Z.of_nat i)) as [Hge|_]; [lia|].
  cbn [orb]. rewrite Nat2Z.id.
  destruct (nth_error l i) as [a|] eqn:E.
  - exists a. split; reflexivity.
  - apply nth_error_None in E. lia.
Qed.

Lemma slice_length (l : list A) (a b : Z) :
  0 <= a <= b -> b <= Z.of_nat (length l) ->
  length (Py.slice l a b) = Z.to_nat (b - a).
Proof.
  intros Hab Hb. unfold Py.slice, Py.slice_bound.
  destruct (Z.ltb_spec a 0) as [?|_]; [lia|].
  destruct (Z.ltb_spec b 0) as [?|_]; [lia|].
  rewrite List.length_firstn, List.length_skipn. lia.
Qed.

End PySequences.

Lemma range_length (n : Z) : length (range n) = Z.to_nat n.
Proof. unfold range. now rewrite List.length_map, List.length_seq. Qed.

Lemma in_range_bounds (n i : Z) : In i (range n) <-> 0 <= i < n.
Proof.
  unfold range. rewrite in_map_iff. split.
  - intros (k & <- & Hk). apply in_seq in Hk. lia.
  - intros Hi. exists (Z.to_nat i). split; [lia|]. apply in_seq. lia.
Qed.

(** A list of integers with more entries than the range they are drawn from
    repeats one of them. *)
Lemma repeated_entry (l : list Z) :
  ~ List.NoDup l ->
  exists i j g, (i < j)%nat /\ l !! i = Some g /\ l !! j = Some g.
Proof.
  induction l as [|a l IH]; intros Hnd.
  - exfalso. apply Hnd. constructor.
  - destruct (in_dec Z.eq_dec a l) as [Hin|Hnin].
    + apply list_elem_of_In, list_elem_of_lookup in Hin as [j Hj].
      exists 0%nat, (S j), a. repeat split; [lia | assumption].
    + destruct IH as (i & j & g & Hij & Hi & Hj).
      * intros Hl. apply Hnd. now constructor.
      * exists (S i), (S j), g. repeat split; [lia | assumption | assumption].
Qed.

Lemma pigeonhole_range (G : Z) (l : list Z) :
  Forall (fun g => 0 <= g < G) l -> (Z.to_nat G < length l)%nat ->
  exists i j g, (i < j)%nat /\ l !! i = Some g /\ l !! j = Some g.
Proof.
  intros Hall Hlen. apply repeated_entry. intros Hnd.
  assert (Hincl : incl l (range G)).
  { intros g Hg. apply in_range_bounds.
    rewrite List.Forall_forall in Hall. now apply Hall. }
  pose proof (List.NoDup_incl_length Hnd Hincl) as Hle.
  rewrite range_length in Hle. lia.
Qed.

(** ** The layer-group schedule of [AlbertTransformer.forward] *)

Module EncoderFacts.

Import Encoder.

Section WithLayers.

Context {Hidden Mask HeadMask Attn Layer : Type}.
Variable AlbertLayer_forward : Layer -> Hidden -> Mask -> HeadMask -> Hidden * Attn.
Variable embedding_hidden_mapping_in : Hidden -> Py.result Hidden.

Lemma group_step_returns (cfg : AlbertConfig) (mask : Mask)
    (head_mask : list HeadMask) (st : @group_output Hidden Attn) (i : Z) (layer : Layer)
    (hm : HeadMask) :
  Py.getitem head_mask i = Py.Ok hm ->
  exists st', group_step AlbertLayer_forward cfg mask head_mask st (i, layer)
              = Py.Ok st'.
Proof. intros Hhm. unfold group_step. rewrite Hhm. cbn. eauto. Qed.

(** A layer group whose layers all find their entry of the head mask
    returns. *)
Lemma group_loop_returns (cfg : AlbertConfig) (mask : Mask)
    (head_mask : list HeadMask) (layers : list Layer) :
  forall (k : nat) (st : @group_output Hidden Attn),
    (k + length layers <= length head_mask)%nat ->
    exists st' : @group_output Hidden Attn,
      for_each (group_step AlbertLayer_forward cfg mask head_mask)
               (combine (map Z.of_nat (seq k (length layers))) layers) st
      = Py.Ok st'.
Proof.
  induction layers as [|layer layers IH]; intros k st Hk.
  - exists st. reflexivity.
  - cbn [length seq map combine for_each].
    destruct (getitem_in_range head_mask k) as (hm & Hhm & _).
    { cbn [length] in Hk. lia. }
    destruct (group_step_returns cfg mask head_mask st (Z.of_nat k) layer hm Hhm)
      as (st1 & Hst1).
    rewrite Hst1. cbn. apply IH. cbn [length] in Hk. lia.
Qed.

Lemma AlbertLayerGroup_forward_returns (cfg : AlbertConfig)
    (self : @AlbertLayerGroup Layer) (hs : Hidden) (mask : Mask)
    (head_mask : list HeadMask) :
  (length (albert_layers self) <= length head_mask)%nat ->
  exists out,
    AlbertLayerGroup_forward AlbertLayer_forward cfg self hs mask head_mask
    = Py.Ok out.
Proof.
  intros Hlen. unfold AlbertLayerGroup_forward, enumerate, range.
  rewrite Nat2Z.id. apply group_loop_returns. lia.
Qed.

(** Group [g] of an encoder built by [__init__] is the group constructed
    with the layers [fresh g]. *)
Lemma init_group_lookup (cfg : AlbertConfig) (fresh : Z -> Z -> Layer) (g : Z) :
  0 <= g < num_hidden_groups cfg ->
  albert_layer_groups (AlbertTransformer_init cfg fresh) !! Z.to_nat g
  = Some (AlbertLayerGroup_init cfg (fresh g)).
Proof.
  intros Hg. cbn [albert_layer_groups AlbertTransformer_init]. unfold range.
  rewrite list_lookup_fmap, list_lookup_fmap, lookup_seq_lt by lia.
  cbn. now rewrite Z2Nat.id by lia.
Qed.

(** An iteration that is ready fetches the group of its index, runs it on
    the current hidden states and on its slice of the head mask, and
    records what the group returns. *)
Lemma transformer_step_trace (self : @AlbertTransformer Layer) (mask : Mask)
    (head_mask : list HeadMask) (lpg i g : Z) (st : @loop_state Hidden Attn) :
  layers_per_group (config self) = Py.Ok lpg ->
  iteration_ready self head_mask lpg i g ->
  exists grp gout,
    albert_layer_groups self !! Z.to_nat g = Some grp
    /\ AlbertLayerGroup_forward AlbertLayer_forward (config self) grp (t_hidden st)
         mask (Py.slice head_mask (g * lpg) ((g + 1) * lpg)) = Py.Ok gout
    /\ transformer_step AlbertLayer_forward self mask head_mask st i
       = Py.Ok {| t_hidden := g_hidden gout;
                  t_all_attentions :=
                    if output_attentions (config self)
                    then t_all_attentions st ++ g_layer_attentions gout
                    else t_all_attentions st;
                  t_all_hidden_states :=
                    if output_hidden_states (config self)
                    then t_all_hidden_states st ++ [g_hidden gout]
                    else t_all_hidden_states st;
                  t_calls := t_calls st ++ [g] |}.
Proof.
  intros Hlpg (Hg & Hrange & Hcover).
  destruct (getitem_in_range (albert_layer_groups self) (Z.to_nat g))
    as (grp & Hgrp & Hnth); [lia|].
  rewrite Z2Nat.id in Hgrp by lia.
  destruct (AlbertLayerGroup_forward_returns (config self) grp
              (t_hidden st) mask (Py.slice head_mask (g * lpg) ((g + 1) * lpg)))
    as (gout & Hgout).
  { now apply Hcover. }
  exists grp, gout. split.
  { clear -Hnth. revert Hnth. generalize (Z.to_nat g) as k.
    induction (albert_layer_groups self) as [|x l IH]; intros [|k]; cbn; auto. }
  split; [exact Hgout|].
  unfold transformer_step. rewrite Hlpg. cbn. rewrite Hg. cbn.
  rewrite Hgrp. cbn. rewrite Hgout. reflexivity.
Qed.

Lemma last_cons_default {X : Type} (x d : X) (l : list X) :
  List.last (x :: l) d = List.last l x.
Proof.
  revert x d. induction l as [|y l IH]; intros x d; [reflexivity|].
  change (List.last (x :: y :: l) d) with (List.last (y :: l) d).
  now rewrite !IH.
Qed.

(** The loop of [AlbertTransformer.forward] over iterations that are ready:
    the group outputs [gouts], one for each iteration, are what the group
    of the iteration's index returns on the hidden states of the iteration
    before, and the state of the loop is made of them. *)
Lemma transformer_loop_trace (self : @AlbertTransformer Layer) (mask : Mask)
    (head_mask : list HeadMask) (lpg : Z) :
  layers_per_group (config self) = Py.Ok lpg ->
  forall (n a : nat) (st : @loop_state Hidden Attn),
    (forall i, (a <= i < a + n)%nat ->
               exists g, iteration_ready self head_mask lpg (Z.of_nat i) g) ->
    exists (st' : @loop_state Hidden Attn) (gouts : list (@group_output Hidden Attn))
           (tr : list Z),
      for_each (transformer_step AlbertLayer_forward self mask head_mask)
               (map Z.of_nat (seq a n)) st = Py.Ok st'
      /\ length gouts = n /\ length tr = n
      /\ t_calls st' = t_calls st ++ tr
      /\ t_hidden st' = List.last (map g_hidden gouts) (t_hidden st)
      /\ t_all_hidden_states st'
         = (if output_hidden_states (config self)
            then t_all_hidden_states st ++ map g_hidden gouts
            else t_all_hidden_states st)
      /\ t_all_attentions st'
         = (if output_attentions (config self)
            then t_all_attentions st ++ concat (map g_layer_attentions gouts)
            else t_all_attentions st)
      /\ forall k g, tr !! k = Some g ->
           group_idx (config self) (Z.of_nat (a + k)) = Py.Ok g
           /\ 0 <= g < Z.of_nat (length (albert_layer_groups self))
           /\ exists grp h gout,
                albert_layer_groups self !! Z.to_nat g = Some grp
                /\ (t_hidden st :: map g_hidden gouts) !! k = Some h
                /\ gouts !! k = Some gout
                /\ AlbertLayerGroup_forward AlbertLayer_forward (config self) grp h
                     mask (Py.slice head_mask (g * lpg) ((g + 1) * lpg))
                   = Py.Ok gout.
Proof.
  intros Hlpg. induction n as [|n IH]; intros a st Hready.
  - exists st, [], []. cbn [seq map for_each length concat List.last].
    rewrite !List.app_nil_r.
    repeat (split; [reflexivity|]).
    split; [now destruct (output_hidden_states (config self))|].
    split; [now destruct (output_attentions (config self))|].
    intros k g Hk. discriminate Hk.
  - cbn [seq map for_each].
    destruct (Hready a ltac:(lia)) as (g & Hg).
    destruct (transformer_step_trace self mask head_mask lpg (Z.of_nat a) g st
                Hlpg Hg) as (grp & gout & Hgrp & Hgout & Hst1).
    rewrite Hst1. cbn [mbind result_bind Py.bind].
    match goal with
    | |- context [for_each _ _ ?s] => set (st1 := s)
    end.
    destruct (IH (S a) st1) as (st' & gouts & tr & Hrun & Hlg & Hlt & Hcalls & Hhid
                                & Hall & Hatt & Hiter).
    { intros i Hi. apply Hready. lia. }
    exists st', (gout :: gouts), (g :: tr).
    split; [exact Hrun|]. cbn [length]. split; [now rewrite Hlg|].
    split; [now rewrite Hlt|]. split.
    { rewrite Hcalls. subst st1. cbn [t_calls]. now rewrite <- List.app_assoc. }
    split.
    { rewrite Hhid. subst st1. cbn [t_hidden map]. symmetry.
      apply last_cons_default. }
    split.
    { rewrite Hall. subst st1. cbn [t_all_hidden_states map].
      destruct (output_hidden_states (config self)); [|reflexivity].
      now rewrite <- List.app_assoc. }
    split.
    { rewrite Hatt. subst st1. cbn [t_all_attentions map concat].
      destruct (output_attentions (config self)); [|reflexivity].
      now rewrite <- List.app_assoc. }
    intros [|k] g' Hk.
    + cbn in Hk. injection Hk as <-. rewrite Nat.add_0_r.
      destruct Hg as (Hidx & Hrange & _).
      split; [exact Hidx|]. split; [exact Hrange|].
      exists grp, (t_hidden st), gout. repeat split; assumption.
    + cbn in Hk. destruct (Hiter k g' Hk) as (Hidx & Hrange & grp' & h & gout' & H1 & H2 & H3 & H4).
      replace (a + S k)%nat with (S a + k)%nat by lia.
      split; [exact Hidx|]. split; [exact Hrange|].
      exists grp', h, gout'. split; [exact H1|]. split; [|split; [exact H3|exact H4]].
      subst st1. cbn [t_hidden] in H2. exact H2.
Qed.

(** A property of the state that every iteration keeps holds when the loop
    returns. *)
Lemma for_each_invariant {S A : Type} (P : S -> Prop)
    (body : S -> A -> Py.result S) (l : list A) :
  (forall s a s', P s -> body s a = Py.Ok s' -> P s') ->
  forall s s', P s -> for_each body l s = Py.Ok s' -> P s'.
Proof.
  intros Hbody. induction l as [|a l IH]; intros s s' Hs Hrun.
  - cbn in Hrun. now injection Hrun as <-.
  - cbn [for_each] in Hrun. destruct (body s a) as [s1|e] eqn:Hstep; [|discriminate].
    cbn in Hrun. eapply IH; [|exact Hrun]. eapply Hbody; eassumption.
Qed.

(** A property of the hidden states that every layer keeps holds of the
    last hidden state of the encoder. *)
Lemma encoder_invariant (P : Hidden -> Prop) (self : @AlbertTransformer Layer)
    (hs h0 : Hidden) (mask : Mask) (head_mask : list HeadMask)
    (out : @transformer_output Hidden Attn) :
  (forall layer h m hm, P h -> P (AlbertLayer_forward layer h m hm).1) ->
  embedding_hidden_mapping_in hs = Py.Ok h0 -> P h0 ->
  AlbertTransformer_forward AlbertLayer_forward embedding_hidden_mapping_in
    self hs mask head_mask = Py.Ok out ->
  P (last_hidden_state out).
Proof.
  intros Hlayer Hemb Hh0. unfold AlbertTransformer_forward. rewrite Hemb.
  cbn [mbind result_bind Py.bind].
  match goal with
  | |- context [for_each ?body ?l ?s] => destruct (for_each body l s) as [st|e] eqn:Hrun
  end; [|discriminate].
  intros [= <-]. cbn [last_hidden_state].
  revert Hrun. apply (for_each_invariant (fun st => P (t_hidden st))); [|exact Hh0].
  clear Hh0. intros st0 i st1 Hst0. unfold transformer_step.
  destruct (layers_per_group (config self)) as [lpg|e]; [|discriminate].
  cbn [mbind result_bind Py.bind].
  destruct (group_idx (config self) i) as [g|e]; [|discriminate].
  cbn [mbind result_bind Py.bind].
  destruct (Py.getitem (albert_layer_groups self) g) as [grp|e]; [|discriminate].
  cbn [mbind result_bind Py.bind].
  match goal with
  | |- context [AlbertLayerGroup_forward ?f ?c ?gr ?h ?m ?hm] =>
      destruct (AlbertLayerGroup_forward f c gr h m hm) as [gout|e] eqn:Hgroup
  end; [|discriminate].
  intros [= <-]. cbn [t_hidden].
  revert Hgroup. unfold AlbertLayerGroup_forward.
  apply (for_each_invariant (fun gst => P (g_hidden gst))); [|exact Hst0].
  intros gst [k layer] gst' Hgst. unfold group_step.
  destruct (Py.getitem _ k) as [hm|e]; [|discriminate].
  cbn [mbind result_bind Py.bind]. intros [= <-]. cbn [g_hidden].
  now apply Hlayer.
Qed.

Lemma init_groups_length (cfg : AlbertConfig) (fresh : Z -> Z -> Layer) :
  length (albert_layer_groups (AlbertTransformer_init cfg fresh))
  = Z.to_nat (num_hidden_groups cfg).
Proof. cbn. now rewrite List.length_map, range_length. Qed.

Lemma init_group_layers (cfg : AlbertConfig) (fresh : Z -> Z -> Layer)
    (k : nat) (grp : AlbertLayerGroup) :
  nth_error (albert_layer_groups (AlbertTransformer_init cfg fresh)) k = Some grp ->
  length (albert_layers grp) = Z.to_nat (inner_group_num cfg).
Proof.
  cbn. intros Hk. apply nth_error_In, in_map_iff in Hk as (g & <- & _).
  cbn. now rewrite List.length_map, range_length.
Qed.

(** C1 (as amended).  On a configuration with at least one group, whose
    group indices (computed as the code does, in double precision) fall
    inside the list of groups and whose head mask gives every group a slice
    that covers its [inner_group_num] layers, [AlbertTransformer.forward]
    returns after calling a layer group exactly [num_hidden_layers] times.
    Iteration [i] fetches the group of index
    [g = int(i / (num_hidden_layers / num_hidden_groups))], which is the
    group that [__init__] built with the parameters [fresh g], and runs
    [AlbertLayerGroup.forward] of that group on the hidden states that the
    iteration before left and on the slice of the head mask of the group;
    what the call returns is made of the outputs [gouts] of these calls:
    the last hidden state, the tuple of hidden states and the tuple of
    attentions.  With more layers than groups two distinct iterations run
    the group built with the same parameters. *)
Theorem layer_group_sharing (cfg : AlbertConfig) (fresh : Z -> Z -> Layer)
    (hs h0 : Hidden) (mask : Mask) (head_mask : list HeadMask) (lpg : Z) :
  let L := num_hidden_layers cfg in
  let G := num_hidden_groups cfg in
  0 < G ->
  embedding_hidden_mapping_in hs = Py.Ok h0 ->
  layers_per_group cfg = Py.Ok lpg ->
  (forall i, 0 <= i < L -> exists g, group_idx cfg i = Py.Ok g /\ 0 <= g < G) ->
  inner_group_num cfg <= lpg ->
  G * lpg <= Z.of_nat (length head_mask) ->
  exists out (gouts : list (@group_output Hidden Attn)),
    AlbertTransformer_forward AlbertLayer_forward embedding_hidden_mapping_in
      (AlbertTransformer_init cfg fresh) hs mask head_mask = Py.Ok out
    /\ length (calls out) = Z.to_nat L
    /\ Forall2 (fun i g => group_idx cfg i = Py.Ok g /\ 0 <= g < G)
               (range L) (calls out)
    /\ length gouts = Z.to_nat L
    /\ (forall i, (i < Z.to_nat L)%nat ->
          exists g h gout,
            group_idx cfg (Z.of_nat i) = Py.Ok g /\ 0 <= g < G
            /\ calls out !! i = Some g
            /\ albert_layer_groups (AlbertTransformer_init cfg fresh) !! Z.to_nat g
               = Some (AlbertLayerGroup_init cfg (fresh g))
            /\ (h0 :: map g_hidden gouts) !! i = Some h
            /\ gouts !! i = Some gout
            /\ AlbertLayerGroup_forward AlbertLayer_forward cfg
                 (AlbertLayerGroup_init cfg (fresh g)) h mask
                 (Py.slice head_mask (g * lpg) ((g + 1) * lpg))
               = Py.Ok gout)
    /\ last_hidden_state out = List.last (map g_hidden gouts) h0
    /\ all_hidden_states out
       = (if output_hidden_states cfg then Some (h0 :: map g_hidden gouts) else None)
    /\ all_attentions out
       = (if output_attentions cfg
          then Some (concat (map g_layer_attentions gouts)) else None)
    /\ (G < L ->
        exists i j g, (i < j)%nat /\ calls out !! i = Some g
                      /\ calls out !! j = Some g
          /\ exists hi hj gi gj,
               (h0 :: map g_hidden gouts) !! i = Some hi
               /\ (h0 :: map g_hidden gouts) !! j = Some hj
               /\ gouts !! i = Some gi /\ gouts !! j = Some gj
               /\ AlbertLayerGroup_forward AlbertLayer_forward cfg
                    (AlbertLayerGroup_init cfg (fresh g)) hi mask
                    (Py.slice head_mask (g * lpg) ((g + 1) * lpg))
                  = Py.Ok gi
               /\ AlbertLayerGroup_forward AlbertLayer_forward cfg
                    (AlbertLayerGroup_init cfg (fresh g)) hj mask
                    (Py.slice head_mask (g * lpg) ((g + 1) * lpg))
                  = Py.Ok gj).
Proof.
  intros L G HG Hemb Hlpg Hidx Hinner Hmask.
  set (self := AlbertTransformer_init cfg fresh).
  assert (Hlen : Z.of_nat (length (albert_layer_groups self)) = G).
  { unfold self. rewrite init_groups_length. fold G. lia. }
  destruct (transformer_loop_trace self mask head_mask lpg Hlpg
              (Z.to_nat L) 0%nat
              {| t_hidden := h0; t_all_hidden_states := [h0];
                 t_all_attentions := []; t_calls := [] |})
    as (st' & gouts & tr & Hrun & Hlg & Hlt & Hcalls & Hhid & Hall & Hatt & Hiter).
  { intros i Hi. destruct (Hidx (Z.of_nat i)) as (g & Hg & Hrange); [lia|].
    exists g. split; [exact Hg|]. split; [lia|].
    intros grp Hgrp. apply init_group_layers in Hgrp. rewrite Hgrp.
    destruct (Z.le_gt_cases (inner_group_num cfg) 0) as [Hle|Hgt]; [lia|].
    rewrite slice_length by nia. nia. }
  cbn [t_calls t_hidden t_all_hidden_states t_all_attentions app] in *.
  subst tr.
  change (config self) with cfg in *.
  exists {| last_hidden_state := t_hidden st';
            all_hidden_states :=
              if output_hidden_states cfg then Some (t_all_hidden_states st') else None;
            all_attentions :=
              if output_attentions cfg then Some (t_all_attentions st') else None;
            calls := t_calls st' |}, gouts.
  assert (Hrel : Forall2 (fun i g => group_idx cfg i = Py.Ok g /\ 0 <= g < G)
                         (range L) (t_calls st')).
  { apply Forall2_same_length_lookup_2.
    - rewrite range_length. now rewrite Hlt.
    - intros i x g Hx Hg. destruct (Hiter i g Hg) as (Hi & Hr & _).
      unfold range in Hx. rewrite list_lookup_fmap in Hx.
      destruct (seq 0 (Z.to_nat L) !! i) as [k|] eqn:Hk; [|discriminate].
      apply lookup_seq in Hk as [-> _]. cbn in Hx. injection Hx as <-.
      cbn [Nat.add] in Hi. split; [exact Hi | rewrite <- Hlen; exact Hr]. }
  split.
  { unfold AlbertTransformer_forward. rewrite Hemb. cbn.
    unfold range. fold L. fold self. rewrite Hrun. reflexivity. }
  cbn [calls last_hidden_state all_hidden_states all_attentions].
  assert (Hper : forall i, (i < Z.to_nat L)%nat ->
            exists g h gout,
              group_idx cfg (Z.of_nat i) = Py.Ok g /\ 0 <= g < G
              /\ t_calls st' !! i = Some g
              /\ albert_layer_groups self !! Z.to_nat g
                 = Some (AlbertLayerGroup_init cfg (fresh g))
              /\ (h0 :: map g_hidden gouts) !! i = Some h
              /\ gouts !! i = Some gout
              /\ AlbertLayerGroup_forward AlbertLayer_forward cfg
                   (AlbertLayerGroup_init cfg (fresh g)) h mask
                   (Py.slice head_mask (g * lpg) ((g + 1) * lpg))
                 = Py.Ok gout).
  { intros i Hi.
    destruct (lookup_lt_is_Some_2 (t_calls st') i ltac:(lia)) as (g & Hg).
    destruct (Hiter i g Hg) as (Hgi & Hr & grp & h & gout & Hgrp & Hh & Hgo & Hfw).
    cbn [Nat.add] in Hgi. rewrite Hlen in Hr.
    pose proof (init_group_lookup cfg fresh g Hr) as Hinit. fold self in Hinit.
    rewrite Hinit in Hgrp. injection Hgrp as <-.
    exists g, h, gout. split; [exact Hgi|]. split; [exact Hr|].
    split; [exact Hg|]. split; [exact Hinit|]. split; [exact Hh|].
    split; [exact Hgo|exact Hfw]. }
  split; [exact Hlt|]. split; [exact Hrel|]. split; [exact Hlg|].
  split; [exact Hper|].
  split; [exact Hhid|].
  split; [rewrite Hall; now destruct (output_hidden_states cfg)|].
  split; [rewrite Hatt; now destruct (output_attentions cfg)|].
  intros HGL.
  destruct (pigeonhole_range G (t_calls st')) as (i & j & g & Hij & Hi & Hj); [|lia|].
  { apply List.Forall_forall. intros g Hg.
    apply list_elem_of_In, list_elem_of_lookup in Hg as [j Hj].
    destruct (Forall2_lookup_r _ _ _ _ _ Hrel Hj) as (i & _ & _ & Hr).
    exact Hr. }
  exists i, j, g. split; [exact Hij|]. split; [exact Hi|]. split; [exact Hj|].
  pose proof (lookup_lt_Some _ _ _ Hi) as Hil.
  pose proof (lookup_lt_Some _ _ _ Hj) as Hjl.
  destruct (Hper i ltac:(lia)) as (g1 & hi & gi & _ & _ & Hc1 & _ & Hhi & Hgi & Hfi).
  destruct (Hper j ltac:(lia)) as (g2 & hj & gj & _ & _ & Hc2 & _ & Hhj & Hgj & Hfj).
  rewrite Hi in Hc1. injection Hc1 as <-.
  rewrite Hj in Hc2. injection Hc2 as <-.
  exists hi, hj, gi, gj. repeat (split; [assumption|]). exact Hfj.
Qed.

End WithLayers.

End EncoderFacts.

(** The theorem at the configuration with four layers in two groups: the
    calls are to groups 0, 0, 1, 1, and the hidden states that come out
    have been through the layers 0, 0, 100, 100. *)
Lemma layer_group_sharing_witness :
  exists out,
    Examples.run 4 2 1 = Py.Ok out
    /\ length (Encoder.calls out) = 4%nat
    /\ Forall2 (fun i g => Encoder.group_idx (Examples.cfg 4 2 1) i = Py.Ok g
                           /\ 0 <= g < 2)
               (range 4) (Encoder.calls out)
    /\ Encoder.last_hidden_state out = [0; 0; 100; 100]
    /\ (2 < 4 ->
        exists i j g, (i < j)%nat /\ Encoder.calls out !! i = Some g
                      /\ Encoder.calls out !! j = Some g).
Proof.
  destruct (EncoderFacts.layer_group_sharing Examples.layer_fwd (fun h => Py.Ok h)
              (Examples.cfg 4 2 1) (fun g k => 100 * g + k) [] [] tt
              (repeat None 4) 2)
    as (out & gouts & Hrun & Hlen & Hrel & _ & _ & _ & _ & _ & Hshare).
  - cbn. lia.
  - reflexivity.
  - vm_compute. reflexivity.
  - cbn. intros i Hi.
    assert (Hcases : i = 0 \/ i = 1 \/ i = 2 \/ i = 3) by lia.
    destruct Hcases as [-> | [-> | [-> | ->]]];
      eexists; (split; [vm_compute; reflexivity | lia]).
  - cbn. lia.
  - cbn. lia.
  - exists out. split; [exact Hrun|]. split; [exact Hlen|]. split; [exact Hrel|].
    split.
    + vm_compute in Hrun. injection Hrun as <-. reflexivity.
    + intros H24. destruct (Hshare H24) as (i & j & g & Hij & Hi & Hj & _).
      exists i, j, g. repeat split; assumption.
Defined.

(** The released configurations have twelve or twenty-four layers in one
    group: every iteration calls group 0. *)
Example base_schedule :
  exists out, Examples.run 12 1 1 = Py.Ok out /\ Encoder.calls out = repeat 0 12.
Proof. eexists. split; vm_compute; reflexivity. Qed.

Example large_schedule :
  exists out, Examples.run 24 1 1 = Py.Ok out /\ Encoder.calls out = repeat 0 24.
Proof. eexists. split; vm_compute; reflexivity. Qed.

(** When the number of groups divides the number of layers, and there are at
    most 32 layers, the index computed in double precision is the floor of
    the specification (checked on every such configuration). *)
Lemma group_idx_exact_when_divisible (L G n i : Z) :
  0 < G -> L <= 32 -> L mod G = 0 -> 0 <= i < L ->
  @Encoder.group_idx (Examples.cfg L G n) i = Py.Ok (spec_group_idx L G i).
Proof.
  intros HG HL Hdiv Hi.
  assert (Hcheck : Examples.idx_agrees_upto 32 = true) by (vm_compute; reflexivity).
  unfold Examples.idx_agrees_upto in Hcheck.
  rewrite forallb_forall in Hcheck.
  specialize (Hcheck L ltac:(apply in_range_bounds; lia)).
  rewrite forallb_forall in Hcheck.
  assert (HGL : G <= L).
  { destruct (Z.eq_dec L 0) as [->|HL0]; [lia|].
    apply Z.mod_divide in Hdiv; [|lia]. apply Z.divide_pos_le in Hdiv; lia. }
  specialize (Hcheck G ltac:(apply in_range_bounds; lia)).
  destruct (Z.ltb_spec 0 G) as [_|?]; [|lia].
  destruct (Z.eqb_spec (L mod G) 0) as [_|?]; [|contradiction].
  cbn [andb] in Hcheck. rewrite forallb_forall in Hcheck.
  specialize (Hcheck i ltac:(apply in_range_bounds; lia)).
  unfold Examples.idx_agrees in Hcheck.
  change (@Encoder.group_idx (Examples.cfg L G n) i)
    with (@Encoder.group_idx (Examples.cfg L G 1) i).
  destruct (@Encoder.group_idx (Examples.cfg L G 1) i) as [g|e]; [|discriminate].
  apply Z.eqb_eq in Hcheck. now subst.
Qed.

(** C1 as stated fails in two ways.  With two layers in four groups the head
    mask slice of the first group is empty and the call raises [IndexError]
    instead of running two iterations.  With eighteen layers in fourteen
    groups the call returns, but iteration 9 uses group 6 where
    [floor(9 / (18 / 14))] is 7: the quotient [18 / 14] is rounded up.  The
    hidden states show it: iteration 9 has appended the name 600 of the
    layer of group 6. *)
Lemma layer_group_sharing_counterexample :
  Examples.run 2 4 1 = Py.Raise Py.IndexError
  /\ (exists out,
        Examples.run 18 14 1 = Py.Ok out
        /\ Encoder.calls out !! 9%nat = Some 6
        /\ Encoder.last_hidden_state out !! 9%nat = Some 600
        /\ spec_group_idx 18 14 9 = 7).
Proof.
  split.
  - vm_compute. reflexivity.
  - eexists. split; [vm_compute; reflexivity|].
    split; [|split]; vm_compute; reflexivity.
Qed.


(** ** The checkpoint loader *)

Module LoaderFacts.

Import Loader LoaderSpec.

Open Scope string_scope.

(** [str.replace] scans from the left and does not look at a match again. *)
Example replace_non_overlapping : Str.replace "aa" "b" "aaaaa" = "bba".
Proof. reflexivity. Qed.

Example replace_every_occurrence : Str.replace "ab" "x" "aababab" = "axxx".
Proof. reflexivity. Qed.

Example replace_empty_pattern : Str.replace "" "-" "abc" = "-a-b-c-".
Proof. reflexivity. Qed.

Example split_keeps_empty_components : Str.split "/" "a//b/" = ["a"; ""; "b"; ""].
Proof. reflexivity. Qed.

(** A name without the pattern is left as it is. *)
Lemma replace_from_absent (old new s : string) :
  Str.contains old s = false -> Str.replace_from old new 0 s = s.
Proof.
  induction s as [|c s IH]; intros Habs; [reflexivity|].
  cbn [Str.contains] in Habs. apply orb_false_iff in Habs as [Hp Hs].
  cbn [Str.replace_from]. rewrite Hp. f_equal. now apply IH.
Qed.

Lemma split_nonempty (sep : ascii) (s : string) : Str.split sep s <> [].
Proof.
  destruct s as [|c s]; cbn; [discriminate|].
  destruct (Ascii.eqb c sep); [discriminate|].
  destruct (Str.split sep s); discriminate.
Qed.

(** [len(name.split("/")) == 1] says that [name] has no slash. *)
Lemma split_one_component (s : string) :
  (length (Str.split "/" s) =? 1)%nat = one_component s.
Proof.
  unfold one_component. induction s as [|c s IH]; [reflexivity|].
  cbn [Str.split Str.contains String.prefix].
  destruct (Ascii.eqb_spec c "/") as [->|Hc].
  - destruct (ascii_dec "/" "/") as [_|Hne]; [|contradiction].
    replace (String.prefix "" s) with true by (destruct s; reflexivity).
    pose proof (split_nonempty "/" s) as Hne.
    destruct (Str.split "/" s); [contradiction | reflexivity].
  - destruct (ascii_dec "/" c) as [<-|_]; [contradiction|].
    cbn [orb]. rewrite <- IH.
    pose proof (split_nonempty "/" s) as Hne.
    destruct (Str.split "/" s); [contradiction | reflexivity].
Qed.

(** C2.  The parameter path that [load_tf_weights_in_albert] derives from the
    name of a TensorFlow variable is the result of the listed literal
    replacements, applied in their fixed order, followed by the prefix
    ["classifier/"] for a one-component name containing ["output_bias"] or
    ["output_weights"].  It is a function of the name alone: the body of the
    loop reads neither the model nor the array to compute it. *)
Theorem remap_name_substitution (name : string) :
  remap_name name = remap_name_spec name.
Proof.
  unfold remap_name, remap_name_spec, replacements. cbn [fold_left].
  rewrite split_one_component. reflexivity.
Qed.

Example remap_ffn_output :
  remap_name "bert/encoder/transformer/group_0/inner_group_0/ffn_1/intermediate/output/dense/kernel"
  = "albert/encoder/albert_layer_groups/0/albert_layers/0/ffn_output/kernel".
Proof. reflexivity. Qed.

Example remap_attention_query :
  remap_name "module/bert/encoder/transformer/group_0/inner_group_0/attention_1/self/query/bias"
  = "albert/encoder/albert_layer_groups/0/albert_layers/0/attention/query/bias".
Proof. reflexivity. Qed.

Example remap_classifier_bias : remap_name "output_bias" = "classifier/output_bias".
Proof. reflexivity. Qed.

Example remap_predictions_bias :
  remap_name "cls/predictions/output_bias" = "predictions/output_bias".
Proof. reflexivity. Qed.

Section WithElements.

Context {A : Type} `{Inhabited A}.

Lemma mem_In (x : string) (l : list string) : Str.mem x l = true <-> In x l.
Proof.
  unfold Str.mem. rewrite existsb_exists. split.
  - intros (y & Hy & Heq). apply String.eqb_eq in Heq. now subst.
  - intros Hx. exists x. split; [exact Hx | apply String.eqb_refl].
Qed.

(** A name that ends in ["_embeddings"] is not ["kernel"]. *)
Lemma embeddings_not_kernel (m_name : string) :
  Str.ends_with "_embeddings" m_name = true -> String.eqb m_name "kernel" = false.
Proof.
  intros He. destruct (String.eqb_spec m_name "kernel") as [->|]; [|reflexivity].
  vm_compute in He. discriminate.
Qed.

(** C3.  For a variable of the checkpoint that is not skipped and whose path
    resolves to a parameter, the array (transposed first when the last
    component of the path is ["kernel"]) is assigned to the parameter exactly
    when the two shapes are equal; when they differ the conversion raises an
    [AssertionError] whose arguments are the two shapes, and the store is
    left as it was. *)
Theorem shape_guard (model : nat) (σ : gmap nat (@obj A))
    (original_name : string) (array : tensor A) (p p' : ptr) (ps : list nat) :
  let name := Str.split "/" (remap_name original_name) in
  let m_name := List.last name "" in
  let array' := if String.eqb m_name "kernel" then Tensor.transpose array else array in
  skipped_by_name (remap_name original_name) = false ->
  skipped_by_path name = false ->
  walk σ model name = Py.Ok p ->
  (if Str.ends_with "_embeddings" m_name then getattr σ p "weight" else Py.Ok p)
  = Py.Ok p' ->
  shape_of σ p' = Py.Ok ps ->
  (ps = Tensor.shape array' ->
   convert_variable model σ (original_name, array)
   = (set_data σ p' array', Py.Ok tt))
  /\ (ps <> Tensor.shape array' ->
      convert_variable model σ (original_name, array)
      = (σ, Py.Raise (Py.AssertionError [ps; Tensor.shape array']))).
Proof.
  intros name m_name array' Hskip1 Hskip2 Hwalk Hres Hshape.
  unfold convert_variable. rewrite Hskip1. fold name. rewrite Hskip2, Hwalk.
  fold m_name. unfold assign.
  destruct (Str.ends_with "_embeddings" m_name) eqn:Hemb.
  - pose proof (embeddings_not_kernel m_name Hemb) as Hk.
    subst array'. rewrite Hk. rewrite Hres. cbn. rewrite Hshape.
    split; intros Hps.
    + now rewrite bool_decide_eq_true_2.
    + now rewrite bool_decide_eq_false_2.
  - injection Hres as ->.
    subst array'. destruct (String.eqb m_name "kernel"); rewrite Hshape;
      (split; intros Hps;
       [now rewrite bool_decide_eq_true_2 | now rewrite bool_decide_eq_false_2]).
Qed.

(** A skipped variable leaves the store as it is. *)
Lemma convert_skipped (model : nat) (σ : gmap nat (@obj A))
    (name : string) (array : tensor A) :
  skipped_by_name (remap_name name) = true
  \/ skipped_by_path (Str.split "/" (remap_name name)) = true ->
  convert_variable model σ (name, array) = (σ, Py.Ok tt).
Proof.
  intros Hskip. unfold convert_variable.
  destruct (skipped_by_name (remap_name name)); [reflexivity|].
  destruct Hskip as [Hs|Hs]; [discriminate|]. now rewrite Hs.
Qed.

Lemma load_app (model : nat) (vars1 vars2 : list (string * tensor A)) :
  forall σ : gmap nat (@obj A),
    load_tf_weights_in_albert model σ (vars1 ++ vars2)
    = match load_tf_weights_in_albert model σ vars1 with
      | (σ', Py.Ok _) => load_tf_weights_in_albert model σ' vars2
      | (σ', Py.Raise e) => (σ', Py.Raise e)
      end.
Proof.
  induction vars1 as [|var vars1 IH]; intros σ; [reflexivity|].
  cbn [app load_tf_weights_in_albert].
  destruct (convert_variable model σ var) as [σ' [[]|e]]; [apply IH | reflexivity].
Qed.

(** C4.  A variable whose remapped name contains ["seq_relationship"], or
    whose path has a component ["adam_m"], ["adam_v"] or ["global_step"],
    changes nothing: its iteration leaves the store as it is and raises
    nothing, and the conversion of a checkpoint gives what the conversion of
    the checkpoint without that variable gives. *)
Theorem skipped_variable_leaves_model (model : nat) (σ : gmap nat (@obj A))
    (name : string) (array : tensor A) (vars1 vars2 : list (string * tensor A)) :
  Str.contains "seq_relationship" (remap_name name) = true
  \/ (exists c, In c ["adam_m"; "adam_v"; "global_step"]
                /\ In c (Str.split "/" (remap_name name))) ->
  convert_variable model σ (name, array) = (σ, Py.Ok tt)
  /\ load_tf_weights_in_albert model σ (vars1 ++ (name, array) :: vars2)
     = load_tf_weights_in_albert model σ (vars1 ++ vars2).
Proof.
  intros Hskip.
  assert (Hconv : forall σ0 : gmap nat (@obj A),
             convert_variable model σ0 (name, array) = (σ0, Py.Ok tt)).
  { intros σ0. apply convert_skipped.
    destruct Hskip as [Hs | (c & Hc & Hin)]; [left; exact Hs | right].
    unfold skipped_by_path. apply mem_In in Hin.
    cbn in Hc. destruct Hc as [<- | [<- | [<- | []]]]; rewrite Hin;
      rewrite ?orb_true_r; reflexivity. }
  split; [apply Hconv|].
  rewrite !load_app.
  destruct (load_tf_weights_in_albert model σ vars1) as [σ' [[]|e]]; [|reflexivity].
  cbn [load_tf_weights_in_albert]. now rewrite Hconv.
Qed.

End WithElements.

End LoaderFacts.

(** The shape guard on the pooler: the kernel of shape (3, 2) is transposed
    and assigned to the weight of shape (2, 3); a kernel of shape (2, 2) is
    refused and the store stays as it was. *)
Lemma shape_guard_witness :
  Loader.convert_variable 0%nat Examples.pooler_store
    ("bert/pooler/dense/kernel"%string, Examples.pooler_kernel)
  = (<[3%nat := Loader.NnParameter
                  {| Tensor.shape := [2; 3]%nat; Tensor.data := [1; 3; 5; 2; 4; 6] |}]>
       Examples.pooler_store,
     Py.Ok tt)
  /\ Loader.convert_variable 0%nat Examples.pooler_store
       ("bert/pooler/dense/kernel"%string, Examples.bad_kernel)
     = (Examples.pooler_store,
        Py.Raise (Py.AssertionError [[2; 3]%nat; [2; 2]%nat])).
Proof.
  split.
  - apply (LoaderFacts.shape_guard 0%nat Examples.pooler_store
             "bert/pooler/dense/kernel" Examples.pooler_kernel
             (Loader.PObj 3) (Loader.PObj 3) [2; 3]%nat);
      vm_compute; reflexivity.
  - apply (LoaderFacts.shape_guard 0%nat Examples.pooler_store
             "bert/pooler/dense/kernel" Examples.bad_kernel
             (Loader.PObj 3) (Loader.PObj 3) [2; 3]%nat);
      try (vm_compute; reflexivity).
    vm_compute. intros Heq. discriminate Heq.
Defined.

(** The optimizer slot of the pooler kernel is skipped: the conversion of a
    checkpoint that lists it between two variables is the conversion of the
    two variables. *)
Lemma skipped_variable_leaves_model_witness :
  Loader.convert_variable 0%nat Examples.pooler_store
    ("bert/pooler/dense/kernel/adam_m"%string, Examples.bad_kernel)
  = (Examples.pooler_store, Py.Ok tt)
  /\ Loader.load_tf_weights_in_albert 0%nat Examples.pooler_store
       ([("bert/pooler/dense/kernel"%string, Examples.pooler_kernel)]
        ++ ("bert/pooler/dense/kernel/adam_m"%string, Examples.bad_kernel)
        :: [("global_step"%string, Examples.bad_kernel)])
     = Loader.load_tf_weights_in_albert 0%nat Examples.pooler_store
         ([("bert/pooler/dense/kernel"%string, Examples.pooler_kernel)]
          ++ [("global_step"%string, Examples.bad_kernel)]).
Proof.
  apply (LoaderFacts.skipped_variable_leaves_model 0%nat Examples.pooler_store
           "bert/pooler/dense/kernel/adam_m" Examples.bad_kernel).
  right. exists "adam_m"%string. split; vm_compute; tauto.
Defined.

(** ** Tensors *)

Module TensorFacts.

Import Tensor.

Lemma indices_length (s : list nat) : length (indices s) = numel s.
Proof.
  induction s as [|d s IH]; [reflexivity|].
  cbn [indices numel fold_right]. fold (numel s).
  generalize 0%nat at 1. induction d as [|d IHd]; intros a; [reflexivity|].
  cbn [seq flat_map]. rewrite List.length_app, List.length_map, IH, IHd. lia.
Qed.

Lemma in_range_indices (s idx : list nat) :
  In idx (indices s) <-> in_range s idx = true.
Proof.
  revert idx. induction s as [|d s IH]; intros idx.
  - cbn. split.
    + intros [<- | []]. reflexivity.
    + destruct idx; [tauto | discriminate].
  - cbn [indices in_range]. rewrite in_flat_map. split.
    + intros (i & Hi & Hin). apply in_map_iff in Hin as (idx' & <- & Hidx').
      apply in_seq in Hi. apply IH in Hidx'. rewrite Hidx'.
      destruct (Nat.ltb_spec i d); [reflexivity | lia].
    + destruct idx as [|i idx']; [discriminate|].
      intros Hr. apply andb_true_iff in Hr as [Hi Hidx'].
      apply Nat.ltb_lt in Hi. exists i. split; [apply in_seq; lia|].
      apply in_map. now apply IH.
Qed.

Lemma offset_lt (s idx : list nat) :
  in_range s idx = true -> (offset s idx < numel s)%nat.
Proof.
  revert idx. induction s as [|d s IH]; intros [|i idx] Hr; try discriminate.
  - cbn. lia.
  - cbn [in_range] in Hr. apply andb_true_iff in Hr as [Hi Hidx].
    apply Nat.ltb_lt in Hi. specialize (IH idx Hidx).
    cbn [offset numel fold_right]. fold (numel s). nia.
Qed.

(** The index at position [offset s idx] of the enumeration is [idx]. *)
Lemma nth_indices (s idx : list nat) :
  in_range s idx = true -> nth (offset s idx) (indices s) [] = idx.
Proof.
  revert idx. induction s as [|d s IH]; intros [|i idx] Hr; try discriminate.
  - reflexivity.
  - cbn [in_range] in Hr. apply andb_true_iff in Hr as [Hi Hidx].
    apply Nat.ltb_lt in Hi.
    pose proof (offset_lt s idx Hidx) as Hlt.
    cbn [indices offset].
    assert (Hgen : forall n a, (i < n)%nat ->
      nth (i * numel s + offset s idx)
          (flat_map (fun j => map (cons j) (indices s)) (seq a n)) []
      = (a + i)%nat :: idx).
    { clear Hi. induction i as [|i IHi]; intros n a Hn.
      - destruct n as [|n]; [lia|]. cbn [seq flat_map].
        rewrite List.app_nth1 by (rewrite List.length_map, indices_length; lia).
        cbn [Nat.mul Nat.add].
        rewrite (List.nth_indep _ [] (cons a [])) by
          (rewrite List.length_map, indices_length; lia).
        rewrite List.map_nth, IH by assumption. now rewrite Nat.add_0_r.
      - destruct n as [|n]; [lia|]. cbn [seq flat_map].
        rewrite List.app_nth2 by (rewrite List.length_map, indices_length; lia).
        rewrite List.length_map, indices_length.
        replace (S i * numel s + offset s idx - numel s)%nat
          with (i * numel s + offset s idx)%nat by lia.
        rewrite IHi by lia. f_equal. lia. }
    now rewrite (Hgen d 0%nat) by assumption.
Qed.

Lemma numel_app_one (s : list nat) : numel (s ++ [1%nat]) = numel s.
Proof.
  induction s as [|d s IH]; [reflexivity|].
  cbn [app numel fold_right]. fold (numel (s ++ [1%nat])). fold (numel s).
  now rewrite IH.
Qed.

Lemma in_range_length (s idx : list nat) :
  in_range s idx = true -> length idx = length s.
Proof.
  revert idx. induction s as [|d s IH]; intros [|i idx] Hr; try discriminate.
  - reflexivity.
  - cbn [in_range] in Hr. apply andb_true_iff in Hr as [_ Hr].
    cbn [length]. f_equal. now apply IH.
Qed.

(** A trailing dimension of size one does not move the elements. *)
Lemma offset_app_one (s idx : list nat) :
  length idx = length s -> offset (s ++ [1%nat]) (idx ++ [0%nat]) = offset s idx.
Proof.
  revert idx. induction s as [|d s IH]; intros [|i idx] Hlen; try discriminate.
  - reflexivity.
  - cbn [app offset]. injection Hlen as Hlen.
    now rewrite numel_app_one, IH.
Qed.

Lemma squeeze_last_shape_app_one (s : list nat) :
  squeeze_last_shape (s ++ [1%nat]) = s.
Proof.
  unfold squeeze_last_shape. rewrite List.rev_unit. apply List.rev_involutive.
Qed.

Section Elements.

Context {A : Type} `{Inhabited A}.

Lemma tabulate_wf (s : list nat) (f : list nat -> A) : wf (tabulate s f).
Proof. unfold wf. cbn. now rewrite List.length_map, indices_length. Qed.

(** The element of a tabulated tensor at an index of its shape. *)
Lemma get_tabulate (s : list nat) (f : list nat -> A) (idx : list nat) :
  in_range s idx = true -> get (tabulate s f) idx = f idx.
Proof.
  intros Hr. unfold get, tabulate. cbn [shape data].
  pose proof (offset_lt s idx Hr) as Hlt.
  rewrite (List.nth_indep _ inhabitant (f [])) by
    (rewrite List.length_map, indices_length; lia).
  now rewrite List.map_nth, nth_indices.
Qed.

(** [t.squeeze(-1)] on a tensor whose last dimension has size one. *)
Lemma get_squeeze_last (t : tensor A) (s idx : list nat) :
  shape t = s ++ [1%nat] -> in_range s idx = true ->
  shape (squeeze_last t) = s
  /\ get (squeeze_last t) idx = get t (idx ++ [0%nat]).
Proof.
  intros Hs Hr. unfold squeeze_last, get. cbn [shape data].
  rewrite Hs, squeeze_last_shape_app_one. split; [reflexivity|].
  now rewrite offset_app_one by now apply in_range_length.
Qed.


End Elements.

End TensorFacts.

(** ** Layers *)

Module NnFacts.

Import Tensor TensorFacts.

Lemma in_range_app (s1 s2 idx1 idx2 : list nat) :
  in_range s1 idx1 = true -> in_range s2 idx2 = true ->
  in_range (s1 ++ s2) (idx1 ++ idx2) = true.
Proof.
  revert idx1. induction s1 as [|d s1 IH]; intros [|i idx1] H1 H2;
    try discriminate; [exact H2|].
  cbn [in_range app] in *. apply andb_true_iff in H1 as [Hi H1].
  rewrite Hi. cbn. now apply IH.
Qed.

Lemma in_range_one (d i : nat) : (i < d)%nat -> in_range [d] [i] = true.
Proof.
  intros Hi. cbn [in_range]. apply Nat.ltb_lt in Hi. now rewrite Hi.
Qed.

Section WithScalar.

Context {F : Type} `{Scalar F}.

(** A linear layer applied to an input whose last dimension is its input
    width returns, and the output has the output width as last dimension. *)
Lemma linear_returns (self : Nn.Linear F) (x : tensor F) (o i : nat)
    (pre : list nat) :
  shape (Nn.weight self) = [o; i] -> shape (Nn.bias self) = [o] ->
  shape x = pre ++ [i] ->
  exists y,
    Nn.linear self x = Py.Ok y
    /\ shape y = pre ++ [o]
    /\ forall idx h, in_range pre idx = true -> (h < o)%nat ->
         get y (idx ++ [h])
         = fadd (Nn.fsum (map (fun k => fmul (get x (idx ++ [k]))
                                             (get (Nn.weight self) [h; k]))
                              (seq 0 i)))
                (get (Nn.bias self) [h]).
Proof.
  intros Hw Hb Hx. unfold Nn.linear. rewrite Hw, Hb, Hx, List.rev_unit.
  rewrite !Nat.eqb_refl. cbn [andb]. rewrite List.rev_involutive.
  eexists. split; [reflexivity|]. split; [reflexivity|].
  intros idx h Hidx Hh. rewrite get_tabulate.
  - now rewrite List.last_last, List.removelast_last.
  - apply in_range_app; [assumption | now apply in_range_one].
Qed.

End WithScalar.

End NnFacts.


(** ** The store of the caller's tensors *)

Module HeapFacts.

Import Tensor Torch Heap.

Section WithScalar.

Context {F : Type} `{Scalar F}.

Lemma clamp_Z_bounds (lo hi x : Z) : lo <= hi -> lo <= clamp_Z lo hi x <= hi.
Proof. unfold clamp_Z. lia. Qed.

Lemma clamp_Z_idempotent (lo hi x : Z) :
  lo <= hi -> clamp_Z lo hi (clamp_Z lo hi x) = clamp_Z lo hi x.
Proof. unfold clamp_Z. lia. Qed.

(** Reading the value behind a reference leaves the heap as it is. *)
Lemma read_heap (r : nat) (h : heap F) : (read r h).1 = h.
Proof.
  unfold read. destruct (objects h !! r) as [o|]; [|reflexivity].
  destruct (storages h !! storage_of o) as [[l|l]|]; reflexivity.
Qed.

Lemma read_opt_heap (r : option nat) (h : heap F) : (read_opt r h).1 = h.
Proof.
  destruct r as [r|]; [|reflexivity]. cbn [read_opt]. unfold bind.
  pose proof (read_heap r h) as Hr.
  destruct (read r h) as [h' [v|e]]; cbn in *; now subst.
Qed.

(** [clamp_] on a reference whose object and storage exist. *)
Lemma clamp_spec (h : heap F) (p : nat) (o : tensor_obj) (st : storage F)
    (lo hi : Z) :
  objects h !! p = Some o -> storages h !! storage_of o = Some st ->
  clamp_ p lo hi h
  = ({| objects := objects h;
        storages := <[storage_of o := clamp_storage lo hi st]> (storages h) |},
     Py.Ok tt).
Proof. intros Ho Hst. unfold clamp_. now rewrite Ho, Hst. Qed.

End WithScalar.

End HeapFacts.

(** ** The hidden states that [AlbertModel.forward] returns *)

Module AlbertFacts.

Import Tensor TensorFacts Torch Model.

Section WithPrimitives.

Context {F : Type} `{Primitives F}.

(** On a batch of shape (batch_size, sequence_length) the hidden states
    that [AlbertModel.forward] returns have shape
    (batch_size, sequence_length, hidden_size). *)
Lemma albert_forward_shape (self : AlbertModel) (input_ids : tval F)
    (attention_mask token_type_ids position_ids head_mask : option (tval F))
    (outputs : albert_outputs) (B S E Hd : nat) :
  size input_ids = [B; S] ->
  embeddings_keep_shape self E -> layers_keep_shape ->
  shape (Nn.weight (embedding_hidden_mapping_in self)) = [Hd; E] ->
  shape (Nn.bias (embedding_hidden_mapping_in self)) = [Hd] ->
  AlbertModel_forward self (Some input_ids) attention_mask token_type_ids
    position_ids head_mask None = Py.Ok outputs ->
  shape (sequence_output outputs) = [B; S; Hd].
Proof.
  intros Hsize Hemb Hlayers Hw Hb. unfold AlbertModel_forward.
  cbn [mbind result_bind Py.bind].
  repeat match goal with
         | |- (?m ≫= _) = _ -> _ =>
             let E := fresh "E" in
             destruct m eqn:E; [cbn [mbind result_bind Py.bind] | discriminate]
         end.
  intros [= <-]. cbn [sequence_output].
  match goal with
  | Henc : Encoder.AlbertTransformer_forward _ _ _ ?emb _ _ = Py.Ok ?out,
    Hembed : BertEmbeddings_forward _ _ _ _ _ = Py.Ok ?emb |- _ =>
      apply Hemb in Hembed; rewrite Hsize in Hembed;
      destruct (NnFacts.linear_returns (embedding_hidden_mapping_in self) emb
                  Hd E [B; S] Hw Hb Hembed) as (h0 & Hh0 & Hshape0 & _);
      exact (EncoderFacts.encoder_invariant AlbertLayer_forward
               (Nn.linear (embedding_hidden_mapping_in self))
               (fun h => shape h = [B; S; Hd]) (encoder self) emb h0 _ _ out
               (fun layer h m hm Hh => eq_trans (Hlayers layer h m hm) Hh)
               Hh0 Hshape0 Henc)
  end.
Qed.

End WithPrimitives.

End AlbertFacts.

(** ** The question answering head *)

Module QaFacts.

Import Tensor TensorFacts Torch Heap HeapFacts Model.

Section WithPrimitives.

Context {F : Type} `{Primitives F}.

(** Splitting logits of width two and squeezing gives channel 0 and
    channel 1, each without the last dimension. *)
Lemma split_logits_channels (logits : tensor F) (B S : nat) :
  shape logits = [B; S; 2%nat] ->
  exists start_logits end_logits,
    split_logits logits = Py.Ok (start_logits, end_logits)
    /\ shape start_logits = [B; S] /\ shape end_logits = [B; S]
    /\ forall b s, (b < B)%nat -> (s < S)%nat ->
         get start_logits [b; s] = get logits [b; s; 0%nat]
         /\ get end_logits [b; s] = get logits [b; s; 1%nat].
Proof.
  intros Hshape. unfold split_logits, split_last. rewrite Hshape.
  cbn [rev app seq map]. cbn [mbind result_bind Py.bind].
  eexists _, _. split; [reflexivity|]. split; [reflexivity|]. split; [reflexivity|].
  intros b s Hb Hs.
  assert (Hr : in_range [B; S] [b; s] = true).
  { cbn [in_range]. apply Nat.ltb_lt in Hb, Hs. now rewrite Hb, Hs. }
  assert (Hr1 : in_range [B; S; 1%nat] [b; s; 0%nat] = true).
  { cbn [in_range]. apply Nat.ltb_lt in Hb, Hs. now rewrite Hb, Hs. }
  split.
  - destruct (get_squeeze_last
                (tabulate [B; S; 1%nat]
                   (fun idx => get logits (removelast idx ++ [0%nat])))
                [B; S] [b; s] eq_refl Hr) as [_ ->].
    cbn [app]. now rewrite get_tabulate.
  - destruct (get_squeeze_last
                (tabulate [B; S; 1%nat]
                   (fun idx => get logits (removelast idx ++ [1%nat])))
                [B; S] [b; s] eq_refl Hr) as [_ ->].
    cbn [app]. now rewrite get_tabulate.
Qed.

(** The local rebinding of a position tensor: the caller's objects and all
    storages stay as they are; the local variable refers to an object on the
    caller's storage. *)
Lemma squeeze_if_batched_spec (h : heap F) (p : nat) (o : tensor_obj) :
  objects h !! p = Some o ->
  exists h' p',
    squeeze_if_batched p h = (h', Py.Ok p')
    /\ storages h' = storages h
    /\ objects h ⊆ objects h'
    /\ objects h' !! p'
       = Some {| storage_of := storage_of o; size_of := local_size (size_of o) |}.
Proof.
  intros Ho. unfold squeeze_if_batched, local_size.
  unfold mbind, heap_bind, Heap.bind, Heap.size. rewrite Ho.
  destruct (1 <? length (size_of o))%nat.
  - unfold Heap.squeeze_last. rewrite Ho.
    eexists _, _. split; [reflexivity|]. cbn [storages objects].
    split; [reflexivity|]. split.
    + apply insert_subseteq, not_elem_of_dom, is_fresh.
    + apply lookup_insert_eq.
  - exists h, p. split; [reflexivity|]. split; [reflexivity|].
    split; [reflexivity|]. rewrite Ho. now destruct o.
Qed.

(** What [qa_loss] does to the heap, and what it returns. *)
Lemma qa_loss_spec (h : heap F) (start_logits end_logits : tensor F)
    (sp ep : nat) (osp oep : tensor_obj) (ls le : list Z) (n : nat) :
  size1 start_logits = Py.Ok (Z.of_nat n) ->
  objects h !! sp = Some osp -> objects h !! ep = Some oep ->
  storages h !! storage_of osp = Some (SLong ls) ->
  storages h !! storage_of oep = Some (SLong le) ->
  exists h',
    qa_loss start_logits end_logits sp ep h
    = (h',
       start_loss ← CrossEntropyLoss (Z.of_nat n) start_logits
                      (clamped_target n (size_of osp) ls);
       end_loss ← CrossEntropyLoss (Z.of_nat n) end_logits
                    (clamped_target n (size_of oep) le);
       Py.Ok (fdiv (fadd start_loss end_loss) (of_Z 2)))
    /\ objects h ⊆ objects h'
    /\ storages h'
       = <[storage_of oep := SLong (map (clamp_Z 0 (Z.of_nat n)) le)]>
           (<[storage_of osp := SLong (map (clamp_Z 0 (Z.of_nat n)) ls)]>
              (storages h)).
Proof.
  intros Hsize Hsp Hep Hls Hle.
  destruct (squeeze_if_batched_spec h sp osp Hsp)
    as (h1 & sp' & Hsq1 & Hst1 & Hsub1 & Hsp').
  destruct (squeeze_if_batched_spec h1 ep oep (lookup_weaken _ _ _ _ Hep Hsub1))
    as (h2 & ep' & Hsq2 & Hst2 & Hsub2 & Hep').
  pose proof (lookup_weaken _ _ _ _ Hsp' Hsub2) as Hsp2.
  set (c := clamp_Z 0 (Z.of_nat n)).
  set (h3 := {| objects := objects h2;
                storages := <[storage_of osp := SLong (map c ls)]> (storages h2) |}).
  assert (Hc1 : clamp_ sp' 0 (Z.of_nat n) h2 = (h3, Py.Ok tt)).
  { rewrite (clamp_spec h2 sp' _ (SLong ls) 0 (Z.of_nat n) Hsp2).
    - reflexivity.
    - cbn [storage_of]. now rewrite Hst2, Hst1. }
  set (le3 := if decide (storage_of osp = storage_of oep) then map c ls else le).
  assert (Hle3 : storages h3 !! storage_of oep = Some (SLong le3)).
  { subst h3 le3. cbn [storages]. destruct (decide (storage_of osp = storage_of oep)) as [Heq|Hne].
    - rewrite Heq. apply lookup_insert_eq.
    - rewrite lookup_insert_ne by assumption. now rewrite Hst2, Hst1. }
  assert (Hcc : map c le3 = map c le).
  { subst le3. destruct (decide (storage_of osp = storage_of oep)) as [Heq|Hne];
      [|reflexivity].
    rewrite Heq, Hle in Hls. injection Hls as ->. rewrite List.map_map.
    apply List.map_ext. intros x. apply clamp_Z_idempotent. lia. }
  set (h4 := {| objects := objects h2;
                storages := <[storage_of oep := SLong (map c le)]> (storages h3) |}).
  assert (Hc2 : clamp_ ep' 0 (Z.of_nat n) h3 = (h4, Py.Ok tt)).
  { rewrite (clamp_spec h3 ep' _ (SLong le3) 0 (Z.of_nat n) Hep' Hle3).
    cbn [clamp_storage storage_of]. fold c. now rewrite Hcc. }
  assert (Hfinal_s : storages h4 !! storage_of osp = Some (SLong (map c ls))).
  { subst h4 h3. cbn [storages].
    destruct (decide (storage_of oep = storage_of osp)) as [Heq|Hne].
    - rewrite Heq. rewrite lookup_insert_eq.
      rewrite Heq, Hls in Hle. now injection Hle as ->.
    - rewrite lookup_insert_ne by assumption. apply lookup_insert_eq. }
  assert (Hfinal_e : storages h4 !! storage_of oep = Some (SLong (map c le))).
  { subst h4. cbn [storages]. apply lookup_insert_eq. }
  assert (Hr1 : read sp' h4 = (h4, Py.Ok (clamped_target n (size_of osp) ls))).
  { unfold read. replace (objects h4) with (objects h2) by reflexivity.
    rewrite Hsp2. cbn [storage_of size_of]. now rewrite Hfinal_s. }
  assert (Hr2 : read ep' h4 = (h4, Py.Ok (clamped_target n (size_of oep) le))).
  { unfold read. replace (objects h4) with (objects h2) by reflexivity.
    rewrite Hep'. cbn [storage_of size_of]. now rewrite Hfinal_e. }
  exists h4. split; [|split].
  - unfold qa_loss, mbind, mret, heap_bind, heap_ret, Heap.bind, Heap.ret, Heap.lift.
    rewrite Hsq1, Hsq2, Hsize, Hc1, Hc2, Hr1.
    destruct (CrossEntropyLoss (Z.of_nat n) start_logits
                (clamped_target n (size_of osp) ls)) as [l1|e1]; [|reflexivity].
    rewrite Hr2. cbn [result_bind Py.bind].
    destruct (CrossEntropyLoss (Z.of_nat n) end_logits
                (clamped_target n (size_of oep) le)) as [l2|e2]; reflexivity.
  - subst h4. cbn [objects]. now transitivity (objects h1).
  - subst h4 h3. cbn [storages]. now rewrite Hst2, Hst1.
Qed.

(** [AlbertForQuestionAnswering.forward] once the encoder has returned and
    the logits are split: what is left is the branch on the labels. *)
Lemma qa_forward_unfold (self : AlbertForQuestionAnswering) (h : heap F)
    (input_ids attention_mask token_type_ids position_ids head_mask inputs_embeds
       start_positions end_positions : option nat)
    (input_ids_v attention_mask_v token_type_ids_v position_ids_v head_mask_v
       inputs_embeds_v : option (tval F))
    (outputs : albert_outputs) (logits start_logits end_logits : tensor F) :
  inputs_read h
    [input_ids; attention_mask; token_type_ids; position_ids; head_mask; inputs_embeds]
    [input_ids_v; attention_mask_v; token_type_ids_v; position_ids_v; head_mask_v;
     inputs_embeds_v] ->
  AlbertModel_forward (qa_albert self) input_ids_v attention_mask_v token_type_ids_v
    position_ids_v head_mask_v inputs_embeds_v = Py.Ok outputs ->
  Nn.linear (qa_outputs self) (sequence_output outputs) = Py.Ok logits ->
  split_logits logits = Py.Ok (start_logits, end_logits) ->
  AlbertForQuestionAnswering_forward self input_ids attention_mask token_type_ids
    position_ids head_mask inputs_embeds start_positions end_positions h
  = match start_positions, end_positions with
    | Some sp, Some ep =>
        match qa_loss start_logits end_logits sp ep h with
        | (h', Py.Ok total_loss) =>
            (h', Py.Ok (VScalar total_loss :: VTensor start_logits
                          :: VTensor end_logits :: rest outputs))
        | (h', Py.Raise e) => (h', Py.Raise e)
        end
    | _, _ =>
        (h, Py.Ok (VTensor start_logits :: VTensor end_logits :: rest outputs))
    end.
Proof.
  intros Hread Halbert Hlinear Hsplit. unfold inputs_read in Hread.
  repeat match goal with
         | Hf : Forall2 _ (_ :: _) _ |- _ =>
             apply List.Forall2_cons_iff in Hf; destruct Hf as [? Hf]
         end.
  unfold AlbertForQuestionAnswering_forward, mbind, mret, heap_bind, heap_ret,
    Heap.bind, Heap.ret, Heap.lift.
  repeat match goal with
         | Hr : read_opt ?r h = _ |- _ => rewrite Hr; clear Hr
         end.
  rewrite Halbert, Hlinear, Hsplit.
  destruct start_positions as [sp|], end_positions as [ep|]; reflexivity.
Qed.

(** The scores, given the shape of the hidden states that the encoder
    returned. *)
Lemma qa_scores_from_hidden (self : AlbertForQuestionAnswering) (h : heap F)
    (input_ids attention_mask token_type_ids position_ids head_mask inputs_embeds
       start_positions end_positions : option nat)
    (input_ids_v attention_mask_v token_type_ids_v position_ids_v head_mask_v
       inputs_embeds_v : option (tval F))
    (outputs : albert_outputs) (B S Hd : nat) :
  inputs_read h
    [input_ids; attention_mask; token_type_ids; position_ids; head_mask; inputs_embeds]
    [input_ids_v; attention_mask_v; token_type_ids_v; position_ids_v; head_mask_v;
     inputs_embeds_v] ->
  AlbertModel_forward (qa_albert self) input_ids_v attention_mask_v token_type_ids_v
    position_ids_v head_mask_v inputs_embeds_v = Py.Ok outputs ->
  shape (sequence_output outputs) = [B; S; Hd] ->
  shape (Nn.weight (qa_outputs self)) = [2%nat; Hd] ->
  shape (Nn.bias (qa_outputs self)) = [2%nat] ->
  exists logits start_logits end_logits,
    Nn.linear (qa_outputs self) (sequence_output outputs) = Py.Ok logits
    /\ shape start_logits = [B; S] /\ shape end_logits = [B; S]
    /\ (forall b s, (b < B)%nat -> (s < S)%nat ->
          get start_logits [b; s] = get logits [b; s; 0%nat]
          /\ get end_logits [b; s] = get logits [b; s; 1%nat])
    /\ AlbertForQuestionAnswering_forward self input_ids attention_mask
         token_type_ids position_ids head_mask inputs_embeds start_positions
         end_positions h
       = match start_positions, end_positions with
         | Some sp, Some ep =>
             match qa_loss start_logits end_logits sp ep h with
             | (h', Py.Ok total_loss) =>
                 (h', Py.Ok (VScalar total_loss :: VTensor start_logits
                               :: VTensor end_logits :: rest outputs))
             | (h', Py.Raise e) => (h', Py.Raise e)
             end
         | _, _ =>
             (h, Py.Ok (VTensor start_logits :: VTensor end_logits :: rest outputs))
         end.
Proof.
  intros Hread Halbert Hseq Hw Hb.
  destruct (NnFacts.linear_returns (qa_outputs self) (sequence_output outputs)
              2%nat Hd [B; S] Hw Hb Hseq) as (logits & Hlinear & Hlshape & _).
  destruct (split_logits_channels logits B S Hlshape)
    as (start_logits & end_logits & Hsplit & Hs & He & Hchannels).
  exists logits, start_logits, end_logits.
  split; [exact Hlinear|]. split; [exact Hs|]. split; [exact He|].
  split; [exact Hchannels|].
  exact (qa_forward_unfold self h _ _ _ _ _ _ start_positions end_positions
           _ _ _ _ _ _ outputs logits start_logits end_logits
           Hread Halbert Hlinear Hsplit).
Qed.

(** The loss, given the shape of the hidden states that the encoder
    returned. *)
Lemma qa_loss_from_hidden (self : AlbertForQuestionAnswering) (h : heap F)
    (input_ids attention_mask token_type_ids position_ids head_mask
       inputs_embeds : option nat)
    (input_ids_v attention_mask_v token_type_ids_v position_ids_v head_mask_v
       inputs_embeds_v : option (tval F))
    (outputs : albert_outputs) (B S Hd : nat)
    (sp ep : nat) (osp oep : tensor_obj) (ls le : list Z) :
  inputs_read h
    [input_ids; attention_mask; token_type_ids; position_ids; head_mask; inputs_embeds]
    [input_ids_v; attention_mask_v; token_type_ids_v; position_ids_v; head_mask_v;
     inputs_embeds_v] ->
  AlbertModel_forward (qa_albert self) input_ids_v attention_mask_v token_type_ids_v
    position_ids_v head_mask_v inputs_embeds_v = Py.Ok outputs ->
  shape (sequence_output outputs) = [B; S; Hd] ->
  shape (Nn.weight (qa_outputs self)) = [2%nat; Hd] ->
  shape (Nn.bias (qa_outputs self)) = [2%nat] ->
  objects h !! sp = Some osp -> objects h !! ep = Some oep ->
  storages h !! storage_of osp = Some (SLong ls) ->
  storages h !! storage_of oep = Some (SLong le) ->
  exists logits start_logits end_logits h',
    Nn.linear (qa_outputs self) (sequence_output outputs) = Py.Ok logits
    /\ split_logits logits = Py.Ok (start_logits, end_logits)
    /\ AlbertForQuestionAnswering_forward self input_ids attention_mask
         token_type_ids position_ids head_mask inputs_embeds (Some sp) (Some ep) h
       = (h',
          total_loss ←
            (start_loss ← CrossEntropyLoss (Z.of_nat S) start_logits
                            (clamped_target S (size_of osp) ls);
             end_loss ← CrossEntropyLoss (Z.of_nat S) end_logits
                          (clamped_target S (size_of oep) le);
             Py.Ok (fdiv (fadd start_loss end_loss) (of_Z 2)));
          Py.Ok (VScalar total_loss :: VTensor start_logits
                   :: VTensor end_logits :: rest outputs))
    /\ Forall (fun x => 0 <= x <= Z.of_nat S) (map (clamp_Z 0 (Z.of_nat S)) ls)
    /\ Forall (fun x => 0 <= x <= Z.of_nat S) (map (clamp_Z 0 (Z.of_nat S)) le)
    /\ forall start_positions end_positions,
         start_positions = None \/ end_positions = None ->
         AlbertForQuestionAnswering_forward self input_ids attention_mask
           token_type_ids position_ids head_mask inputs_embeds start_positions
           end_positions h
         = (h, Py.Ok (VTensor start_logits :: VTensor end_logits :: rest outputs)).
Proof.
  intros Hread Halbert Hseq Hw Hb Hsp Hep Hls Hle.
  destruct (NnFacts.linear_returns (qa_outputs self) (sequence_output outputs)
              2%nat Hd [B; S] Hw Hb Hseq) as (logits & Hlinear & Hlshape & _).
  destruct (split_logits_channels logits B S Hlshape)
    as (start_logits & end_logits & Hsplit & Hs & He & _).
  assert (Hsize : size1 start_logits = Py.Ok (Z.of_nat S)).
  { unfold size1. now rewrite Hs. }
  destruct (qa_loss_spec h start_logits end_logits sp ep osp oep ls le S
              Hsize Hsp Hep Hls Hle) as (h' & Hloss & _ & _).
  exists logits, start_logits, end_logits, h'.
  split; [exact Hlinear|]. split; [exact Hsplit|]. split; [|split; [|split]].
  - rewrite (qa_forward_unfold self h _ _ _ _ _ _ (Some sp) (Some ep)
               _ _ _ _ _ _ outputs logits start_logits end_logits
               Hread Halbert Hlinear Hsplit).
    rewrite Hloss.
    destruct (CrossEntropyLoss (Z.of_nat S) start_logits
                (clamped_target S (size_of osp) ls)) as [l1|e1]; [|reflexivity].
    cbn [mbind result_bind Py.bind].
    destruct (CrossEntropyLoss (Z.of_nat S) end_logits
                (clamped_target S (size_of oep) le)) as [l2|e2]; reflexivity.
  - apply List.Forall_forall. intros x Hx. apply in_map_iff in Hx as (y & <- & _).
    apply clamp_Z_bounds. lia.
  - apply List.Forall_forall. intros x Hx. apply in_map_iff in Hx as (y & <- & _).
    apply clamp_Z_bounds. lia.
  - intros start_positions end_positions Hnone.
    rewrite (qa_forward_unfold self h _ _ _ _ _ _ start_positions end_positions
               _ _ _ _ _ _ outputs logits start_logits end_logits
               Hread Halbert Hlinear Hsplit).
    destruct Hnone as [-> | ->]; [reflexivity|].
    now destruct start_positions.
Qed.

(** The heap after the call, given the shape of the hidden states that the
    encoder returned. *)
Lemma frame_from_hidden (self : AlbertForQuestionAnswering) (h : heap F)
    (input_ids attention_mask token_type_ids position_ids head_mask
       inputs_embeds : option nat)
    (input_ids_v attention_mask_v token_type_ids_v position_ids_v head_mask_v
       inputs_embeds_v : option (tval F))
    (outputs : albert_outputs) (B S Hd : nat)
    (sp ep : nat) (osp oep : tensor_obj) (ls le : list Z) :
  inputs_read h
    [input_ids; attention_mask; token_type_ids; position_ids; head_mask; inputs_embeds]
    [input_ids_v; attention_mask_v; token_type_ids_v; position_ids_v; head_mask_v;
     inputs_embeds_v] ->
  AlbertModel_forward (qa_albert self) input_ids_v attention_mask_v token_type_ids_v
    position_ids_v head_mask_v inputs_embeds_v = Py.Ok outputs ->
  shape (sequence_output outputs) = [B; S; Hd] ->
  shape (Nn.weight (qa_outputs self)) = [2%nat; Hd] ->
  shape (Nn.bias (qa_outputs self)) = [2%nat] ->
  objects h !! sp = Some osp -> objects h !! ep = Some oep ->
  storages h !! storage_of osp = Some (SLong ls) ->
  storages h !! storage_of oep = Some (SLong le) ->
  exists h' r,
    AlbertForQuestionAnswering_forward self input_ids attention_mask
      token_type_ids position_ids head_mask inputs_embeds (Some sp) (Some ep) h
    = (h', r)
    /\ (forall k o, objects h !! k = Some o -> objects h' !! k = Some o)
    /\ storages h' !! storage_of osp
       = Some (SLong (map (clamp_Z 0 (Z.of_nat S)) ls))
    /\ storages h' !! storage_of oep
       = Some (SLong (map (clamp_Z 0 (Z.of_nat S)) le))
    /\ forall k, k <> storage_of osp -> k <> storage_of oep ->
         storages h' !! k = storages h !! k.
Proof.
  intros Hread Halbert Hseq Hw Hb Hsp Hep Hls Hle.
  destruct (NnFacts.linear_returns (qa_outputs self) (sequence_output outputs)
              2%nat Hd [B; S] Hw Hb Hseq) as (logits & Hlinear & Hlshape & _).
  destruct (split_logits_channels logits B S Hlshape)
    as (start_logits & end_logits & Hsplit & Hs & He & _).
  assert (Hsize : size1 start_logits = Py.Ok (Z.of_nat S)).
  { unfold size1. now rewrite Hs. }
  destruct (qa_loss_spec h start_logits end_logits sp ep osp oep ls le S
              Hsize Hsp Hep Hls Hle) as (h' & Hloss & Hsub & Hst).
  rewrite (qa_forward_unfold self h _ _ _ _ _ _ (Some sp) (Some ep)
             _ _ _ _ _ _ outputs logits start_logits end_logits
             Hread Halbert Hlinear Hsplit).
  rewrite Hloss. clear Hloss.
  match goal with
  | |- context [match ?E with Py.Ok _ => _ | Py.Raise _ => _ end] =>
      destruct E as [l|e]
  end; (exists h'; eexists; split; [reflexivity|]);
    (split; [|split; [|split]]).
  all: try (intros k o Hk; exact (lookup_weaken _ _ _ _ Hk Hsub)).
  all: try (rewrite Hst; apply lookup_insert_eq).
  all: try (intros k Hk1 Hk2; rewrite Hst;
            rewrite lookup_insert_ne by congruence;
            now rewrite lookup_insert_ne by congruence).
  all: rewrite Hst; destruct (decide (storage_of oep = storage_of osp)) as [Heq|Hne];
    [ rewrite Heq, lookup_insert_eq; rewrite Heq, Hls in Hle; now injection Hle as ->
    | rewrite lookup_insert_ne by assumption; apply lookup_insert_eq ].
Qed.

(** What [batch_encoded] gives: the shape of the hidden states. *)
Lemma batch_encoded_hidden (self : AlbertForQuestionAnswering) (h : heap F)
    (input_ids attention_mask token_type_ids position_ids head_mask : option nat)
    (B S : nat) (outputs : albert_outputs) :
  batch_encoded self h input_ids attention_mask token_type_ids position_ids
    head_mask B S outputs ->
  exists (ids : tval F) (am tti pos hm : option (tval F)) (Hd : nat),
    inputs_read h
      [input_ids; attention_mask; token_type_ids; position_ids; head_mask; None]
      [Some ids; am; tti; pos; hm; None]
    /\ AlbertModel_forward (qa_albert self) (Some ids) am tti pos hm None
       = Py.Ok outputs
    /\ shape (sequence_output outputs) = [B; S; Hd]
    /\ shape (Nn.weight (qa_outputs self)) = [2%nat; Hd]
    /\ shape (Nn.bias (qa_outputs self)) = [2%nat].
Proof.
  intros (ids & am & tti & pos & hm & E & Hd & Hread & Hsize & Hemb & Hlayers
          & Hw & Hb & Hqw & Hqb & Halbert).
  exists ids, am, tti, pos, hm, Hd. repeat split; try assumption.
  exact (AlbertFacts.albert_forward_shape (qa_albert self) ids am tti pos hm
           outputs B S E Hd Hsize Hemb Hlayers Hw Hb Halbert).
Qed.

(** C5.  On a batch of [input_ids] of shape (batch_size, sequence_length)
    on which the encoder returns, [AlbertForQuestionAnswering.forward]
    returns start scores and end scores of shape
    (batch_size, sequence_length): channel 0 and channel 1 of the logits that
    the linear layer [qa_outputs], of output width two, computes from the
    final hidden states, split along the last dimension and squeezed.
    Without both labels the call returns them followed by the extra outputs
    of the encoder; with both labels it returns them behind the loss
    whenever the loss computation returns. *)
Theorem qa_scores (self : AlbertForQuestionAnswering) (h : heap F)
    (input_ids attention_mask token_type_ids position_ids head_mask
       start_positions end_positions : option nat)
    (B S : nat) (outputs : albert_outputs) :
  batch_encoded self h input_ids attention_mask token_type_ids position_ids
    head_mask B S outputs ->
  exists logits start_logits end_logits,
    Nn.linear (qa_outputs self) (sequence_output outputs) = Py.Ok logits
    /\ shape start_logits = [B; S] /\ shape end_logits = [B; S]
    /\ (forall b s, (b < B)%nat -> (s < S)%nat ->
          get start_logits [b; s] = get logits [b; s; 0%nat]
          /\ get end_logits [b; s] = get logits [b; s; 1%nat])
    /\ AlbertForQuestionAnswering_forward self input_ids attention_mask
         token_type_ids position_ids head_mask None start_positions
         end_positions h
       = match start_positions, end_positions with
         | Some sp, Some ep =>
             match qa_loss start_logits end_logits sp ep h with
             | (h', Py.Ok total_loss) =>
                 (h', Py.Ok (VScalar total_loss :: VTensor start_logits
                               :: VTensor end_logits :: rest outputs))
             | (h', Py.Raise e) => (h', Py.Raise e)
             end
         | _, _ =>
             (h, Py.Ok (VTensor start_logits :: VTensor end_logits :: rest outputs))
         end.
Proof.
  intros Hbatch.
  destruct (batch_encoded_hidden _ _ _ _ _ _ _ _ _ _ Hbatch)
    as (ids & am & tti & pos & hm & Hd & Hread & Halbert & Hseq & Hw & Hb).
  exact (qa_scores_from_hidden self h _ _ _ _ _ None start_positions end_positions
           _ _ _ _ _ None outputs B S Hd Hread Halbert Hseq Hw Hb).
Qed.

(** C6.  On such a batch, with both label tensors, of integers, the loss
    that [AlbertForQuestionAnswering.forward] puts in front of its outputs is
    [(CE(start_logits, start) + CE(end_logits, end)) / 2], where [CE] is
    [CrossEntropyLoss] with [ignore_index = sequence_length] and [start],
    [end] are the positions clamped into [[0, sequence_length]]; the call
    returns exactly when the two losses do.  When a label tensor is absent
    the outputs carry no loss. *)
Theorem qa_loss_definition (self : AlbertForQuestionAnswering) (h : heap F)
    (input_ids attention_mask token_type_ids position_ids head_mask : option nat)
    (B S : nat) (outputs : albert_outputs)
    (sp ep : nat) (osp oep : tensor_obj) (ls le : list Z) :
  batch_encoded self h input_ids attention_mask token_type_ids position_ids
    head_mask B S outputs ->
  objects h !! sp = Some osp -> objects h !! ep = Some oep ->
  storages h !! storage_of osp = Some (SLong ls) ->
  storages h !! storage_of oep = Some (SLong le) ->
  exists logits start_logits end_logits h',
    Nn.linear (qa_outputs self) (sequence_output outputs) = Py.Ok logits
    /\ split_logits logits = Py.Ok (start_logits, end_logits)
    /\ AlbertForQuestionAnswering_forward self input_ids attention_mask
         token_type_ids position_ids head_mask None (Some sp) (Some ep) h
       = (h',
          total_loss ←
            (start_loss ← CrossEntropyLoss (Z.of_nat S) start_logits
                            (clamped_target S (size_of osp) ls);
             end_loss ← CrossEntropyLoss (Z.of_nat S) end_logits
                          (clamped_target S (size_of oep) le);
             Py.Ok (fdiv (fadd start_loss end_loss) (of_Z 2)));
          Py.Ok (VScalar total_loss :: VTensor start_logits
                   :: VTensor end_logits :: rest outputs))
    /\ Forall (fun x => 0 <= x <= Z.of_nat S) (map (clamp_Z 0 (Z.of_nat S)) ls)
    /\ Forall (fun x => 0 <= x <= Z.of_nat S) (map (clamp_Z 0 (Z.of_nat S)) le)
    /\ forall start_positions end_positions,
         start_positions = None \/ end_positions = None ->
         AlbertForQuestionAnswering_forward self input_ids attention_mask
           token_type_ids position_ids head_mask None start_positions
           end_positions h
         = (h, Py.Ok (VTensor start_logits :: VTensor end_logits :: rest outputs)).
Proof.
  intros Hbatch Hsp Hep Hls Hle.
  destruct (batch_encoded_hidden _ _ _ _ _ _ _ _ _ _ Hbatch)
    as (ids & am & tti & pos & hm & Hd & Hread & Halbert & Hseq & Hw & Hb).
  exact (qa_loss_from_hidden self h _ _ _ _ _ None _ _ _ _ _ None outputs B S Hd
           sp ep osp oep ls le Hread Halbert Hseq Hw Hb Hsp Hep Hls Hle).
Qed.

(** C10 (as amended).  On such a batch, with both label tensors, of
    integers, the call replaces the elements of the storages of the two
    label tensors by their values clamped into [[0, sequence_length]] and
    leaves every other storage as it was; every tensor object of the caller,
    the two label tensors included, keeps its storage and its size (the
    squeeze binds a local variable to a new view). *)
Theorem caller_tensors_frame (self : AlbertForQuestionAnswering) (h : heap F)
    (input_ids attention_mask token_type_ids position_ids head_mask : option nat)
    (B S : nat) (outputs : albert_outputs)
    (sp ep : nat) (osp oep : tensor_obj) (ls le : list Z) :
  batch_encoded self h input_ids attention_mask token_type_ids position_ids
    head_mask B S outputs ->
  objects h !! sp = Some osp -> objects h !! ep = Some oep ->
  storages h !! storage_of osp = Some (SLong ls) ->
  storages h !! storage_of oep = Some (SLong le) ->
  exists h' r,
    AlbertForQuestionAnswering_forward self input_ids attention_mask
      token_type_ids position_ids head_mask None (Some sp) (Some ep) h
    = (h', r)
    /\ (forall k o, objects h !! k = Some o -> objects h' !! k = Some o)
    /\ storages h' !! storage_of osp
       = Some (SLong (map (clamp_Z 0 (Z.of_nat S)) ls))
    /\ storages h' !! storage_of oep
       = Some (SLong (map (clamp_Z 0 (Z.of_nat S)) le))
    /\ forall k, k <> storage_of osp -> k <> storage_of oep ->
         storages h' !! k = storages h !! k.
Proof.
  intros Hbatch Hsp Hep Hls Hle.
  destruct (batch_encoded_hidden _ _ _ _ _ _ _ _ _ _ Hbatch)
    as (ids & am & tti & pos & hm & Hd & Hread & Halbert & Hseq & Hw & Hb).
  exact (frame_from_hidden self h _ _ _ _ _ None _ _ _ _ _ None outputs B S Hd
           sp ep osp oep ls le Hread Halbert Hseq Hw Hb Hsp Hep Hls Hle).
Qed.

End WithPrimitives.

End QaFacts.

(** *** The question answering head on the caller's heap of the examples *)

Module QaExamples.

Import Tensor Torch Heap Model Examples.

Lemma inputs_read_example :
  inputs_read caller_heap
    [Some 0%nat; None; None; None; None; None]
    [Some input_ids_value; None; None; None; None; None].
Proof. repeat constructor. Qed.

Lemma albert_example :
  AlbertModel_forward (qa_albert qa_model) (Some input_ids_value)
    None None None None None = Py.Ok Examples.encoded.
Proof. vm_compute. reflexivity. Qed.

Lemma batch_encoded_example :
  batch_encoded qa_model caller_heap (Some 0%nat) None None None None 1 3
    Examples.encoded.
Proof.
  exists input_ids_value, None, None, None, None, 1%nat, 1%nat.
  split; [exact inputs_read_example|]. split; [reflexivity|].
  split.
  { intros [t|t] pos tti r; cbn; [|discriminate]. now intros [= <-]. }
  split; [intros layer t m hm; reflexivity|].
  repeat (split; [reflexivity|]). exact albert_example.
Qed.

End QaExamples.

(** Without labels the call of the examples returns the two score tensors,
    both of shape (1, 3), and leaves the heap as it is. *)
Lemma qa_scores_witness :
  exists start_logits end_logits : tensor Z,
    Model.AlbertForQuestionAnswering_forward Examples.qa_model
      (Some 0%nat) None None None None None None None Examples.caller_heap
    = (Examples.caller_heap,
       Py.Ok [Torch.VTensor start_logits; Torch.VTensor end_logits])
    /\ Tensor.shape start_logits = [1; 3]%nat
    /\ Tensor.shape end_logits = [1; 3]%nat.
Proof.
  destruct (QaFacts.qa_scores Examples.qa_model Examples.caller_heap
              (Some 0%nat) None None None None None None 1 3 Examples.encoded
              QaExamples.batch_encoded_example)
    as (logits & start_logits & end_logits & _ & Hs & He & _ & Hforward).
  exists start_logits, end_logits. split; [exact Hforward|]. split; assumption.
Defined.

(** With the labels 9 and -4 on a sequence of length 3 the start label is
    clamped to the ignored index 3 and the end label to 0; the loss of the
    examples is then (0 + 100) / 2. *)
Lemma qa_loss_definition_witness :
  exists (h' : Heap.heap Z) (start_logits end_logits : tensor Z),
    Model.AlbertForQuestionAnswering_forward Examples.qa_model
      (Some 0%nat) None None None None None (Some 1%nat) (Some 2%nat)
      Examples.caller_heap
    = (h', Py.Ok [Torch.VScalar 50; Torch.VTensor start_logits;
                  Torch.VTensor end_logits]).
Proof.
  destruct (QaFacts.qa_loss_definition Examples.qa_model Examples.caller_heap
              (Some 0%nat) None None None None 1 3 Examples.encoded
              1%nat 2%nat
              {| Heap.storage_of := 11%nat; Heap.size_of := [1; 1]%nat |}
              {| Heap.storage_of := 12%nat; Heap.size_of := [1]%nat |}
              [9] [-4]
              QaExamples.batch_encoded_example eq_refl eq_refl eq_refl eq_refl)
    as (logits & start_logits & end_logits & h' & _ & _ & Hforward & _).
  exists h', start_logits, end_logits. exact Hforward.
Defined.

(** On the heap of the examples the call clamps the two label storages and
    nothing else; the caller's [start_positions] keeps its size (1, 1). *)
Lemma caller_tensors_frame_witness :
  exists (h' : Heap.heap Z) r,
    Model.AlbertForQuestionAnswering_forward Examples.qa_model
      (Some 0%nat) None None None None None (Some 1%nat) (Some 2%nat)
      Examples.caller_heap = (h', r)
    /\ Heap.objects h' !! 1%nat
       = Some {| Heap.storage_of := 11%nat; Heap.size_of := [1; 1]%nat |}
    /\ Heap.storages h' !! 11%nat = Some (Heap.SLong [3])
    /\ Heap.storages h' !! 12%nat = Some (Heap.SLong [0])
    /\ Heap.storages h' !! 10%nat = Some (Heap.SLong [5; 6; 7]).
Proof.
  destruct (QaFacts.caller_tensors_frame Examples.qa_model Examples.caller_heap
              (Some 0%nat) None None None None 1 3 Examples.encoded
              1%nat 2%nat
              {| Heap.storage_of := 11%nat; Heap.size_of := [1; 1]%nat |}
              {| Heap.storage_of := 12%nat; Heap.size_of := [1]%nat |}
              [9] [-4]
              QaExamples.batch_encoded_example eq_refl eq_refl eq_refl eq_refl)
    as (h' & r & Hforward & Hobjects & Hstart & Hend & Hother).
  exists h', r. split; [exact Hforward|].
  split; [apply Hobjects; reflexivity|].
  split; [exact Hstart|]. split; [exact Hend|].
  rewrite (Hother 10%nat); [reflexivity | discriminate | discriminate].
Defined.

(** C10 as stated fails: after the call the caller's [start_positions], of
    size (1, 1) before the call, still has size (1, 1), where an in-place
    squeeze would have left it with size (1,).  Its element 9 has become 3. *)
Lemma caller_tensors_frame_counterexample :
  Heap.objects
    (Model.AlbertForQuestionAnswering_forward Examples.qa_model
       (Some 0%nat) None None None None None (Some 1%nat) (Some 2%nat)
       Examples.caller_heap).1 !! 1%nat
  = Some {| Heap.storage_of := 11%nat; Heap.size_of := [1; 1]%nat |}
  /\ Heap.objects (squeeze_in_place 1%nat Examples.caller_heap) !! 1%nat
     = Some {| Heap.storage_of := 11%nat; Heap.size_of := [1]%nat |}
  /\ Heap.storages
       (Model.AlbertForQuestionAnswering_forward Examples.qa_model
          (Some 0%nat) None None None None None (Some 1%nat) (Some 2%nat)
          Examples.caller_heap).1 !! 11%nat
     = Some (Heap.SLong [3]).
Proof. repeat split; vm_compute; reflexivity. Qed.

(** ** [AlbertModel.forward] and the classification head *)

Module ModelFacts.

Import Tensor TensorFacts Torch Model.

Section WithPrimitives.

Context {F : Type} `{Primitives F}.

(** C8.  [AlbertModel.forward] raises [ValueError] when both [input_ids] and
    [inputs_embeds] are given and when neither is given.  In the other calls
    an omitted [attention_mask] stands for the tensor of ones of the input
    shape, and an omitted [token_type_ids] for the tensor of zeros of the
    input shape: the call without the argument is the call with that tensor,
    in its result and in what it raises. *)
Theorem albert_input_selection (self : AlbertModel)
    (attention_mask token_type_ids position_ids head_mask : option (tval F)) :
  (forall input_ids inputs_embeds,
     AlbertModel_forward self (Some input_ids) attention_mask token_type_ids
       position_ids head_mask (Some inputs_embeds)
     = Py.Raise (Py.ValueError
         "You cannot specify both input_ids and inputs_embeds at the same time"))
  /\ AlbertModel_forward self None attention_mask token_type_ids position_ids
       head_mask None
     = Py.Raise (Py.ValueError
         "You have to specify either input_ids or inputs_embeds")
  /\ (forall input_ids,
        AlbertModel_forward self (Some input_ids) None token_type_ids position_ids
          head_mask None
        = AlbertModel_forward self (Some input_ids)
            (Some (TFloat (full (size input_ids) (of_Z 1)))) token_type_ids
            position_ids head_mask None)
  /\ (forall inputs_embeds,
        AlbertModel_forward self None None token_type_ids position_ids
          head_mask (Some inputs_embeds)
        = AlbertModel_forward self None
            (Some (TFloat (full (removelast (size inputs_embeds)) (of_Z 1))))
            token_type_ids position_ids head_mask (Some inputs_embeds))
  /\ (forall input_ids,
        AlbertModel_forward self (Some input_ids) attention_mask None position_ids
          head_mask None
        = AlbertModel_forward self (Some input_ids) attention_mask
            (Some (TLong (full (size input_ids) 0))) position_ids head_mask None)
  /\ (forall inputs_embeds,
        AlbertModel_forward self None attention_mask None position_ids
          head_mask (Some inputs_embeds)
        = AlbertModel_forward self None attention_mask
            (Some (TLong (full (removelast (size inputs_embeds)) 0)))
            position_ids head_mask (Some inputs_embeds)).
Proof.
  repeat split; intros; reflexivity.
Qed.

(** [t.view(-1)] keeps the elements and gives them one dimension. *)
Lemma view_flat {A : Type} (t : tensor A) :
  view t [-1] = Py.Ok {| shape := [length (data t)]; data := data t |}.
Proof.
  unfold view. cbn [existsb orb count_occ].
  destruct (Z.eq_dec (-1) (-1)) as [_|Hne]; [|contradiction].
  unfold infer_dim. cbn [List.filter Z.eqb Pos.eqb negb fold_right map].
  rewrite Z.mod_1_r, Z.div_1_r, Nat2Z.id. reflexivity.
Qed.

(** [t.view(-1, n)] on a well-formed tensor of shape (b, n) with [n > 0] is
    the tensor itself. *)
Lemma view_rows {A : Type} (t : tensor A) (b n : nat) :
  shape t = [b; n] -> wf t -> (0 < n)%nat ->
  view t [-1; Z.of_nat n] = Py.Ok t.
Proof.
  intros Hs Hwf Hn. unfold view. unfold wf in Hwf. rewrite Hs in Hwf.
  cbn [numel fold_right] in Hwf.
  assert (Hlt : (Z.of_nat n <? -1) = false) by (apply Z.ltb_ge; lia).
  cbn [existsb orb]. rewrite Hlt. cbn [orb count_occ].
  destruct (Z.eq_dec (-1) (-1)) as [_|Hne]; [|contradiction].
  destruct (Z.eq_dec (Z.of_nat n) (-1)) as [Heq|_]; [lia|].
  unfold infer_dim.
  assert (Hneq : (Z.of_nat n =? -1) = false) by (apply Z.eqb_neq; lia).
  cbn [List.filter]. rewrite Hneq. cbn [Z.eqb Pos.eqb negb fold_right].
  rewrite Z.mul_1_r.
  destruct (Z.eqb_spec (Z.of_nat n) 0) as [Hzero|_]; [lia|].
  rewrite Hwf. replace (Z.of_nat (b * (n * 1))) with (Z.of_nat b * Z.of_nat n) by lia.
  rewrite Z.mod_mul by lia. cbn [Z.eqb]. rewrite Z.div_mul by lia.
  cbn [map]. rewrite Hneq, Nat2Z.id, Nat2Z.id.
  destruct t as [s d]. cbn in *. now subst.
Qed.

Lemma view_v_flat (v : tval F) : view_v v [-1] = Py.Ok (flat_v v).
Proof. destruct v as [t|t]; cbn [view_v flat_v]; now rewrite view_flat. Qed.

(** C7.  The logits of [AlbertForSequenceClassification.forward] are the
    classifier applied to the pooled output after dropout.  With labels the
    loss in front of them is [MSELoss] of the flattened logits and the
    flattened labels when [num_labels == 1], and otherwise
    [CrossEntropyLoss] of the logits, as rows of [num_labels] scores, and the
    flattened labels; the call returns exactly when the loss does.  Without
    labels the outputs carry no loss. *)
Theorem classification_loss (self : AlbertForSequenceClassification)
    (input_ids attention_mask token_type_ids position_ids head_mask
       inputs_embeds : option (tval F))
    (outputs : albert_outputs) (B Hd n : nat) :
  AlbertModel_forward (sc_albert self) input_ids attention_mask token_type_ids
    position_ids head_mask inputs_embeds = Py.Ok outputs ->
  shape (hidden_dropout (pooled_output outputs)) = [B; Hd] ->
  shape (Nn.weight (classifier self)) = [n; Hd] ->
  shape (Nn.bias (classifier self)) = [n] ->
  sc_num_labels self = Z.of_nat n -> (0 < n)%nat ->
  exists logits,
    Nn.linear (classifier self) (hidden_dropout (pooled_output outputs))
    = Py.Ok logits
    /\ shape logits = [B; n]
    /\ AlbertForSequenceClassification_forward self input_ids attention_mask
         token_type_ids position_ids head_mask inputs_embeds None
       = Py.Ok (VTensor logits :: rest outputs)
    /\ forall labels,
         AlbertForSequenceClassification_forward self input_ids attention_mask
           token_type_ids position_ids head_mask inputs_embeds (Some labels)
         = (loss ←
              (if (n =? 1)%nat
               then MSELoss {| shape := [(B * n)%nat]; data := data logits |}
                            (flat_v labels)
               else CrossEntropyLoss default_ignore_index logits (flat_v labels));
            Py.Ok (VScalar loss :: VTensor logits :: rest outputs)).
Proof.
  intros Halbert Hpooled Hw Hb Hn Hpos.
  destruct (NnFacts.linear_returns (classifier self)
              (hidden_dropout (pooled_output outputs)) n Hd [B] Hw Hb Hpooled)
    as (logits & Hlinear & Hshape & _).
  assert (Hwf : wf logits).
  { unfold Nn.linear in Hlinear. rewrite Hw, Hb, Hpooled in Hlinear.
    cbn [rev app] in Hlinear. rewrite !Nat.eqb_refl in Hlinear.
    cbn [andb] in Hlinear. injection Hlinear as <-. apply tabulate_wf. }
  exists logits. split; [exact Hlinear|]. split; [exact Hshape|].
  unfold AlbertForSequenceClassification_forward. rewrite Halbert.
  cbn [mbind result_bind Py.bind]. rewrite Hlinear. cbn [mbind result_bind Py.bind].
  split; [reflexivity|]. intros labels. rewrite Hn.
  destruct (Nat.eqb_spec n 1) as [->|Hne].
  - cbn [Z.of_nat Pos.of_succ_nat Z.eqb Pos.eqb].
    rewrite view_flat, view_v_flat. cbn [mbind result_bind Py.bind].
    assert (Hlen : length (data logits) = (B * 1)%nat).
    { unfold wf in Hwf. rewrite Hshape in Hwf. cbn [app numel fold_right] in Hwf. lia. }
    now rewrite Hlen.
  - destruct (Z.eqb_spec (Z.of_nat n) 1) as [Heq|_]; [lia|].
    rewrite (view_rows logits B n Hshape Hwf Hpos), view_v_flat. reflexivity.
Qed.

End WithPrimitives.

End ModelFacts.

(** The classification head of the examples with three labels: the loss is
    the cross entropy of the examples on the label 2; with one label it is
    the squared error of the examples. *)
Lemma classification_loss_witness :
  Model.AlbertForSequenceClassification_forward
    (Examples.sc_model 3 [1; 2; 3] [0; 0; 1])
    (Some Examples.input_ids_value) None None None None None
    (Some (Torch.TLong {| Tensor.shape := [1]%nat; Tensor.data := [2] |}))
  = Py.Ok [Torch.VScalar 102;
           Torch.VTensor {| Tensor.shape := [1; 3]%nat; Tensor.data := [7; 14; 22] |}]
  /\ Model.AlbertForSequenceClassification_forward
       (Examples.sc_model 1 [1] [0])
       (Some Examples.input_ids_value) None None None None None
       (Some (Torch.TLong {| Tensor.shape := [1]%nat; Tensor.data := [2] |}))
     = Py.Ok [Torch.VScalar 102;
              Torch.VTensor {| Tensor.shape := [1; 1]%nat; Tensor.data := [7] |}].
Proof.
  split.
  - destruct (ModelFacts.classification_loss
                (Examples.sc_model 3 [1; 2; 3] [0; 0; 1])
                (Some Examples.input_ids_value) None None None None None
                Examples.encoded 1 1 3
                QaExamples.albert_example eq_refl eq_refl eq_refl eq_refl
                ltac:(lia))
      as (logits & Hlinear & _ & _ & Hlabels).
    rewrite Hlabels. vm_compute in Hlinear. injection Hlinear as <-.
    vm_compute. reflexivity.
  - destruct (ModelFacts.classification_loss
                (Examples.sc_model 1 [1] [0])
                (Some Examples.input_ids_value) None None None None None
                Examples.encoded 1 1 1
                QaExamples.albert_example eq_refl eq_refl eq_refl eq_refl
                ltac:(lia))
      as (logits & Hlinear & _ & _ & Hlabels).
    rewrite Hlabels. vm_compute in Hlinear. injection Hlinear as <-.
    vm_compute. reflexivity.
Defined.

(** ** The output projection of [AlbertAttention.forward] *)

Module AttentionFacts.

Import Tensor TensorFacts Torch Attention.

Lemma seq_from (a d : nat) : seq a d = map (fun j => (a + j)%nat) (seq 0 d).
Proof.
  revert a. induction d as [|d IH]; intros a; [reflexivity|].
  cbn [seq map]. f_equal; [lia|].
  rewrite (IH (S a)), (IH 1%nat), List.map_map.
  apply List.map_ext. intros j. lia.
Qed.



(** [t.view(s)] for sizes that hold the elements of [t]. *)
Lemma view_sizes {A : Type} (t : tensor A) (s : list nat) :
  numel s = length (data t) ->
  view t (map Z.of_nat s) = Py.Ok {| shape := s; data := data t |}.
Proof.
  intros Hn. unfold view.
  assert (Hneg : existsb (fun d => d <? -1) (map Z.of_nat s) = false).
  { clear Hn. induction s as [|d s IH]; [reflexivity|]. cbn [map existsb].
    destruct (Z.ltb_spec (Z.of_nat d) (-1)) as [Hlt|_]; [lia|].
    cbn [orb]. exact IH. }
  assert (Hcount : count_occ Z.eq_dec (map Z.of_nat s) (-1) = 0%nat).
  { apply List.count_occ_not_In. intros Hin.
    apply in_map_iff in Hin as (d & Hd & _). lia. }
  rewrite Hneg, Hcount.
  rewrite List.map_map.
  rewrite (List.map_ext (fun x => Z.to_nat (Z.of_nat x)) (fun x => x))
    by (intros x; apply Nat2Z.id).
  rewrite List.map_id, Hn, Nat.eqb_refl. reflexivity.
Qed.

Section Projection.

Context {F : Type} `{Primitives F}.


End Projection.

End AttentionFacts.


Example projection_value :
  Attention.project_context Examples.attention Examples.context
  = Py.Ok ({| Tensor.shape := [1; 1; 2]%nat; Tensor.data := [27; 59] |},
           {| Tensor.shape := [1; 1; 2]%nat; Tensor.data := [5; 6] |}).
Proof. vm_compute. reflexivity. Qed.

(** * Further properties of the code *)

(** ** Python sequences and loops, continued *)

Module SeqFacts.

Lemma for_each_app {S B : Type} (body : S -> B -> Py.result S) (l1 l2 : list B) :
  forall s, for_each body (l1 ++ l2) s
            = Py.bind (for_each body l1 s) (for_each body l2).
Proof.
  induction l1 as [|a l1 IH]; intros s; [reflexivity|].
  cbn [app for_each]. destruct (body s a) as [s1|e]; [apply IH | reflexivity].
Qed.

(** A measure of the state that every iteration raises by [k] has been
    raised by [k] times the number of iterations when the loop returns. *)
Lemma for_each_count {S A : Type} (f : S -> nat) (k : nat)
    (body : S -> A -> Py.result S) (l : list A) :
  (forall s a s', body s a = Py.Ok s' -> f s' = (f s + k)%nat) ->
  forall s s', for_each body l s = Py.Ok s' -> f s' = (f s + k * length l)%nat.
Proof.
  intros Hbody. induction l as [|a l IH]; intros s s' Hrun.
  - cbn in Hrun. injection Hrun as <-. cbn. lia.
  - cbn [for_each] in Hrun. destruct (body s a) as [s1|e] eqn:Hstep; [|discriminate].
    cbn in Hrun. apply IH in Hrun. apply Hbody in Hstep. cbn [length]. lia.
Qed.

Lemma getitem_In {A : Type} (l : list A) (i : Z) (a : A) :
  Py.getitem l i = Py.Ok a -> In a l.
Proof.
  unfold Py.getitem. destruct (_ || _); [discriminate|].
  destruct (nth_error l _) as [b|] eqn:Hnth; [|discriminate].
  intros [= <-]. eapply nth_error_In, Hnth.
Qed.

Lemma nth_error_lookup {X : Type} (l : list X) (i : nat) : nth_error l i = l !! i.
Proof.
  revert i. induction l as [|x l IH]; intros [|i]; try reflexivity. apply IH.
Qed.

Lemma getitem_lookup {X : Type} (l : list X) (i : nat) (x : X) :
  l !! i = Some x -> Py.getitem l (Z.of_nat i) = Py.Ok x.
Proof.
  intros Hl. pose proof (lookup_lt_Some _ _ _ Hl) as Hlt. unfold Py.getitem.
  destruct (Z.ltb_spec (Z.of_nat i) 0) as [?|_]; [lia|].
  destruct (Z.ltb_spec (Z.of_nat i) 0) as [?|_]; [lia|].
  destruct (Z.leb_spec (Z.of_nat (length l)) (Z.of_nat i)) as [?|_]; [lia|].
  cbn [orb]. now rewrite Nat2Z.id, nth_error_lookup, Hl.
Qed.

Lemma slice_bound_id (n a : Z) : 0 <= a <= n -> Py.slice_bound n a = a.
Proof.
  intros Ha. unfold Py.slice_bound.
  destruct (Z.ltb_spec a 0); lia.
Qed.

(** A slice whose bounds are inside the list. *)
Lemma slice_inside {X : Type} (l : list X) (a b : Z) :
  0 <= a <= b -> b <= Z.of_nat (length l) ->
  Py.slice l a b = firstn (Z.to_nat (b - a)) (skipn (Z.to_nat a) l)
  /\ length (Py.slice l a b) = Z.to_nat (b - a).
Proof.
  intros Hab Hb. unfold Py.slice. rewrite !slice_bound_id by lia.
  split; [reflexivity|]. rewrite List.length_firstn, List.length_skipn. lia.
Qed.

Lemma skipn_repeat {X : Type} (x : X) (k n : nat) :
  skipn k (repeat x n) = repeat x (n - k).
Proof.
  revert k. induction n as [|n IH]; intros [|k]; try reflexivity. cbn. apply IH.
Qed.

Lemma firstn_repeat {X : Type} (x : X) (k n : nat) :
  (k <= n)%nat -> firstn k (repeat x n) = repeat x k.
Proof.
  revert k. induction n as [|n IH]; intros [|k] Hk; try reflexivity; [lia|].
  cbn. f_equal. apply IH. lia.
Qed.

Lemma lookup_repeat {X : Type} (x : X) (n i : nat) :
  (i < n)%nat -> repeat x n !! i = Some x.
Proof.
  revert i. induction n as [|n IH]; intros [|i] Hi; try lia; [reflexivity|].
  cbn. apply IH. lia.
Qed.

End SeqFacts.

(** ** The checkpoint loader: what a conversion reads and what it leaves *)

Module LoaderInvariants.

Import Tensor Loader Structure SeqFacts.

Open Scope string_scope.

Section WithElements.

Context {A : Type} `{Inhabited A}.

Lemma alike_refl (o : @obj A) : alike o o.
Proof. destruct o; reflexivity. Qed.

Lemma alike_trans (o1 o2 o3 : @obj A) : alike o1 o2 -> alike o2 o3 -> alike o1 o3.
Proof. destruct o1, o2, o3; cbn; try tauto; congruence. Qed.

Lemma alike_sym (o1 o2 : @obj A) : alike o1 o2 -> alike o2 o1.
Proof. destruct o1, o2; cbn; try tauto; congruence. Qed.

Lemma same_structure_refl (σ : gmap nat (@obj A)) : same_structure σ σ.
Proof.
  intros l. destruct (σ !! l); constructor. apply alike_refl.
Qed.

Lemma same_structure_trans (σ1 σ2 σ3 : gmap nat (@obj A)) :
  same_structure σ1 σ2 -> same_structure σ2 σ3 -> same_structure σ1 σ3.
Proof.
  intros H12 H23 l. specialize (H12 l). specialize (H23 l).
  destruct H12 as [o1 o2 Ha|]; inversion H23; subst; constructor.
  eapply alike_trans; eassumption.
Qed.

Lemma same_structure_sym (σ1 σ2 : gmap nat (@obj A)) :
  same_structure σ1 σ2 -> same_structure σ2 σ1.
Proof.
  intros H12 l. specialize (H12 l).
  destruct H12; constructor. now apply alike_sym.
Qed.

(** An assignment that the shape guard lets through keeps the structure. *)
Lemma set_data_structure (σ : gmap nat (@obj A)) (p : ptr) (array : tensor A) :
  shape_of σ p = Py.Ok (shape array) ->
  same_structure σ (set_data σ p array).
Proof.
  intros Hshape l. destruct p as [l0|s]; cbn [set_data]; [|apply same_structure_refl].
  destruct (decide (l = l0)) as [->|Hne].
  - rewrite lookup_insert_eq. cbn [shape_of] in Hshape.
    destruct (σ !! l0) as [[a|i|t]|]; try discriminate.
    constructor. cbn. congruence.
  - rewrite lookup_insert_ne by congruence. apply same_structure_refl.
Qed.

(** The statements after the inner loop either raise and leave the store,
    or assign, behind the shape guard, to what the pointer refers to. *)
Lemma assign_cases (σ σ' : gmap nat (@obj A)) (pointer : ptr) (m_name : string)
    (array : tensor A) (r : Py.result unit) :
  assign σ pointer m_name array = (σ', r) ->
  (σ' = σ /\ exists e, r = Py.Raise e)
  \/ (exists p array', r = Py.Ok tt /\ σ' = set_data σ p array'
                       /\ shape_of σ p = Py.Ok (shape array')).
Proof.
  unfold assign.
  match goal with
  | |- context [match ?s1 with Py.Ok _ => _ | Py.Raise _ => _ end] =>
      destruct s1 as [[p array']|e] eqn:Hstep
  end.
  2: { intros [= <- <-]. left. eauto. }
  destruct (shape_of σ p) as [ps|e] eqn:Hshape.
  2: { intros [= <- <-]. left. eauto. }
  destruct (bool_decide (ps = shape array')) eqn:Hdec.
  - apply bool_decide_eq_true_1 in Hdec. subst ps.
    intros [= <- <-]. right. exists p, array'. auto.
  - intros [= <- <-]. left. eauto.
Qed.

Lemma convert_cases (model : nat) (σ σ' : gmap nat (@obj A))
    (var : string * tensor A) (r : Py.result unit) :
  convert_variable model σ var = (σ', r) ->
  σ' = σ
  \/ (exists p array', r = Py.Ok tt /\ σ' = set_data σ p array'
                       /\ shape_of σ p = Py.Ok (shape array')).
Proof.
  destruct var as [original_name array]. unfold convert_variable.
  destruct (skipped_by_name _); [intros [= <- <-]; now left|].
  destruct (skipped_by_path _); [intros [= <- <-]; now left|].
  destruct (walk σ model _) as [pointer|e]; [|intros [= <- <-]; now left].
  intros Hassign. apply assign_cases in Hassign as [[-> _]|Hset]; [now left | now right].
Qed.

(** An iteration that raises leaves the store as it found it. *)
Lemma convert_raise_store (model : nat) (σ σ' : gmap nat (@obj A))
    (var : string * tensor A) (e : Py.exn) :
  convert_variable model σ var = (σ', Py.Raise e) -> σ' = σ.
Proof.
  intros Hc. apply convert_cases in Hc as [->|(p & a & Hr & _)];
    [reflexivity | discriminate].
Qed.

Lemma convert_structure (model : nat) (σ σ' : gmap nat (@obj A))
    (var : string * tensor A) (r : Py.result unit) :
  convert_variable model σ var = (σ', r) -> same_structure σ σ'.
Proof.
  intros Hc. apply convert_cases in Hc as [->|(p & a & _ & -> & Hshape)].
  - apply same_structure_refl.
  - now apply set_data_structure.
Qed.

(** X1.  The conversion stops at the first variable whose iteration raises:
    the variables listed before it have been converted, the failing
    iteration leaves no trace in the model, and the variables listed after
    it are not looked at. *)
Theorem conversion_stops_at_first_exception (model : nat)
    (σ σ1 σ2 : gmap nat (@obj A)) (vars1 vars2 : list (string * tensor A))
    (var : string * tensor A) (e : Py.exn) :
  load_tf_weights_in_albert model σ vars1 = (σ1, Py.Ok tt) ->
  convert_variable model σ1 var = (σ2, Py.Raise e) ->
  σ2 = σ1
  /\ load_tf_weights_in_albert model σ (vars1 ++ var :: vars2) = (σ1, Py.Raise e).
Proof.
  intros Hload Hconv. pose proof (convert_raise_store _ _ _ _ _ Hconv) as ->.
  split; [reflexivity|].
  assert (Happ : forall (v1 : list (string * tensor A)) (s s1 : gmap nat (@obj A)),
             load_tf_weights_in_albert model s v1 = (s1, Py.Ok tt) ->
             load_tf_weights_in_albert model s (v1 ++ var :: vars2)
             = load_tf_weights_in_albert model s1 (var :: vars2)).
  { induction v1 as [|v v1 IH]; intros s s1 Hs.
    - cbn in Hs. injection Hs as ->. reflexivity.
    - cbn [app load_tf_weights_in_albert] in *.
      destruct (convert_variable model s v) as [s' [[]|e']]; [|discriminate].
      now apply IH. }
  rewrite (Happ _ _ _ Hload). cbn [load_tf_weights_in_albert]. now rewrite Hconv.
Qed.

Lemma load_structure_kept (model : nat) (vars : list (string * tensor A)) :
  forall σ : gmap nat (@obj A),
    same_structure σ (load_tf_weights_in_albert model σ vars).1.
Proof.
  induction vars as [|var vars IH]; intros σ.
  - apply same_structure_refl.
  - cbn [load_tf_weights_in_albert].
    destruct (convert_variable model σ var) as [σ1 r1] eqn:Hconv.
    apply convert_structure in Hconv.
    destruct r1 as [[]|e]; [|exact Hconv].
    eapply same_structure_trans; [exact Hconv | apply IH].
Qed.

(** X2.  Whatever the checkpoint holds and whether or not the conversion
    raises, it keeps the structure of the model: no object is added or
    removed, every module and module list keeps its children, and every
    parameter keeps its shape. *)
Theorem conversion_keeps_structure (model : nat) (vars : list (string * tensor A))
    (σ : gmap nat (@obj A)) :
  let σ' := (load_tf_weights_in_albert model σ vars).1 in
  dom σ' = dom σ
  /\ (forall l t, σ !! l = Some (NnParameter t) ->
        exists t', σ' !! l = Some (NnParameter t') /\ shape t' = shape t)
  /\ (forall l o, (forall t, o <> NnParameter t) ->
        σ !! l = Some o -> σ' !! l = Some o).
Proof.
  intros σ'. pose proof (load_structure_kept model vars σ) as Hstruct.
  fold σ' in Hstruct. clearbody σ'.
  split; [|split].
  - apply set_eq. intros l. rewrite !elem_of_dom. specialize (Hstruct l).
    destruct Hstruct; split; intros [? ?]; try discriminate; eauto.
  - intros l t Hl. specialize (Hstruct l). rewrite Hl in Hstruct.
    inversion Hstruct as [o o' Ha Ho Ho'|]; subst.
    destruct o' as [a|i|t']; cbn in Ha; try contradiction.
    exists t'. split; [reflexivity | congruence].
  - intros l o Ho Hl. specialize (Hstruct l). rewrite Hl in Hstruct.
    inversion Hstruct as [o1 o' Ha Ho1 Ho'|]; subst.
    destruct o as [a|i|t]; destruct o' as [a'|i'|t']; cbn in Ha;
      try contradiction; try congruence.
Qed.

(** What the inner loop reads of the store is its structure. *)
Lemma getattr_structure (σ1 σ2 : gmap nat (@obj A)) (p : ptr) (name : string) :
  same_structure σ1 σ2 -> getattr σ1 p name = getattr σ2 p name.
Proof.
  intros Hs. destruct p as [l|s]; [|reflexivity]. cbn [getattr].
  specialize (Hs l). destruct Hs as [o1 o2 Ha|]; [|reflexivity].
  destruct o1, o2; cbn in Ha; try contradiction; subst; reflexivity.
Qed.

Lemma getitem_structure (σ1 σ2 : gmap nat (@obj A)) (p : ptr) (num : Z) :
  same_structure σ1 σ2 -> getitem σ1 p num = getitem σ2 p num.
Proof.
  intros Hs. destruct p as [l|s]; [|reflexivity]. cbn [getitem].
  specialize (Hs l). destruct Hs as [o1 o2 Ha|]; [|reflexivity].
  destruct o1, o2; cbn in Ha; try contradiction; subst; try reflexivity.
  now rewrite Ha.
Qed.

Lemma shape_of_structure (σ1 σ2 : gmap nat (@obj A)) (p : ptr) :
  same_structure σ1 σ2 -> shape_of σ1 p = shape_of σ2 p.
Proof.
  intros Hs. destruct p as [l|s]; [|reflexivity]. cbn [shape_of].
  specialize (Hs l). destruct Hs as [o1 o2 Ha|]; [|reflexivity].
  destruct o1, o2; cbn in Ha; try contradiction; subst; try reflexivity.
  now rewrite Ha.
Qed.

Lemma walk_step_structure (σ1 σ2 : gmap nat (@obj A)) (p : ptr) (m_name : string) :
  same_structure σ1 σ2 -> walk_step σ1 p m_name = walk_step σ2 p m_name.
Proof.
  intros Hs. unfold walk_step.
  rewrite !(getattr_structure σ1 σ2 p _ Hs).
  repeat match goal with
         | |- context [if ?b then _ else _] => destruct b
         end;
    try (destruct (getattr σ2 p _) as [q|e]; cbn [mbind result_bind Py.bind];
         [|try destruct e; reflexivity];
         destruct (split_m_name m_name) as [|? [|? ?]]; try reflexivity;
         apply getitem_structure, Hs).
Qed.

Lemma walk_structure (σ1 σ2 : gmap nat (@obj A)) (model : nat) (name : list string) :
  same_structure σ1 σ2 -> walk σ1 model name = walk σ2 model name.
Proof.
  intros Hs. unfold walk. generalize (PObj model).
  induction name as [|c name IH]; intros p; [reflexivity|].
  cbn [for_each]. rewrite (walk_step_structure σ1 σ2 p c Hs).
  destruct (walk_step σ2 p c); cbn [mbind result_bind Py.bind]; [apply IH | reflexivity].
Qed.

(** On two stores of the same structure an iteration takes the same path:
    it raises the same exception or assigns the same array to the same
    parameter. *)
Lemma convert_structure_cases (model : nat) (σ1 σ2 : gmap nat (@obj A))
    (var : string * tensor A) :
  same_structure σ1 σ2 ->
  (exists r, convert_variable model σ1 var = (σ1, r)
             /\ convert_variable model σ2 var = (σ2, r))
  \/ (exists p array', convert_variable model σ1 var = (set_data σ1 p array', Py.Ok tt)
        /\ convert_variable model σ2 var = (set_data σ2 p array', Py.Ok tt)
        /\ shape_of σ1 p = Py.Ok (shape array')).
Proof.
  intros Hs. destruct var as [original_name array]. unfold convert_variable.
  destruct (skipped_by_name _); [left; eauto|].
  destruct (skipped_by_path _); [left; eauto|].
  rewrite (walk_structure σ1 σ2 model _ Hs).
  destruct (walk σ2 model _) as [pointer|e]; [|left; eauto].
  unfold assign. rewrite (getattr_structure σ1 σ2 pointer _ Hs).
  match goal with
  | |- context [match ?s1 with Py.Ok _ => _ | Py.Raise _ => _ end] =>
      destruct s1 as [[p array']|e] eqn:Hstep
  end; [|left; eauto].
  rewrite <- (shape_of_structure σ1 σ2 p Hs).
  destruct (shape_of σ1 p) as [ps|e] eqn:Hshape; [|left; eauto].
  destruct (bool_decide (ps = shape array')) eqn:Hdec; [|left; eauto].
  apply bool_decide_eq_true_1 in Hdec. subst ps. right. eauto.
Qed.

(** Two conversions of one checkpoint, from stores of the same structure:
    the outcomes are equal, and at every reference the two results hold the
    same object or each store holds what it held before. *)
Lemma load_structure (model : nat) (vars : list (string * tensor A)) :
  forall (σ1 σ2 τ1 τ2 : gmap nat (@obj A)),
    same_structure σ1 σ2 ->
    (forall l, σ1 !! l = σ2 !! l \/ (σ1 !! l = τ1 !! l /\ σ2 !! l = τ2 !! l)) ->
    let out1 := load_tf_weights_in_albert model σ1 vars in
    let out2 := load_tf_weights_in_albert model σ2 vars in
    out1.2 = out2.2
    /\ forall l, out1.1 !! l = out2.1 !! l
                 \/ (out1.1 !! l = τ1 !! l /\ out2.1 !! l = τ2 !! l).
Proof.
  induction vars as [|var vars IH]; intros σ1 σ2 τ1 τ2 Hs Hrel; cbn zeta.
  - cbn. split; [reflexivity | exact Hrel].
  - cbn [load_tf_weights_in_albert].
    destruct (convert_structure_cases model σ1 σ2 var Hs)
      as [(r & -> & ->) | (p & a & -> & -> & Hshape)].
    + destruct r as [[]|e]; [now apply IH|]. cbn. split; [reflexivity | exact Hrel].
    + apply IH.
      * eapply same_structure_trans; [|eapply same_structure_trans].
        -- apply same_structure_sym, set_data_structure, Hshape.
        -- exact Hs.
        -- apply set_data_structure.
           now rewrite <- (shape_of_structure σ1 σ2 p Hs).
      * intros l. destruct p as [l0|s]; cbn [set_data]; [|apply Hrel].
        destruct (decide (l = l0)) as [->|Hne].
        -- left. now rewrite !lookup_insert_eq.
        -- rewrite !lookup_insert_ne by congruence. apply Hrel.
Qed.

(** X3.  The conversion overwrites: what it raises, and the array that a
    parameter holds afterwards if any variable was assigned to it, depend
    on the structure of the model (its modules and the shapes of its
    parameters) and on the checkpoint, not on the values the parameters held
    before.  A parameter that is not assigned keeps its value. *)
Theorem conversion_depends_on_structure_only (model : nat)
    (vars : list (string * tensor A)) (σ1 σ2 : gmap nat (@obj A)) :
  same_structure σ1 σ2 ->
  let out1 := load_tf_weights_in_albert model σ1 vars in
  let out2 := load_tf_weights_in_albert model σ2 vars in
  out1.2 = out2.2
  /\ forall l, out1.1 !! l = out2.1 !! l
               \/ (out1.1 !! l = σ1 !! l /\ out2.1 !! l = σ2 !! l).
Proof.
  intros Hs. apply load_structure; [exact Hs|]. intros l. now right.
Qed.

(** X4.  Converting the same checkpoint a second time changes nothing: the
    second conversion ends as the first did, with the same exception if
    the first raised, and leaves the model as the first left it. *)
Theorem conversion_is_idempotent (model : nat) (vars : list (string * tensor A))
    (σ : gmap nat (@obj A)) :
  load_tf_weights_in_albert model (load_tf_weights_in_albert model σ vars).1 vars
  = load_tf_weights_in_albert model σ vars.
Proof.
  pose proof (load_structure_kept model vars σ) as Hs.
  destruct (load_tf_weights_in_albert model σ vars) as [σ' r] eqn:Hload.
  cbn [fst] in *.
  destruct (load_structure model vars σ σ' σ σ' Hs) as [Hr Hl].
  { intros l. now right. }
  rewrite Hload in Hr, Hl. cbn [fst snd] in Hr, Hl.
  destruct (load_tf_weights_in_albert model σ' vars) as [σ2 r2]. cbn [fst snd] in *.
  f_equal; [|congruence].
  apply map_eq. intros l. destruct (Hl l) as [Heq|[_ Heq]]; congruence.
Qed.

(** X5.  A component of the path that names no attribute of the module
    reached so far is passed over: the inner loop goes on from the same
    module with the next component, so the variable is not skipped. *)
Theorem unknown_component_is_passed_over (σ : gmap nat (@obj A)) (model : nat)
    (pre post : list string) (c : string) (p : ptr) :
  walk σ model pre = Py.Ok p ->
  Str.mem (hd "" (split_m_name c))
    ["kernel"; "gamma"; "output_bias"; "beta"; "output_weights"; "squad"] = false ->
  getattr σ p (hd "" (split_m_name c)) = Py.Raise Py.AttributeError ->
  walk σ model (pre ++ c :: post) = walk σ model (pre ++ post).
Proof.
  intros Hpre Hspecial Hattr. unfold walk in *.
  rewrite !for_each_app, Hpre. cbn [Py.bind for_each].
  assert (Hstep : walk_step σ p c = Py.Ok p).
  { unfold walk_step. cbn [Str.mem existsb] in Hspecial.
    repeat (apply orb_false_iff in Hspecial as [? Hspecial]).
    repeat match goal with
           | Hq : String.eqb ?a ?b = false |- _ => rewrite Hq; clear Hq
           end.
    cbn [orb]. now rewrite Hattr. }
  now rewrite Hstep.
Qed.

End WithElements.

End LoaderInvariants.

(** ** [AlbertTransformer.forward]: the size of the output and the edge cases *)

Module EncoderOutputs.

Import Encoder SeqFacts.

Section WithLayers.

Context {Hidden Mask HeadMask Attn Layer : Type}.
Variable AlbertLayer_forward : Layer -> Hidden -> Mask -> HeadMask -> Hidden * Attn.
Variable embedding_hidden_mapping_in : Hidden -> Py.result Hidden.

Lemma enumerate_length {A : Type} (l : list A) : length (enumerate l) = length l.
Proof.
  unfold enumerate. rewrite List.length_combine, range_length, Nat2Z.id. lia.
Qed.

(** The tuples a layer group returns hold one entry per layer of the group
    when they are requested. *)
Lemma group_forward_lengths (cfg : AlbertConfig) (grp : @AlbertLayerGroup Layer)
    (h : Hidden) (mask : Mask) (head_mask : list HeadMask)
    (gout : @group_output Hidden Attn) :
  AlbertLayerGroup_forward AlbertLayer_forward cfg grp h mask head_mask = Py.Ok gout ->
  length (g_layer_attentions gout)
  = (if output_attentions cfg then length (albert_layers grp) else 0%nat).
Proof.
  unfold AlbertLayerGroup_forward. intros Hrun.
  apply (for_each_count (fun st => length (g_layer_attentions st))
           (if output_attentions cfg then 1%nat else 0%nat)) in Hrun.
  - rewrite Hrun, enumerate_length. cbn. destruct (output_attentions cfg); lia.
  - intros st [i layer] st'. unfold group_step.
    destruct (Py.getitem head_mask i) as [hm|e]; [|discriminate].
    cbn [mbind result_bind Py.bind]. intros [= <-]. cbn [g_layer_attentions].
    destruct (output_attentions cfg); [|lia].
    rewrite List.length_app. reflexivity.
Qed.

(** One iteration of the encoder: one more call, one more hidden state at
    the end of the tuple, and one more attention tensor per layer of the
    group that was called. *)
Lemma transformer_step_outputs (cfg : AlbertConfig) (fresh : Z -> Z -> Layer)
    (mask : Mask) (head_mask : list HeadMask) (st st' : @loop_state Hidden Attn)
    (i : Z) :
  transformer_step AlbertLayer_forward (AlbertTransformer_init cfg fresh)
    mask head_mask st i = Py.Ok st' ->
  length (t_calls st') = (length (t_calls st) + 1)%nat
  /\ t_all_hidden_states st'
     = (if output_hidden_states cfg
        then t_all_hidden_states st ++ [t_hidden st']
        else t_all_hidden_states st)
  /\ length (t_all_attentions st')
     = (length (t_all_attentions st)
        + if output_attentions cfg then Z.to_nat (inner_group_num cfg) else 0)%nat.
Proof.
  unfold transformer_step. cbn [config AlbertTransformer_init].
  destruct (layers_per_group cfg) as [lpg|e]; [|discriminate].
  cbn [mbind result_bind Py.bind].
  destruct (group_idx cfg i) as [g|e]; [|discriminate].
  cbn [mbind result_bind Py.bind].
  destruct (Py.getitem _ g) as [grp|e] eqn:Hgrp; [|discriminate].
  cbn [mbind result_bind Py.bind].
  match goal with
  | |- context [AlbertLayerGroup_forward ?f ?c ?gr ?h ?m ?hm] =>
      destruct (AlbertLayerGroup_forward f c gr h m hm) as [gout|e] eqn:Hgroup
  end; [|discriminate].
  cbn [mbind result_bind Py.bind]. intros [= <-].
  cbn [t_calls t_all_hidden_states t_all_attentions t_hidden].
  apply group_forward_lengths in Hgroup.
  apply getitem_In in Hgrp. cbn [albert_layer_groups AlbertTransformer_init] in Hgrp.
  apply in_map_iff in Hgrp as (g' & <- & _).
  cbn [albert_layers AlbertLayerGroup_init] in Hgroup.
  rewrite List.length_map, range_length in Hgroup.
  repeat split.
  - rewrite List.length_app. reflexivity.
  - destruct (output_attentions cfg); [rewrite List.length_app|]; lia.
Qed.

(** X6.  When [AlbertTransformer.forward] returns on an encoder built by
    [AlbertTransformer.__init__], it has called a layer group
    [num_hidden_layers] times.  The tuple of hidden states, when it is
    requested, holds [num_hidden_layers + 1] entries: the embedding output
    after [embedding_hidden_mapping_in], then the hidden states after each
    call of a group (not after each layer inside a group); its last entry is
    the last hidden state.  The tuple of attentions, when it is requested,
    holds [num_hidden_layers * inner_group_num] entries.  A tuple that is
    not requested is absent. *)
Theorem encoder_output_sizes (cfg : AlbertConfig) (fresh : Z -> Z -> Layer)
    (hs : Hidden) (mask : Mask) (head_mask : list HeadMask)
    (out : @transformer_output Hidden Attn) :
  AlbertTransformer_forward AlbertLayer_forward embedding_hidden_mapping_in
    (AlbertTransformer_init cfg fresh) hs mask head_mask = Py.Ok out ->
  let L := Z.to_nat (num_hidden_layers cfg) in
  let n := Z.to_nat (inner_group_num cfg) in
  length (calls out) = L
  /\ (if output_hidden_states cfg
      then exists l, all_hidden_states out = Some l /\ length l = S L
                     /\ List.last l (last_hidden_state out) = last_hidden_state out
                     /\ embedding_hidden_mapping_in hs
                        = Py.Ok (hd (last_hidden_state out) l)
      else all_hidden_states out = None)
  /\ (if output_attentions cfg
      then exists l, all_attentions out = Some l /\ length l = (L * n)%nat
      else all_attentions out = None).
Proof.
  unfold AlbertTransformer_forward. cbn [config AlbertTransformer_init].
  destruct (embedding_hidden_mapping_in hs) as [h0|e] eqn:Hemb; [|discriminate].
  cbn [mbind result_bind Py.bind].
  match goal with
  | |- context [for_each ?body ?l ?s] => destruct (for_each body l s) as [st|e] eqn:Hrun
  end; [|discriminate].
  intros [= <-].
  set (L := Z.to_nat (num_hidden_layers cfg)).
  set (n := Z.to_nat (inner_group_num cfg)).
  cbn [calls all_hidden_states all_attentions last_hidden_state].
  fold (AlbertTransformer_init cfg fresh) in Hrun.
  pose proof (for_each_count (fun st => length (t_calls st)) 1%nat _ _
                (fun s a s' Hs =>
                   proj1 (transformer_step_outputs cfg fresh mask head_mask s s' a Hs))
                _ _ Hrun) as Hcalls.
  pose proof (for_each_count (fun st => length (t_all_attentions st))
                (if output_attentions cfg then n else 0%nat) _ _
                (fun s a s' Hs =>
                   proj2 (proj2 (transformer_step_outputs cfg fresh mask head_mask s s' a Hs)))
                _ _ Hrun) as Hatt.
  rewrite range_length in Hcalls, Hatt.
  cbn [t_calls t_all_attentions length] in Hcalls, Hatt. fold L in Hcalls, Hatt.
  split; [lia|]. split.
  - destruct (output_hidden_states cfg) eqn:Hflag; [|reflexivity].
    exists (t_all_hidden_states st). split; [reflexivity|].
    assert (Hinv : length (t_all_hidden_states st) = S (length (t_calls st))
                   /\ List.last (t_all_hidden_states st) (t_hidden st) = t_hidden st
                   /\ forall d, hd d (t_all_hidden_states st) = h0).
    { revert Hrun.
      apply (EncoderFacts.for_each_invariant
               (fun st => length (t_all_hidden_states st) = S (length (t_calls st))
                          /\ List.last (t_all_hidden_states st) (t_hidden st) = t_hidden st
                          /\ forall d, hd d (t_all_hidden_states st) = h0));
        [|cbn; auto].
      intros s i s' (Hlen & _ & Hhd) Hstep.
      apply transformer_step_outputs in Hstep as (Hc & Hh & _).
      rewrite Hflag in Hh. rewrite Hh, Hc, List.length_app, List.last_last. cbn [length].
      split; [lia|]. split; [reflexivity|]. intros d.
      destruct (t_all_hidden_states s) as [|x l]; [cbn in Hlen; lia|].
      cbn. exact (Hhd d). }
    destruct Hinv as (Hlen & Hlast & Hhd). repeat split; [lia | exact Hlast|].
    now rewrite Hhd.
  - destruct (output_attentions cfg); [|reflexivity].
    exists (t_all_attentions st). split; [reflexivity|]. lia.
Qed.

(** X7.  A configuration without hidden groups makes the first iteration
    raise [ZeroDivisionError]: with at least one layer,
    [num_hidden_layers / num_hidden_groups] is evaluated before any layer is
    called, once the embedding output has been mapped. *)
Theorem no_hidden_groups_raises (self : @AlbertTransformer Layer)
    (hs h0 : Hidden) (mask : Mask) (head_mask : list HeadMask) :
  num_hidden_groups (config self) = 0 ->
  0 < num_hidden_layers (config self) ->
  embedding_hidden_mapping_in hs = Py.Ok h0 ->
  AlbertTransformer_forward AlbertLayer_forward embedding_hidden_mapping_in
    self hs mask head_mask = Py.Raise Py.ZeroDivisionError.
Proof.
  intros HG HL Hemb. unfold AlbertTransformer_forward. rewrite Hemb.
  cbn [mbind result_bind Py.bind]. unfold range.
  destruct (Z.to_nat (num_hidden_layers (config self))) as [|k] eqn:Hk; [lia|].
  cbn [seq map for_each].
  assert (Hstep : forall st i,
             transformer_step AlbertLayer_forward self mask head_mask st i
             = Py.Raise Py.ZeroDivisionError).
  { intros st i. unfold transformer_step, layers_per_group, PyFloat.int_truediv.
    rewrite HG. reflexivity. }
  now rewrite Hstep.
Qed.

(** Two loop bodies that agree on the items of the list run alike. *)
Lemma for_each_ext {S A : Type} (body1 body2 : S -> A -> Py.result S) (l : list A) :
  (forall s a, In a l -> body1 s a = body2 s a) ->
  forall s, for_each body1 l s = for_each body2 l s.
Proof.
  induction l as [|a l IH]; intros Hext s; [reflexivity|].
  cbn [for_each]. rewrite (Hext s a (or_introl eq_refl)).
  destruct (body2 s a); cbn [mbind result_bind Py.bind]; [|reflexivity].
  apply IH. intros s' a' Hin. apply Hext. now right.
Qed.

Lemma enumerate_index {A : Type} (l : list A) (k : Z) (a : A) :
  In (k, a) (enumerate l) -> 0 <= k < Z.of_nat (length l).
Proof.
  unfold enumerate. intros Hin. apply in_combine_l in Hin.
  apply in_range_bounds in Hin. lia.
Qed.

(** The entries of the head mask that the encoder reads: at an iteration
    that calls group [g], the entries of the slice
    [head_mask[g * lpg : (g + 1) * lpg]] at the indices of the layers of the
    group.  Two head masks that agree there give the same result. *)
Lemma head_mask_entries_read (self : @AlbertTransformer Layer) (hs : Hidden)
    (mask : Mask) (hm hm' : list HeadMask) :
  (forall i lpg g grp k,
     In i (range (num_hidden_layers (config self))) ->
     layers_per_group (config self) = Py.Ok lpg ->
     group_idx (config self) i = Py.Ok g ->
     Py.getitem (albert_layer_groups self) g = Py.Ok grp ->
     0 <= k < Z.of_nat (length (albert_layers grp)) ->
     Py.getitem (Py.slice hm (g * lpg) ((g + 1) * lpg)) k
     = Py.getitem (Py.slice hm' (g * lpg) ((g + 1) * lpg)) k) ->
  AlbertTransformer_forward AlbertLayer_forward embedding_hidden_mapping_in
    self hs mask hm
  = AlbertTransformer_forward AlbertLayer_forward embedding_hidden_mapping_in
      self hs mask hm'.
Proof.
  intros Hagree. unfold AlbertTransformer_forward.
  destruct (embedding_hidden_mapping_in hs) as [h0|e]; [|reflexivity].
  cbn [mbind result_bind Py.bind].
  rewrite (for_each_ext (transformer_step AlbertLayer_forward self mask hm)
             (transformer_step AlbertLayer_forward self mask hm')); [reflexivity|].
  intros st i Hi. unfold transformer_step.
  destruct (layers_per_group (config self)) as [lpg|e] eqn:Hlpg; [|reflexivity].
  cbn [mbind result_bind Py.bind].
  destruct (group_idx (config self) i) as [g|e] eqn:Hg; [|reflexivity].
  cbn [mbind result_bind Py.bind].
  destruct (Py.getitem (albert_layer_groups self) g) as [grp|e] eqn:Hgrp; [|reflexivity].
  cbn [mbind result_bind Py.bind].
  unfold AlbertLayerGroup_forward.
  rewrite (for_each_ext
             (group_step AlbertLayer_forward (config self) mask
                (Py.slice hm (g * lpg) ((g + 1) * lpg)))
             (group_step AlbertLayer_forward (config self) mask
                (Py.slice hm' (g * lpg) ((g + 1) * lpg)))); [reflexivity|].
  intros gst [k layer] Hk. apply enumerate_index in Hk. unfold group_step.
  now rewrite (Hagree i lpg g grp k Hi eq_refl Hg Hgrp Hk).
Qed.

Lemma single_group_checked : forallb SingleGroup.exact (range 65) = true.
Proof. vm_compute. reflexivity. Qed.

Lemma single_group_schedule (cfg : AlbertConfig) (i : Z) :
  num_hidden_groups cfg = 1 -> num_hidden_layers cfg <= 64 ->
  0 <= i < num_hidden_layers cfg ->
  layers_per_group cfg = Py.Ok (num_hidden_layers cfg)
  /\ group_idx cfg i = Py.Ok 0.
Proof.
  intros HG HL Hi.
  pose proof (proj1 (forallb_forall _ _) single_group_checked (num_hidden_layers cfg)
                ltac:(apply in_range_bounds; lia)) as Hcheck.
  unfold SingleGroup.exact in Hcheck. unfold layers_per_group, group_idx. rewrite HG.
  destruct (q ← PyFloat.int_truediv (num_hidden_layers cfg) 1; PyFloat.to_int q)
    as [lpg|e]; [|discriminate].
  apply andb_true_iff in Hcheck as [Hlpg Hidx]. apply Z.eqb_eq in Hlpg.
  split; [now subst|].
  pose proof (proj1 (forallb_forall _ _) Hidx i ltac:(apply in_range_bounds; lia)) as Hone.
  cbv beta in Hone.
  destruct (q ← PyFloat.int_truediv (num_hidden_layers cfg) 1;
            x ← PyFloat.int_div_float i q; PyFloat.to_int x) as [g|e]; [|discriminate].
  apply Z.eqb_eq in Hone. now subst.
Qed.

(** X8.  In a configuration with a single group (as the released models
    have) and at most 64 layers, every iteration of
    [AlbertTransformer.forward] calls group 0 with the slice
    [head_mask[0 : num_hidden_layers]], and the layers of the group read
    the entries [0 .. inner_group_num - 1] of it.  So the entries of the
    head mask from [inner_group_num] on are never read: two head masks with
    the same first [inner_group_num] entries give the same result, whatever
    they hold for the other layers. *)
Theorem single_group_head_mask (cfg : AlbertConfig) (fresh : Z -> Z -> Layer)
    (hs : Hidden) (mask : Mask) (hm hm' : list HeadMask) :
  num_hidden_groups cfg = 1 -> num_hidden_layers cfg <= 64 ->
  firstn (Z.to_nat (inner_group_num cfg)) (Py.slice hm 0 (num_hidden_layers cfg))
  = firstn (Z.to_nat (inner_group_num cfg)) (Py.slice hm' 0 (num_hidden_layers cfg)) ->
  length (Py.slice hm 0 (num_hidden_layers cfg))
  = length (Py.slice hm' 0 (num_hidden_layers cfg)) ->
  AlbertTransformer_forward AlbertLayer_forward embedding_hidden_mapping_in
    (AlbertTransformer_init cfg fresh) hs mask hm
  = AlbertTransformer_forward AlbertLayer_forward embedding_hidden_mapping_in
      (AlbertTransformer_init cfg fresh) hs mask hm'.
Proof.
  intros HG HL Hfirst Hlen. apply head_mask_entries_read.
  intros i lpg g grp k Hi Hlpg Hg Hgrp Hk.
  cbn [config AlbertTransformer_init] in Hi, Hlpg, Hg.
  apply in_range_bounds in Hi.
  destruct (single_group_schedule cfg i HG HL Hi) as [Hlpg' Hg'].
  rewrite Hlpg' in Hlpg. injection Hlpg as <-. rewrite Hg' in Hg. injection Hg as <-.
  apply getitem_In in Hgrp. cbn [albert_layer_groups AlbertTransformer_init] in Hgrp.
  apply in_map_iff in Hgrp as (g' & <- & _).
  cbn [albert_layers AlbertLayerGroup_init] in Hk.
  rewrite List.length_map, range_length in Hk.
  replace (0 * num_hidden_layers cfg) with 0 by lia.
  replace ((0 + 1) * num_hidden_layers cfg) with (num_hidden_layers cfg) by lia.
  set (s := Py.slice hm 0 (num_hidden_layers cfg)) in *.
  set (s' := Py.slice hm' 0 (num_hidden_layers cfg)) in *.
  unfold Py.getitem. rewrite Hlen.
  destruct (Z.ltb_spec k 0) as [?|_]; [lia|].
  destruct (Z.ltb_spec k 0) as [?|_]; [lia|].
  destruct (Z.leb_spec (Z.of_nat (length s')) k) as [?|Hin]; [reflexivity|].
  cbn [orb].
  assert (Hnth : forall l : list HeadMask,
             nth_error l (Z.to_nat k)
             = nth_error (firstn (Z.to_nat (inner_group_num cfg)) l) (Z.to_nat k)).
  { intros l. rewrite List.nth_error_firstn.
    destruct (Nat.ltb_spec (Z.to_nat k) (Z.to_nat (inner_group_num cfg)));
      [reflexivity | lia]. }
  now rewrite (Hnth s), (Hnth s'), Hfirst.
Qed.

End WithLayers.

End EncoderOutputs.

(** ** [split_ques_context]: where the question and the context end up *)

Module SplitFacts.

Import Split SeqFacts.

(** Writing [k] entries at the head of a row of [n] copies of [pad]. *)
Lemma setslice_head {X : Type} (pad : X) (n : nat) (b : Z) (src : list X) :
  0 <= b <= Z.of_nat n -> length src = Z.to_nat b ->
  setslice (repeat pad n) 0 b src = Py.Ok (src ++ repeat pad (n - Z.to_nat b)).
Proof.
  intros Hb Hlen. unfold setslice. rewrite List.repeat_length.
  rewrite !slice_bound_id by lia. rewrite Z.sub_0_r, Hlen, Nat.eqb_refl.
  cbn [Z.to_nat firstn app Nat.add]. now rewrite skipn_repeat.
Qed.

Lemma setitem_row_head {X : Type} (pad : X) (n : nat) (t : list (list X))
    (i : nat) (b : Z) (src : list X) :
  t !! i = Some (repeat pad n) ->
  0 <= b <= Z.of_nat n -> length src = Z.to_nat b ->
  setitem_row_slice t (Z.of_nat i) 0 b src
  = Py.Ok (<[i := src ++ repeat pad (n - Z.to_nat b)]> t).
Proof.
  intros Hrow Hb Hlen. unfold setitem_row_slice.
  rewrite (getitem_lookup _ _ _ Hrow). cbn [mbind result_bind Py.bind].
  rewrite setslice_head by assumption. cbn [mbind result_bind Py.bind].
  destruct (Z.ltb_spec (Z.of_nat i) 0) as [?|_]; [lia|]. now rewrite Nat2Z.id.
Qed.

Lemma row_slice {X : Type} (t : list (list X)) (i : nat) (row : list X) (a b : Z) :
  t !! i = Some row -> getitem_row_slice t (Z.of_nat i) a b = Py.Ok (Py.slice row a b).
Proof.
  intros Hrow. unfold getitem_row_slice. now rewrite (getitem_lookup _ _ _ Hrow).
Qed.

Lemma row_slice_inside {X : Type} (t : list (list X)) (i : nat) (row : list X)
    (a b : Z) :
  t !! i = Some row -> 0 <= a <= b -> b <= Z.of_nat (length row) ->
  getitem_row_slice t (Z.of_nat i) a b
  = Py.Ok (firstn (Z.to_nat (b - a)) (skipn (Z.to_nat a) row)).
Proof.
  intros Hrow Hab Hb. unfold getitem_row_slice.
  rewrite (getitem_lookup _ _ _ Hrow). cbn [mbind result_bind Py.bind].
  f_equal. now apply slice_inside.
Qed.

Lemma ones_slice {F : Type} (one : F) (n : nat) (b : Z) :
  0 <= b <= Z.of_nat n ->
  getitem_row_slice [repeat one n] 0 0 b = Py.Ok (repeat one (Z.to_nat b)).
Proof.
  intros Hb. unfold getitem_row_slice.
  change (Py.getitem [repeat one n] 0) with (Py.Ok (repeat one n)).
  cbn [mbind result_bind Py.bind]. f_equal.
  destruct (slice_inside (repeat one n) 0 b) as [-> _];
    [lia | rewrite List.repeat_length; lia |].
  rewrite Z.sub_0_r. cbn [Z.to_nat skipn].
  apply firstn_repeat. lia.
Qed.

Section WithVectors.

Context {F : Type} `{Scalar F} {V : Type}.
Variable zeros : V.

(** One iteration on a row that fits, whose rows of the four outputs are
    still zero: each output gets its row. *)
Lemma split_step_row (sequence_output : list (list V)) (pq_end_pos : list (list Z))
    (st : @outputs F V) (i : nat) (row : list V) (pq : list Z) (q p : Z) :
  sequence_output !! i = Some row -> pq_end_pos !! i = Some pq ->
  row_fits row pq q p ->
  ques_sequence_output st !! i = Some (repeat zeros (Z.to_nat ques_max_len)) ->
  context_sequence_output st !! i = Some (repeat zeros (Z.to_nat context_max_len)) ->
  ques_attention_mask st !! i = Some (repeat (of_Z 0) (Z.to_nat ques_max_len)) ->
  context_attention_mask st !! i = Some (repeat (of_Z 0) (Z.to_nat context_max_len)) ->
  split_step sequence_output pq_end_pos st (Z.of_nat i)
  = Py.Ok {| ques_sequence_output :=
               <[i := padded zeros ques_max_len (question_tokens row q)]>
                 (ques_sequence_output st);
             context_sequence_output :=
               <[i := padded zeros context_max_len (context_tokens row q p)]>
                 (context_sequence_output st);
             ques_attention_mask :=
               <[i := padded (of_Z 0) ques_max_len
                        (repeat (of_Z 1) (Z.to_nat (Z.min ques_max_len q)))]>
                 (ques_attention_mask st);
             context_attention_mask :=
               <[i := padded (of_Z 0) context_max_len
                        (repeat (of_Z 1) (Z.to_nat (Z.min context_max_len (p - q - 1))))]>
                 (context_attention_mask st) |}.
Proof.
  intros Hrow Hpq ((rest & ->) & Hq & Hp & Hlen) Hques Hctx Hqm Hcm.
  unfold split_step. rewrite (getitem_lookup _ _ _ Hpq).
  cbn [mbind result_bind Py.bind].
  pose proof (getitem_lookup (q :: p :: rest) 0 q eq_refl) as Hq0.
  pose proof (getitem_lookup (q :: p :: rest) 1 p eq_refl) as Hp1.
  change (Z.of_nat 0) with 0 in Hq0. change (Z.of_nat 1) with 1 in Hp1.
  rewrite Hq0. cbn [mbind result_bind Py.bind].
  rewrite Hp1. cbn [mbind result_bind Py.bind].
  unfold ques_max_len, context_max_len, sep_tok_len in *.
  (* the question *)
  rewrite (row_slice_inside _ _ _ 1 (1 + Z.min 64 q) Hrow) by lia.
  cbn [mbind result_bind Py.bind].
  replace (1 + Z.min 64 q - 1) with (Z.min 64 q) by lia.
  rewrite (setitem_row_head zeros (Z.to_nat 64) _ i (Z.min 64 q) _ Hques)
    by (try (rewrite List.length_firstn, List.length_skipn); lia).
  cbn [mbind result_bind Py.bind].
  (* the context *)
  rewrite (row_slice_inside _ _ _ (q + 1 + 1)
             (q + 1 + 1 + Z.min (p - q - 1) (512 - 64)) Hrow) by lia.
  cbn [mbind result_bind Py.bind].
  replace (q + 1 + 1 + Z.min (p - q - 1) (512 - 64) - (q + 1 + 1))
    with (Z.min (512 - 64) (p - q - 1)) by lia.
  rewrite (setitem_row_head zeros (Z.to_nat (512 - 64)) _ i
             (Z.min (512 - 64) (p - q - 1)) _ Hctx)
    by (try (rewrite List.length_firstn, List.length_skipn); lia).
  cbn [mbind result_bind Py.bind].
  (* the masks *)
  rewrite !ones_slice by lia. cbn [mbind result_bind Py.bind].
  rewrite (setitem_row_head (of_Z 0) (Z.to_nat (512 - 64)) _ i
             (Z.min (512 - 64) (p - q - 1)) _ Hcm)
    by (try apply List.repeat_length; lia).
  cbn [mbind result_bind Py.bind].
  rewrite (setitem_row_head (of_Z 0) (Z.to_nat 64) _ i (Z.min 64 q) _ Hqm)
    by (try apply List.repeat_length; lia).
  cbn [mbind result_bind Py.bind].
  unfold padded, question_tokens, context_tokens, ques_max_len, context_max_len.
  rewrite !List.length_firstn, !List.length_skipn, !List.repeat_length.
  replace (Z.to_nat (q + 1 + 1)) with (Z.to_nat (q + 2)) by lia.
  change (Z.to_nat 1) with 1%nat.
  repeat match goal with
         | |- context [Nat.min ?a ?b] => rewrite (Nat.min_l a b) by lia
         end.
  reflexivity.
Qed.

Lemma row_fits_unique (row : list V) (pq : list Z) (q p q' p' : Z) :
  row_fits row pq q p -> row_fits row pq q' p' -> q = q' /\ p = p'.
Proof. intros ((r & ->) & _) ((r' & Heq) & _). now injection Heq. Qed.

Lemma split_loop (sequence_output : list (list V)) (pq_end_pos : list (list Z)) :
  forall (n a : nat) (st : @outputs F V),
    (a + n <= length sequence_output)%nat ->
    (forall i row, (a <= i < a + n)%nat -> sequence_output !! i = Some row ->
       exists pq q p, pq_end_pos !! i = Some pq /\ row_fits row pq q p) ->
    rows_filled zeros sequence_output pq_end_pos a st ->
    exists st',
      for_each (split_step sequence_output pq_end_pos)
               (map Z.of_nat (seq a n)) st = Py.Ok st'
      /\ rows_filled zeros sequence_output pq_end_pos (a + n) st'.
Proof.
  induction n as [|n IH]; intros a st Han Hfits Hinv.
  - exists st. split; [reflexivity|]. now rewrite Nat.add_0_r.
  - cbn [seq map for_each].
    destruct (lookup_lt_is_Some_2 sequence_output a) as [row Hrow]; [lia|].
    destruct (Hfits a row ltac:(lia) Hrow) as (pq & q & p & Hpq & Hfit).
    destruct Hinv as ((Hl1 & Hl2 & Hl3 & Hl4) & Hzero & Hdone).
    destruct (Hzero a ltac:(lia)) as (Hz1 & Hz2 & Hz3 & Hz4).
    rewrite (split_step_row _ _ st a row pq q p Hrow Hpq Hfit Hz1 Hz2 Hz3 Hz4).
    cbn [mbind result_bind Py.bind].
    replace (a + S n)%nat with (S a + n)%nat by lia.
    apply IH; [lia | intros i r Hi; apply Hfits; lia |].
    split; [|split].
    + cbn [ques_sequence_output context_sequence_output ques_attention_mask
             context_attention_mask]. now rewrite !length_insert.
    + intros i Hi.
      cbn [ques_sequence_output context_sequence_output ques_attention_mask
             context_attention_mask].
      rewrite !list_lookup_insert_ne by lia. apply Hzero. lia.
    + intros i row' pq' q' p' Hi Hrow' Hpq' Hfit'.
      cbn [ques_sequence_output context_sequence_output ques_attention_mask
             context_attention_mask].
      destruct (decide (i = a)) as [->|Hne].
      * rewrite Hrow in Hrow'. injection Hrow' as <-.
        rewrite Hpq in Hpq'. injection Hpq' as <-.
        destruct (row_fits_unique _ _ _ _ _ _ Hfit Hfit') as [<- <-].
        rewrite !list_lookup_insert_eq by lia. auto.
      * rewrite !list_lookup_insert_ne by congruence.
        apply (Hdone i row' pq' q' p'); [lia | assumption..].
Qed.

(** The state in which the loop starts. *)
Lemma rows_filled_start (sequence_output : list (list V)) (pq_end_pos : list (list Z)) :
  rows_filled zeros sequence_output pq_end_pos 0
    {| ques_sequence_output :=
         repeat (repeat zeros (Z.to_nat ques_max_len)) (length sequence_output);
       context_sequence_output :=
         repeat (repeat zeros (Z.to_nat context_max_len)) (length sequence_output);
       ques_attention_mask :=
         repeat (repeat (of_Z 0) (Z.to_nat ques_max_len)) (length sequence_output);
       context_attention_mask :=
         repeat (repeat (of_Z 0) (Z.to_nat context_max_len))
                (length sequence_output) |}.
Proof.
  split; [|split].
  - cbn. now rewrite !List.repeat_length.
  - intros i Hi. cbn. rewrite !lookup_repeat by lia. auto.
  - intros i row pq q p Hi. lia.
Qed.

(** X9.  When every row of the batch fits (the question ends at [q >= 0],
    the context ends at [p > q], and the sequence holds the tokens up to
    the end of the context, or up to [context_max_len] tokens of it),
    [split_ques_context] returns four tensors with one row per row of the
    batch.  Row [i] of the first holds the question: the tokens at positions
    [1 .. min(64, q)], followed by zero vectors up to length 64; the token 0
    is left out, and a question longer than 64 tokens is cut.  Row [i] of the
    second holds the context: the tokens at positions [q + 2 .. p], at most
    448 of them, followed by zero vectors up to length 448; the token
    [q + 1] between the two is left out.  The masks hold one on the
    positions that received a token and zero elsewhere. *)
Theorem split_ques_context_layout (sequence_output : list (list V))
    (pq_end_pos : list (list Z)) :
  (forall i row, sequence_output !! i = Some row ->
     exists pq q p, pq_end_pos !! i = Some pq /\ row_fits row pq q p) ->
  exists out : @outputs F V,
    split_ques_context zeros sequence_output pq_end_pos = Py.Ok out
    /\ length (ques_sequence_output out) = length sequence_output
    /\ length (context_sequence_output out) = length sequence_output
    /\ length (ques_attention_mask out) = length sequence_output
    /\ length (context_attention_mask out) = length sequence_output
    /\ forall i row pq q p,
         sequence_output !! i = Some row -> pq_end_pos !! i = Some pq ->
         row_fits row pq q p ->
         ques_sequence_output out !! i
         = Some (padded zeros ques_max_len (question_tokens row q))
         /\ context_sequence_output out !! i
            = Some (padded zeros context_max_len (context_tokens row q p))
         /\ ques_attention_mask out !! i
            = Some (padded (of_Z 0) ques_max_len
                      (repeat (of_Z 1) (Z.to_nat (Z.min ques_max_len q))))
         /\ context_attention_mask out !! i
            = Some (padded (of_Z 0) context_max_len
                      (repeat (of_Z 1)
                         (Z.to_nat (Z.min context_max_len (p - q - 1))))).
Proof.
  intros Hfits. unfold split_ques_context, range. rewrite Nat2Z.id.
  destruct (split_loop sequence_output pq_end_pos (length sequence_output) 0%nat _
              (Nat.le_refl _) (fun i row _ => Hfits i row)
              (rows_filled_start sequence_output pq_end_pos))
    as (out & Hrun & (Hl1 & Hl2 & Hl3 & Hl4) & _ & Hdone).
  exists out. split; [exact Hrun|]. repeat (split; [assumption|]).
  intros i row pq q p Hrow Hpq Hfit.
  apply (Hdone i row pq q p); try assumption.
  now apply lookup_lt_Some in Hrow.
Qed.

Lemma setslice_mismatch {X : Type} (pad : X) (n : nat) (b : Z) (src : list X) :
  0 <= b <= Z.of_nat n -> length src <> Z.to_nat b -> length src <> 1%nat ->
  setslice (repeat pad n) 0 b src = Py.Raise Py.RuntimeError.
Proof.
  intros Hb Hlen Hone. unfold setslice. rewrite List.repeat_length.
  rewrite !slice_bound_id by lia. rewrite Z.sub_0_r.
  destruct (Nat.eqb_spec (length src) (Z.to_nat b)) as [?|_]; [contradiction|].
  destruct src as [|x [|y src]]; try reflexivity. now contradict Hone.
Qed.

(** X10.  A row whose sequence is too short for the question that
    [pq_end_pos] announces makes [split_ques_context] raise instead of
    copying what there is: when the rows before it fit, the question is not
    empty, and the sequence of row [i] has at most [min(64, q)] tokens (but
    not exactly two, in which case the single token after the first is
    repeated over the question), the assignment of the question raises
    [RuntimeError]. *)
Theorem short_sequence_raises (sequence_output : list (list V))
    (pq_end_pos : list (list Z)) (i : nat) (row : list V) (q p : Z)
    (rest : list Z) :
  (forall j row, (j < i)%nat -> sequence_output !! j = Some row ->
     exists pq q p, pq_end_pos !! j = Some pq /\ row_fits row pq q p) ->
  sequence_output !! i = Some row ->
  pq_end_pos !! i = Some (q :: p :: rest) ->
  0 < q ->
  Z.of_nat (length row) <= Z.min ques_max_len q ->
  length row <> 2%nat ->
  split_ques_context zeros sequence_output pq_end_pos = Py.Raise Py.RuntimeError.
Proof.
  intros Hfits Hrow Hpq Hq Hshort Htwo.
  pose proof (lookup_lt_Some _ _ _ Hrow) as Hi.
  unfold split_ques_context, range. rewrite Nat2Z.id.
  replace (length sequence_output) with (i + (length sequence_output - i))%nat at 1 by lia.
  rewrite List.seq_app, List.map_app, for_each_app.
  destruct (split_loop sequence_output pq_end_pos i 0%nat _ ltac:(cbn; lia)
              (fun j r Hj => Hfits j r ltac:(lia))
              (rows_filled_start sequence_output pq_end_pos))
    as (st & -> & _ & Hzero & _).
  cbn [Py.bind Nat.add].
  destruct (length sequence_output - i)%nat as [|n] eqn:Hn; [lia|].
  cbn [seq map for_each].
  destruct (Hzero i ltac:(lia)) as (Hz & _).
  assert (Hstep : split_step sequence_output pq_end_pos st (Z.of_nat i)
                  = Py.Raise Py.RuntimeError).
  { unfold split_step. rewrite (getitem_lookup _ _ _ Hpq).
    cbn [mbind result_bind Py.bind].
    pose proof (getitem_lookup (q :: p :: rest) 0 q eq_refl) as Hq0.
    pose proof (getitem_lookup (q :: p :: rest) 1 p eq_refl) as Hp1.
    change (Z.of_nat 0) with 0 in Hq0. change (Z.of_nat 1) with 1 in Hp1.
    rewrite Hq0. cbn [mbind result_bind Py.bind].
    rewrite Hp1. cbn [mbind result_bind Py.bind].
    rewrite (row_slice _ _ _ 1 (1 + Z.min ques_max_len q) Hrow).
    cbn [mbind result_bind Py.bind].
    assert (Hset : forall src : list V,
               length src <> Z.to_nat (Z.min ques_max_len q) -> length src <> 1%nat ->
               setitem_row_slice (ques_sequence_output st) (Z.of_nat i) 0
                 (Z.min ques_max_len q) src = Py.Raise Py.RuntimeError).
    { intros src Hne Hone. unfold setitem_row_slice.
      rewrite (getitem_lookup _ _ _ Hz). cbn [mbind result_bind Py.bind].
      rewrite setslice_mismatch; [reflexivity | unfold ques_max_len; lia | assumption..]. }
    unfold ques_max_len in *.
    rewrite Hset; [reflexivity | |].
    - unfold Py.slice, Py.slice_bound.
      rewrite List.length_firstn, List.length_skipn.
      destruct (Z.ltb_spec 1 0); [lia|].
      destruct (Z.ltb_spec (1 + Z.min 64 q) 0); lia.
    - unfold Py.slice, Py.slice_bound.
      rewrite List.length_firstn, List.length_skipn.
      destruct (Z.ltb_spec 1 0); [lia|].
      destruct (Z.ltb_spec (1 + Z.min 64 q) 0); lia. }
  now rewrite Hstep.
Qed.

End WithVectors.

End SplitFacts.

(** ** Head pruning *)

Module PruningFacts.

Import Pruning SeqFacts.

(** A list of distinct integers drawn from [[a, b)] has at most [b - a]
    entries. *)
Lemma interval_count (a b : Z) (l : list Z) :
  List.NoDup l -> (forall x, In x l -> a <= x < b) ->
  Z.of_nat (length l) <= Z.max 0 (b - a).
Proof.
  intros Hnd Hin.
  assert (Hnd' : List.NoDup (map (fun x => x - a) l)).
  { apply List.NoDup_map_inv with (f := fun y => y + a).
    rewrite List.map_map.
    rewrite (List.map_ext _ (fun x => x)) by (intros; lia).
    now rewrite List.map_id. }
  assert (Hincl : incl (map (fun x => x - a) l) (range (b - a))).
  { intros y Hy. apply in_map_iff in Hy as (x & <- & Hx).
    apply in_range_bounds. specialize (Hin x Hx). lia. }
  pose proof (List.NoDup_incl_length Hnd' Hincl) as Hle.
  rewrite List.length_map, range_length in Hle. lia.
Qed.

Lemma filter_split_length {X : Type} (f : X -> bool) (l : list X) :
  length l = (length (List.filter f l) + length (List.filter (fun x => negb (f x)) l))%nat.
Proof.
  induction l as [|x l IH]; [reflexivity|]. cbn [List.filter].
  destruct (f x); cbn [negb length]; lia.
Qed.

Lemma NoDup_list_filter {X : Type} (f : X -> bool) (l : list X) :
  List.NoDup l -> List.NoDup (List.filter f l).
Proof.
  induction 1 as [|x l Hx Hnd IH]; cbn [List.filter]; [constructor|].
  destruct (f x); [|exact IH]. constructor; [|exact IH].
  intros Hin. apply List.filter_In in Hin as [Hin _]. contradiction.
Qed.

Section Ranks.

(** The pruned heads [P] of a module built with [N0] heads. *)
Variable P : gset Z.
Variable N0 : Z.
Hypothesis P_range : forall h, h ∈ P -> 0 <= h < N0.

Lemma in_elements (h : Z) : In h (elements P) <-> h ∈ P.
Proof. rewrite <- list_elem_of_In. apply elem_of_elements. Qed.

Lemma pruned_before_le (h : Z) : 0 <= h -> 0 <= pruned_before P h <= h.
Proof.
  intros Hh. unfold pruned_before. split; [lia|].
  pose proof (interval_count 0 h (List.filter (fun p => p <? h) (elements P))) as Hc.
  rewrite Z.max_r in Hc by lia. rewrite Z.sub_0_r in Hc. apply Hc.
  - apply NoDup_list_filter, NoDup_ListNoDup, NoDup_elements.
  - intros x Hx. apply List.filter_In in Hx as [Hx Hlt].
    apply in_elements, P_range in Hx. apply Z.ltb_lt in Hlt. lia.
Qed.

(** The pruned heads from [h] on, when [h] itself is not pruned. *)
Lemma pruned_from (h : Z) :
  h ∉ P -> 0 <= h < N0 ->
  Z.of_nat (size P) - pruned_before P h <= N0 - h - 1.
Proof.
  intros Hh Hrange. unfold pruned_before.
  change (size P) with (length (elements P)).
  rewrite (filter_split_length (fun p => p <? h) (elements P)).
  pose proof (interval_count (h + 1) N0
                (List.filter (fun p => negb (p <? h)) (elements P))) as Hc.
  rewrite Z.max_r in Hc by lia.
  assert (Hle : Z.of_nat (length (List.filter (fun p => negb (p <? h)) (elements P)))
                <= N0 - (h + 1)).
  { apply Hc.
    - apply NoDup_list_filter, NoDup_ListNoDup, NoDup_elements.
    - intros x Hx. apply List.filter_In in Hx as [Hx Hge].
      apply in_elements in Hx. pose proof (P_range x Hx).
      apply negb_true_iff, Z.ltb_ge in Hge.
      assert (x <> h) by (intros ->; contradiction). lia. }
  lia.
Qed.

(** The pruned heads between two heads, when the lower one is not pruned. *)
Lemma pruned_between (h1 h2 : Z) :
  h1 ∉ P -> h1 < h2 ->
  pruned_before P h2 - pruned_before P h1 <= h2 - h1 - 1.
Proof.
  intros Hh Hlt. unfold pruned_before.
  assert (Hsplit : forall l : list Z,
             Z.of_nat (length (List.filter (fun p => p <? h2) l))
             = Z.of_nat (length (List.filter (fun p => p <? h1) l))
               + Z.of_nat (length (List.filter (fun p => (h1 <=? p) && (p <? h2)) l))).
  { induction l as [|x l IH]; [reflexivity|]. cbn [List.filter].
    destruct (Z.ltb_spec x h2), (Z.ltb_spec x h1), (Z.leb_spec h1 x);
      cbn [andb length]; lia. }
  rewrite Hsplit.
  pose proof (interval_count (h1 + 1) h2
                (List.filter (fun p => (h1 <=? p) && (p <? h2)) (elements P))) as Hc.
  rewrite Z.max_r in Hc by lia.
  assert (Hle : Z.of_nat (length (List.filter (fun p => (h1 <=? p) && (p <? h2))
                                              (elements P)))
                <= h2 - (h1 + 1)).
  { apply Hc.
    - apply NoDup_list_filter, NoDup_ListNoDup, NoDup_elements.
    - intros x Hx. apply List.filter_In in Hx as [Hx Hb].
      apply in_elements in Hx. apply andb_true_iff in Hb as [Hge Hlt2].
      apply Z.leb_le in Hge. apply Z.ltb_lt in Hlt2.
      assert (x <> h1) by (intros ->; contradiction). lia. }
  lia.
Qed.

Lemma pruned_size_le : 0 <= N0 -> Z.of_nat (size P) <= N0.
Proof.
  intros HN0. change (size P) with (length (elements P)).
  pose proof (interval_count 0 N0 (elements P)) as Hc.
  rewrite Z.max_r, Z.sub_0_r in Hc by lia. apply Hc.
  - apply NoDup_ListNoDup, NoDup_elements.
  - intros x Hx. now apply P_range, in_elements.
Qed.

Lemma row_of_range (h : Z) :
  h ∉ P -> 0 <= h < N0 -> 0 <= row_of P h < N0 - Z.of_nat (size P).
Proof.
  intros Hh Hrange. unfold row_of.
  pose proof (pruned_before_le h ltac:(lia)).
  pose proof (pruned_from h Hh Hrange). lia.
Qed.

Lemma row_of_mono (h1 h2 : Z) : h1 ∉ P -> h1 < h2 -> row_of P h1 < row_of P h2.
Proof.
  intros Hh Hlt. unfold row_of. pose proof (pruned_between h1 h2 Hh Hlt). lia.
Qed.

Lemma row_of_inj (h1 h2 : Z) : h1 ∉ P -> h2 ∉ P -> row_of P h1 = row_of P h2 -> h1 = h2.
Proof.
  intros H1 H2 Heq. destruct (Z.lt_trichotomy h1 h2) as [Hlt|[->|Hgt]]; [|reflexivity|].
  - pose proof (row_of_mono h1 h2 H1 Hlt). lia.
  - pose proof (row_of_mono h2 h1 H2 Hgt). lia.
Qed.

End Ranks.

(** *** The mask *)

Lemma count_ones_app (l1 l2 : list Z) :
  count_ones (l1 ++ l2) = (count_ones l1 + count_ones l2)%nat.
Proof. unfold count_ones. now rewrite List.filter_app, List.length_app. Qed.

Lemma count_ones_ones (d : nat) : count_ones (repeat 1 d) = d.
Proof. induction d as [|d IH]; [reflexivity|]. cbn. now f_equal. Qed.

Lemma count_ones_zeros (d : nat) : count_ones (repeat 0 d) = 0%nat.
Proof. induction d as [|d IH]; [reflexivity | exact IH]. Qed.

Lemma count_ones_rows (d n : nat) :
  count_ones (concat (repeat (repeat 1 d) n)) = (d * n)%nat.
Proof.
  induction n as [|n IH]; [cbn; lia|].
  cbn [repeat concat]. rewrite count_ones_app, count_ones_ones, IH. lia.
Qed.

(** The positions of the ones in a flat mask are as many as the ones. *)
Lemma positions_length (m : list Z) : length (positions_of_ones m) = count_ones m.
Proof.
  unfold positions_of_ones, count_ones.
  assert (Hgen : forall k (pre : list Z), length pre = k ->
             length (List.filter (fun i => nth i (pre ++ m) 0 =? 1) (seq k (length m)))
             = length (List.filter (fun x => x =? 1) m)).
  { induction m as [|x m IH]; intros k pre Hk; [reflexivity|].
    cbn [length seq List.filter].
    rewrite List.app_nth2 by lia. rewrite Hk, Nat.sub_diag. cbn [nth].
    specialize (IH (S k) (pre ++ [x])).
    rewrite <- List.app_assoc in IH. cbn [app] in IH.
    rewrite List.length_app in IH. cbn [length] in IH.
    destruct (x =? 1); cbn [length]; rewrite IH by lia; reflexivity. }
  exact (Hgen 0%nat [] eq_refl).
Qed.

Lemma positions_spec (m : list Z) (p : nat) :
  In p (positions_of_ones m) <-> (p < length m)%nat /\ nth p m 0 = 1.
Proof.
  unfold positions_of_ones. rewrite List.filter_In, in_seq, Z.eqb_eq. lia.
Qed.

(** The entry at position [r * d + k] of the flattened rows is entry [k] of
    row [r]. *)
Lemma nth_concat_rows (d : nat) (mask : list (list Z)) :
  Forall (fun row => length row = d) mask ->
  length (concat mask) = (length mask * d)%nat
  /\ forall r k row, mask !! r = Some row -> (k < d)%nat ->
       nth (r * d + k) (concat mask) 0 = nth k row 0.
Proof.
  induction 1 as [|row0 mask Hrow0 Hrows [IHlen IH]]; [split; [reflexivity|]|].
  - intros r k row Hr. destruct r; discriminate.
  - cbn [concat length]. rewrite List.length_app, IHlen, Hrow0. split; [lia|].
    intros [|r] k row Hr Hk.
    + injection Hr as ->. cbn [Nat.mul Nat.add]. now rewrite List.app_nth1 by lia.
    + cbn in Hr. rewrite List.app_nth2 by lia.
      replace (S r * d + k - length row0)%nat with (r * d + k)%nat by lia.
      now apply IH.
Qed.

Lemma setitem_in_range {X : Type} (l : list X) (j : nat) (x : X) :
  (j < length l)%nat -> setitem l (Z.of_nat j) x = Py.Ok (<[j := x]> l).
Proof.
  intros Hj. unfold setitem.
  destruct (Z.ltb_spec (Z.of_nat j) 0) as [?|_]; [lia|].
  destruct (Z.ltb_spec (Z.of_nat j) 0) as [?|_]; [lia|].
  destruct (Z.leb_spec (Z.of_nat (length l)) (Z.of_nat j)) as [?|_]; [lia|].
  cbn [orb]. now rewrite Nat2Z.id.
Qed.

(** Zeroing a row of ones takes as many ones as the row is wide. *)
Lemma count_ones_insert (d : nat) (mask : list (list Z)) (j : nat) :
  mask !! j = Some (repeat 1 d) ->
  (count_ones (concat (<[j := repeat 0%Z d]> mask)) + d)%nat
  = count_ones (concat mask).
Proof.
  intros Hj. pose proof (lookup_lt_Some _ _ _ Hj) as Hlt.
  rewrite insert_take_drop by assumption.
  rewrite <- (take_drop_middle mask j _ Hj) at 3.
  rewrite !concat_app. cbn [concat].
  rewrite !count_ones_app, count_ones_zeros, count_ones_ones. lia.
Qed.

Section Mask.

Context {Linear : Type}.
Variable self : @AlbertAttention Linear.
Variable N0 : Z.
Hypothesis self_consistent : consistent N0 self.

Lemma mask_loop (l : list Z) :
  forall (done : list Z) (mask : list (list Z)),
    List.NoDup (done ++ l) ->
    (forall h, In h (done ++ l) -> (h ∉ pruned_heads self) /\ 0 <= h < N0) ->
    masked (pruned_heads self) (Z.to_nat (num_attention_heads self))
           (Z.to_nat (attention_head_size self)) done mask ->
    exists mask',
      for_each (mask_step self) l mask = Py.Ok mask'
      /\ masked (pruned_heads self) (Z.to_nat (num_attention_heads self))
                (Z.to_nat (attention_head_size self)) (done ++ l) mask'.
Proof.
  destruct self_consistent as (HP & HN & HN0 & HD).
  set (P := pruned_heads self) in *.
  set (N := Z.to_nat (num_attention_heads self)).
  set (D := Z.to_nat (attention_head_size self)).
  induction l as [|h l IH]; intros done mask Hnd Hin Hm.
  - exists mask. rewrite List.app_nil_r. split; [reflexivity | exact Hm].
  - destruct Hm as (Hlen & Hrows & Hzero & Hone & Hcount).
    destruct (Hin h ltac:(apply in_or_app; right; now left)) as [HhP Hh].
    pose proof (row_of_range P N0 HP h HhP Hh) as Hrow.
    assert (HrowN : (Z.to_nat (row_of P h) < N)%nat) by (subst N; lia).
    assert (Hfresh : forall h', In h' done -> Z.to_nat (row_of P h') <> Z.to_nat (row_of P h)).
    { intros h' Hh' Heq.
      destruct (Hin h' ltac:(apply in_or_app; now left)) as [Hh'P Hh'r].
      pose proof (row_of_range P N0 HP h' Hh'P Hh'r) as Hrow'.
      assert (h' = h) by (apply (row_of_inj P h' h Hh'P HhP); lia). subst h'.
      apply List.NoDup_remove_2 in Hnd. apply Hnd, in_or_app. now left. }
    pose proof (Hone _ HrowN Hfresh) as Hrow1.
    cbn [for_each].
    assert (Hstep : mask_step self mask h
                    = Py.Ok (<[Z.to_nat (row_of P h) := repeat 0%Z D]> mask)).
    { unfold mask_step. fold P. fold (row_of P h). fold D.
      replace (row_of P h) with (Z.of_nat (Z.to_nat (row_of P h))) at 1 by lia.
      apply setitem_in_range. lia. }
    rewrite Hstep. cbn [mbind result_bind Py.bind].
    replace (done ++ h :: l) with ((done ++ [h]) ++ l) in * by now rewrite <- List.app_assoc.
    apply IH; [exact Hnd | exact Hin |].
    split; [now rewrite length_insert|]. split; [|split; [|split]].
    + apply Forall_insert; [exact Hrows | apply List.repeat_length].
    + intros h' Hh'. apply in_app_or in Hh' as [Hh'|[<-|[]]].
      * rewrite list_lookup_insert_ne by (apply not_eq_sym, Hfresh, Hh').
        now apply Hzero.
      * now rewrite list_lookup_insert_eq by lia.
    + intros r Hr Hnot.
      rewrite list_lookup_insert_ne.
      * apply Hone; [exact Hr|]. intros h' Hh'. apply Hnot, in_or_app. now left.
      * apply Hnot, in_or_app. right. now left.
    + pose proof (count_ones_insert D mask _ Hrow1) as Hins.
      rewrite List.length_app. cbn [length]. lia.
Qed.

(** The index that [prune_heads] computes for a set of heads that are not
    pruned yet. *)
Lemma kept_index_spec (heads : gset Z) :
  (forall h, h ∈ heads -> (h ∉ pruned_heads self) /\ 0 <= h < N0) ->
  exists index,
    kept_index self heads = Py.Ok index
    /\ Z.of_nat (length index)
       = attention_head_size self * (num_attention_heads self - Z.of_nat (size heads))
    /\ forall h d, h ∉ pruned_heads self -> 0 <= h < N0 ->
         0 <= d < attention_head_size self ->
         (In (Z.to_nat (row_of (pruned_heads self) h * attention_head_size self + d))
             index
          <-> h ∉ heads).
Proof.
  intros Hheads. pose proof self_consistent as (HP & HN & HN0 & HD).
  pose proof (pruned_size_le _ N0 HP HN0) as Hsize.
  unfold kept_index, ones.
  destruct (Z.ltb_spec (num_attention_heads self) 0) as [?|_]; [lia|].
  destruct (Z.ltb_spec (attention_head_size self) 0) as [?|_]; [lia|].
  cbn [orb mbind result_bind Py.bind].
  set (N := Z.to_nat (num_attention_heads self)).
  set (D := Z.to_nat (attention_head_size self)).
  destruct (mask_loop (elements heads) [] (repeat (repeat 1 D) N))
    as (mask & Hrun & Hlen & Hrows & Hzero & Hone & Hcount).
  { cbn [app]. apply NoDup_ListNoDup, NoDup_elements. }
  { cbn [app]. intros h Hh. apply Hheads.
    apply elem_of_elements, list_elem_of_In, Hh. }
  { split; [apply List.repeat_length|]. split; [|split; [|split]].
    - apply Forall_forall. intros row Hrow.
      apply list_elem_of_In, List.repeat_spec in Hrow. subst row.
      apply List.repeat_length.
    - intros h [].
    - intros r Hr _. now apply lookup_repeat.
    - cbn [length]. rewrite count_ones_rows. lia. }
  rewrite Hrun. cbn [mbind result_bind Py.bind app] in *.
  eexists. split; [reflexivity|]. split.
  - rewrite positions_length. change (size heads) with (length (elements heads)).
    subst N D. nia.
  - intros h d HhP Hh Hd.
    destruct (nth_concat_rows D mask Hrows) as [Hclen Hnth].
    pose proof (row_of_range _ N0 HP h HhP Hh) as Hrow.
    assert (HrowN : (Z.to_nat (row_of (pruned_heads self) h) < N)%nat) by (subst N; lia).
    replace (Z.to_nat (row_of (pruned_heads self) h * attention_head_size self + d))
      with (Z.to_nat (row_of (pruned_heads self) h) * D + Z.to_nat d)%nat
      by (subst D; nia).
    rewrite positions_spec, Hclen, Hlen. split.
    + intros [_ Hval] Hin.
      rewrite (Hnth _ _ (repeat 0 D)) in Hval by
        (try (apply Hzero, list_elem_of_In, elem_of_elements, Hin); subst D; lia).
      rewrite List.nth_repeat in Hval. discriminate.
    + intros Hnot. split; [subst D; nia|].
      rewrite (Hnth _ _ (repeat 1 D)); [| |subst D; lia].
      * apply List.nth_repeat_lt. subst D; lia.
      * apply Hone; [exact HrowN|]. intros h' Hh' Heq.
        apply list_elem_of_In, elem_of_elements in Hh'.
        destruct (Hheads h' Hh') as [Hh'P Hh'r].
        pose proof (row_of_range _ N0 HP h' Hh'P Hh'r).
        assert (h' = h) by (apply (row_of_inj (pruned_heads self) h' h Hh'P HhP); lia).
        subst h'. contradiction.
Qed.

End Mask.

Lemma positions_all_ones (n : nat) : positions_of_ones (repeat 1 n) = seq 0 n.
Proof.
  unfold positions_of_ones. rewrite List.repeat_length.
  apply List.forallb_filter_id. apply forallb_forall. intros i Hi.
  apply in_seq in Hi. apply Z.eqb_eq, List.nth_repeat_lt. lia.
Qed.

Lemma concat_rows_of_ones (d n : nat) :
  concat (repeat (repeat 1 d) n) = repeat 1 (n * d).
Proof.
  induction n as [|n IH]; [reflexivity|].
  cbn [repeat concat Nat.mul]. now rewrite IH, List.repeat_app.
Qed.

Section PruneHeads.

Context {Linear : Type}.
Variable prune_linear_layer : Linear -> list nat -> nat -> Py.result Linear.

(** X11.  On an attention module that was built with [N0] heads and whose
    counters are consistent with the heads pruned so far, pruning a
    non-empty list of head numbers below [N0] keeps the counters
    consistent: the heads of the list are added to the pruned heads,
    [num_attention_heads] counts the heads that are left, and
    [all_head_size] is [attention_head_size] times that number.  The four
    linear layers are pruned with one index, which has [all_head_size]
    entries and keeps, of every head that was not pruned before, all its
    [attention_head_size] positions when the head is not in the list and
    none when it is.  Head numbers are the original ones: the row of a head
    is its number less the number of pruned heads before it. *)
Theorem prune_heads_bookkeeping (N0 : Z) (self self' : @AlbertAttention Linear)
    (heads : list Z) :
  consistent N0 self ->
  heads <> [] ->
  (forall h, In h heads -> 0 <= h < N0) ->
  prune_heads prune_linear_layer self heads = Py.Ok self' ->
  consistent N0 self'
  /\ pruned_heads self' = pruned_heads self ∪ list_to_set heads
  /\ attention_head_size self' = attention_head_size self
  /\ num_attention_heads self'
     = N0 - Z.of_nat (size (pruned_heads self ∪ list_to_set heads))
  /\ all_head_size self' = attention_head_size self' * num_attention_heads self'
  /\ exists index,
       prune_linear_layer (query self) index 0 = Py.Ok (query self')
       /\ prune_linear_layer (key self) index 0 = Py.Ok (key self')
       /\ prune_linear_layer (value self) index 0 = Py.Ok (value self')
       /\ prune_linear_layer (dense self) index 1 = Py.Ok (dense self')
       /\ Z.of_nat (length index) = all_head_size self'
       /\ forall h d, h ∉ pruned_heads self -> 0 <= h < N0 ->
            0 <= d < attention_head_size self ->
            (In (Z.to_nat (row_of (pruned_heads self) h * attention_head_size self + d))
                index
             <-> ~ In h heads).
Proof.
  intros Hcons Hne Hrange. unfold prune_heads.
  destruct heads as [|h0 heads0] eqn:Hheads; [contradiction|].
  cbn [length Nat.eqb]. rewrite <- Hheads in *. clear Hne.
  set (new := (list_to_set heads ∖ pruned_heads self : gset Z)).
  destruct (kept_index_spec self N0 Hcons new) as (index & -> & Hlen & Hmem).
  { intros h Hh. apply elem_of_difference in Hh as [Hh HhP].
    split; [exact HhP|]. apply Hrange, list_elem_of_In. now apply elem_of_list_to_set in Hh. }
  cbn [mbind result_bind Py.bind].
  destruct (prune_linear_layer (query self) index 0) as [q|e] eqn:Hq; [|discriminate].
  cbn [mbind result_bind Py.bind].
  destruct (prune_linear_layer (key self) index 0) as [k|e] eqn:Hk; [|discriminate].
  cbn [mbind result_bind Py.bind].
  destruct (prune_linear_layer (value self) index 0) as [v|e] eqn:Hv; [|discriminate].
  cbn [mbind result_bind Py.bind].
  destruct (prune_linear_layer (dense self) index 1) as [dn|e] eqn:Hd; [|discriminate].
  cbn [mbind result_bind Py.bind]. intros [= <-].
  destruct Hcons as (HP & HN & HN0 & HD).
  unfold consistent.
  cbn [pruned_heads num_attention_heads attention_head_size all_head_size
         query key value dense].
  assert (Hunion : pruned_heads self ∪ new = pruned_heads self ∪ list_to_set heads).
  { apply set_eq. intros x. subst new. rewrite !elem_of_union, elem_of_difference.
    destruct (decide (x ∈ pruned_heads self)); tauto. }
  assert (Hsize : size (pruned_heads self ∪ list_to_set heads)
                  = (size (pruned_heads self) + size new)%nat).
  { rewrite <- Hunion. apply size_union, elem_of_disjoint.
    intros x Hx Hx'. subst new. apply elem_of_difference in Hx' as [_ Hn].
    contradiction. }
  rewrite Hunion.
  assert (Hrange' : forall h, h ∈ pruned_heads self ∪ list_to_set heads -> 0 <= h < N0).
  { intros h Hh. apply elem_of_union in Hh as [Hh|Hh]; [now apply HP|].
    apply Hrange, list_elem_of_In. now apply elem_of_list_to_set in Hh. }
  split; [|split; [|split; [|split; [|split]]]]; try reflexivity.
  - split; [exact Hrange'|]. split; [rewrite Hsize; lia|]. split; assumption.
  - rewrite Hsize. lia.
  - exists index. split; [exact Hq|]. split; [exact Hk|]. split; [exact Hv|].
    split; [exact Hd|]. split; [exact Hlen|].
    intros h d HhP Hh Hdr. rewrite (Hmem h d HhP Hh Hdr). subst new.
    rewrite elem_of_difference, elem_of_list_to_set, list_elem_of_In. tauto.
Qed.

(** X12.  Pruning heads that are all pruned already removes nothing: the
    counters and the set of pruned heads stay as they are, and the index
    with which the four linear layers are rebuilt lists every position. *)
Theorem pruning_pruned_heads_keeps_all (N0 : Z) (self self' : @AlbertAttention Linear)
    (heads : list Z) :
  consistent N0 self ->
  (forall h, In h heads -> h ∈ pruned_heads self) ->
  prune_heads prune_linear_layer self heads = Py.Ok self' ->
  num_attention_heads self' = num_attention_heads self
  /\ attention_head_size self' = attention_head_size self
  /\ pruned_heads self' = pruned_heads self
  /\ (heads <> [] ->
      let index :=
        seq 0 (Z.to_nat (num_attention_heads self) * Z.to_nat (attention_head_size self)) in
      all_head_size self' = Z.of_nat (length index)
      /\ prune_linear_layer (query self) index 0 = Py.Ok (query self')
      /\ prune_linear_layer (key self) index 0 = Py.Ok (key self')
      /\ prune_linear_layer (value self) index 0 = Py.Ok (value self')
      /\ prune_linear_layer (dense self) index 1 = Py.Ok (dense self')).
Proof.
  intros Hcons Hin. unfold prune_heads.
  destruct heads as [|h0 heads0] eqn:Hheads.
  { cbn [length Nat.eqb]. intros [= <-]. do 3 (split; [reflexivity|]).
    intros Hne. now contradict Hne. }
  cbn [length Nat.eqb]. rewrite <- Hheads in *.
  assert (Hnew : (list_to_set heads ∖ pruned_heads self : gset Z) = ∅).
  { apply set_eq. intros x. rewrite elem_of_difference, elem_of_list_to_set.
    split; [|intros Hx; now apply not_elem_of_empty in Hx]. intros [Hx HxP]. exfalso. apply HxP, Hin, list_elem_of_In, Hx. }
  rewrite Hnew, size_empty. pose proof Hcons as (HP & HN & HN0 & HD).
  pose proof (pruned_size_le _ N0 HP HN0) as Hsize.
  unfold kept_index, ones.
  destruct (Z.ltb_spec (num_attention_heads self) 0) as [?|_]; [lia|].
  destruct (Z.ltb_spec (attention_head_size self) 0) as [?|_]; [lia|].
  cbn [orb mbind result_bind Py.bind]. rewrite elements_empty.
  cbn [for_each mbind result_bind Py.bind].
  rewrite concat_rows_of_ones, positions_all_ones.
  destruct (prune_linear_layer (query self) _ 0) as [q|e] eqn:Hq; [|discriminate].
  cbn [mbind result_bind Py.bind].
  destruct (prune_linear_layer (key self) _ 0) as [k|e] eqn:Hk; [|discriminate].
  cbn [mbind result_bind Py.bind].
  destruct (prune_linear_layer (value self) _ 0) as [v|e] eqn:Hv; [|discriminate].
  cbn [mbind result_bind Py.bind].
  destruct (prune_linear_layer (dense self) _ 1) as [dn|e] eqn:Hd; [|discriminate].
  cbn [mbind result_bind Py.bind]. intros [= <-].
  cbn [pruned_heads num_attention_heads attention_head_size all_head_size
         query key value dense].
  split; [lia|]. split; [reflexivity|].
  split; [apply union_empty_r_L|].
  intros _. cbn zeta. rewrite List.length_seq. repeat split; try assumption. nia.
Qed.

End PruneHeads.

(** *** The flattened layer indices of [AlbertModel._prune_heads] *)

Lemma quotients_checked :
  forallb (fun n => forallb (quotient_exact (n + 1)) (range 1024)) (range 16) = true.
Proof. vm_compute. reflexivity. Qed.

Lemma int_quotient (n layer : Z) :
  1 <= n <= 16 -> 0 <= layer < 1024 ->
  (q ← PyFloat.int_truediv layer n; PyFloat.to_int q) = Py.Ok (layer / n).
Proof.
  intros Hn Hl.
  pose proof (proj1 (forallb_forall _ _) quotients_checked (n - 1)
                ltac:(apply in_range_bounds; lia)) as Hcheck.
  cbv beta in Hcheck.
  pose proof (proj1 (forallb_forall _ _) Hcheck layer
                ltac:(apply in_range_bounds; lia)) as Hone.
  replace (n - 1 + 1) with n in Hone by lia.
  unfold quotient_exact in Hone.
  destruct (q ← PyFloat.int_truediv layer n; PyFloat.to_int q) as [g|e];
    [|discriminate].
  apply Z.eqb_eq in Hone. now subst.
Qed.

Lemma getitem_beyond {X : Type} (l : list X) (i : Z) :
  Z.of_nat (length l) <= i -> Py.getitem l i = Py.Raise Py.IndexError.
Proof.
  intros Hi. unfold Py.getitem.
  destruct (Z.ltb_spec i 0) as [?|_]; [lia|].
  destruct (Z.ltb_spec i 0) as [?|_]; [lia|].
  destruct (Z.leb_spec (Z.of_nat (length l)) i) as [_|?]; [reflexivity | lia].
Qed.

Section PruneLayers.

Context {F : Type} `{Torch.Primitives F}.
Variable layer_prune_heads : Torch.Layer -> list Z -> Py.result Torch.Layer.

(** X13.  [AlbertModel._prune_heads] reads the keys of [heads_to_prune] as
    flattened indices: with [inner_group_num = n] layers in each of the
    groups, the key [layer] stands for layer [layer mod n] of group
    [layer div n].  The heads are pruned in that layer and in no other, and
    a key from [n] times the number of groups on raises [IndexError]
    (checked for [n <= 16] and keys below 1024, the quotient being computed
    in double precision). *)
Theorem prune_heads_flattened_index (self : Model.AlbertModel) (layer : Z)
    (heads : list Z) :
  let n := inner_group_num (Model.config self) in
  let groups := Encoder.albert_layer_groups (Model.encoder self) in
  1 <= n <= 16 -> 0 <= layer < 1024 ->
  Forall (fun group => Z.of_nat (length (Encoder.albert_layers group)) = n) groups ->
  (layer < Z.of_nat (length groups) * n ->
   exists group albert_layer,
     groups !! Z.to_nat (layer / n) = Some group
     /\ Encoder.albert_layers group !! Z.to_nat (layer mod n) = Some albert_layer
     /\ _prune_heads layer_prune_heads self [(layer, heads)]
        = (albert_layer ← layer_prune_heads albert_layer heads;
           Py.Ok {| Model.config := Model.config self;
                    Model.embeddings := Model.embeddings self;
                    Model.embedding_hidden_mapping_in :=
                      Model.embedding_hidden_mapping_in self;
                    Model.encoder :=
                      {| Encoder.config := Encoder.config (Model.encoder self);
                         Encoder.albert_layer_groups :=
                           <[Z.to_nat (layer / n) :=
                               {| Encoder.albert_layers :=
                                    <[Z.to_nat (layer mod n) := albert_layer]>
                                      (Encoder.albert_layers group) |}]> groups |};
                    Model.pooler := Model.pooler self |}))
  /\ (Z.of_nat (length groups) * n <= layer ->
      _prune_heads layer_prune_heads self [(layer, heads)] = Py.Raise Py.IndexError).
Proof.
  intros n groups Hn Hl Hgroups.
  pose proof (int_quotient n layer Hn Hl) as Hq.
  pose proof (Z.div_mod layer n ltac:(lia)) as Hdm.
  pose proof (Z.mod_pos_bound layer n ltac:(lia)) as Hmod.
  assert (Hdiv : 0 <= layer / n) by (apply Z.div_pos; lia).
  unfold _prune_heads. cbn [for_each]. unfold prune_layer. fold n. fold groups.
  destruct (PyFloat.int_truediv layer n) as [q|e]; [|discriminate].
  cbn [mbind result_bind Py.bind] in Hq |- *. rewrite Hq.
  cbn [mbind result_bind Py.bind].
  replace (layer - layer / n * n) with (layer mod n) by lia.
  split.
  - intros Hlt.
    assert (Hg : (Z.to_nat (layer / n) < length groups)%nat) by nia.
    destruct (lookup_lt_is_Some_2 groups _ Hg) as [group Hgroup].
    rewrite Forall_forall in Hgroups.
    pose proof (Hgroups group ltac:(eapply list_elem_of_lookup_2; exact Hgroup)) as Hlen.
    assert (Hk : (Z.to_nat (layer mod n) < length (Encoder.albert_layers group))%nat) by lia.
    destruct (lookup_lt_is_Some_2 _ _ Hk) as [albert_layer Hlayer].
    exists group, albert_layer. split; [exact Hgroup|]. split; [exact Hlayer|].
    pose proof (getitem_lookup _ _ _ Hgroup) as Hget1.
    pose proof (getitem_lookup _ _ _ Hlayer) as Hget2.
    rewrite Z2Nat.id in Hget1, Hget2 by lia.
    rewrite Hget1. cbn [mbind result_bind Py.bind]. rewrite Hget2.
    cbn [mbind result_bind Py.bind].
    destruct (layer_prune_heads albert_layer heads) as [l'|e]; [|reflexivity].
    cbn [mbind result_bind Py.bind]. unfold abs_index.
    destruct (Z.ltb_spec (layer / n) 0) as [?|_]; [lia|].
    destruct (Z.ltb_spec (layer mod n) 0) as [?|_]; [lia|]. reflexivity.
  - intros Hge. rewrite getitem_beyond; [reflexivity|]. nia.
Qed.

End PruneLayers.

End PruningFacts.

(** ** Splitting the hidden states into heads and back *)

Module CoAttentionFacts.

Import Tensor TensorFacts CoAttention.

Lemma map_flat_map {X Y Z : Type} (f : Y -> Z) (g : X -> list Y) (l : list X) :
  map f (flat_map g l) = flat_map (fun x => map f (g x)) l.
Proof.
  induction l as [|x l IH]; [reflexivity|].
  cbn [flat_map]. now rewrite List.map_app, IH.
Qed.

Lemma flat_map_blocks (m d a : nat) :
  flat_map (fun i => seq (i * m) m) (seq a d) = seq (a * m) (d * m).
Proof.
  revert a. induction d as [|d IH]; intros a; [reflexivity|].
  cbn [seq flat_map]. rewrite IH.
  replace (S d * m)%nat with (m + d * m)%nat by lia.
  rewrite List.seq_app. f_equal. f_equal. lia.
Qed.

(** The indices of a shape, in their order, have the offsets 0, 1, 2, ... *)
Lemma offsets_enumerate (s : list nat) :
  map (offset s) (indices s) = seq 0 (numel s).
Proof.
  induction s as [|d s IH]; [reflexivity|].
  cbn [indices numel fold_right]. fold (numel s).
  rewrite map_flat_map.
  rewrite (List.flat_map_ext _ (fun i => seq (i * numel s) (numel s))).
  - apply (flat_map_blocks (numel s) d 0).
  - intros i. rewrite List.map_map. cbn [offset].
    rewrite (AttentionFacts.seq_from (i * numel s) (numel s)), <- IH, List.map_map.
    reflexivity.
Qed.

Lemma map_nth_all {X : Type} (l : list X) (d : X) :
  map (fun i => nth i l d) (seq 0 (length l)) = l.
Proof.
  induction l as [|x l IH]; [reflexivity|].
  cbn [length seq map nth]. f_equal.
  rewrite <- List.seq_shift, List.map_map. exact IH.
Qed.

Section Elements.

Context {A : Type} `{Inhabited A}.

(** A well-formed tensor is the tabulation of its elements. *)
Lemma tabulate_get (t : tensor A) : wf t -> tabulate (shape t) (get t) = t.
Proof.
  intros Hwf. destruct t as [s l]. unfold tabulate, get, wf in *. cbn [shape data] in *.
  f_equal. rewrite <- (List.map_map (offset s) (fun o => nth o l inhabitant)).
  rewrite offsets_enumerate, <- Hwf. apply map_nth_all.
Qed.

Lemma in_range4 (B S N D b s n d : nat) :
  in_range [B; S; N; D] [b; s; n; d] = true
  <-> (b < B /\ s < S /\ n < N /\ d < D)%nat.
Proof.
  cbn [in_range]. rewrite !andb_true_iff, !Nat.ltb_lt. tauto.
Qed.

(** X14.  On hidden states of shape (batch, sequence, heads * head size),
    [transpose_for_scores] returns a tensor of shape (batch, heads,
    sequence, head size) whose element (b, n, s, d) is the element
    (b, s, n * head size + d) of the hidden states: head [n] reads the
    [n]-th block of the last dimension. *)
Theorem transpose_for_scores_elements (self : AlbertTrmCoAtt) (x : tensor A)
    (B S : nat) :
  let N := num_attention_heads self in
  let D := attention_head_size self in
  wf x -> shape x = [B; S; (N * D)%nat] ->
  exists y,
    transpose_for_scores self x = Py.Ok y
    /\ shape y = [B; N; S; D]
    /\ forall b n s d, (b < B)%nat -> (n < N)%nat -> (s < S)%nat -> (d < D)%nat ->
         get y [b; n; s; d] = get x [b; s; (n * D + d)%nat].
Proof.
  intros N D Hwf Hx. unfold transpose_for_scores. rewrite Hx.
  cbn [removelast app]. fold N D.
  rewrite (AttentionFacts.view_sizes x [B; S; N; D]).
  2:{ rewrite Hwf, Hx. cbn [numel fold_right]. lia. }
  cbn [mbind result_bind Py.bind]. unfold permute_0213. cbn [shape].
  eexists. split; [reflexivity|]. split; [reflexivity|].
  intros b n s d Hb Hn Hs Hd.
  rewrite get_tabulate by (apply in_range4; lia).
  unfold get. cbn [shape data]. rewrite Hx.
  cbn [offset numel fold_right]. f_equal. lia.
Qed.

(** X15.  Bringing the heads back together undoes the split: on hidden
    states of shape (batch, sequence, heads * head size), with
    [all_head_size = heads * head size] as [__init__] sets it, the reshaped
    context computed from [transpose_for_scores(x)] is [x]. *)
Theorem reshape_undoes_transpose (self : AlbertTrmCoAtt) (x : tensor A)
    (B S : nat) :
  let N := num_attention_heads self in
  let D := attention_head_size self in
  all_head_size self = (N * D)%nat ->
  wf x -> shape x = [B; S; (N * D)%nat] ->
  (y ← transpose_for_scores self x; reshape_context self y) = Py.Ok x.
Proof.
  intros N D Hall Hwf Hx. unfold transpose_for_scores. rewrite Hx.
  cbn [removelast app]. fold N D.
  rewrite (AttentionFacts.view_sizes x [B; S; N; D]).
  2:{ rewrite Hwf, Hx. cbn [numel fold_right]. lia. }
  cbn [mbind result_bind Py.bind]. unfold permute_0213 at 1. cbn [shape].
  cbn [mbind result_bind Py.bind]. unfold reshape_context, permute_0213.
  cbn [shape tabulate mbind result_bind Py.bind removelast app]. rewrite Hall.
  fold N D.
  match goal with |- context [view ?t _] => set (z := t) end.
  set (xv := {| shape := [B; S; N; D]; data := data x |}).
  assert (Hz : data z = data x).
  { subst z. unfold tabulate at 1. cbn [data].
    rewrite (List.map_ext_in _ (get xv)).
    - assert (Hxv : wf xv) by (unfold wf; cbn; rewrite Hwf, Hx; cbn; lia).
      pose proof (tabulate_get xv Hxv) as Ht. unfold tabulate in Ht.
      cbn [shape] in Ht. now injection Ht.
    - intros idx Hidx. apply in_range_indices in Hidx.
      destruct idx as [|b [|s [|n [|d [|? ?]]]]];
        try (cbn [in_range] in Hidx; rewrite ?andb_false_r in Hidx; discriminate Hidx).
      apply in_range4 in Hidx.
      rewrite get_tabulate by (apply in_range4; lia). reflexivity. }
  rewrite (AttentionFacts.view_sizes z [B; S; (N * D)%nat]).
  2:{ rewrite Hz, Hwf, Hx. reflexivity. }
  rewrite Hz. destruct x as [sx dx]. cbn [shape data] in *. now subst sx.
Qed.

End Elements.

End CoAttentionFacts.

(** ** Further heads *)

Module HeadsFacts.

Import Tensor TensorFacts Torch Model Heads.

Lemma in_range_rev (s idx : list nat) :
  in_range s idx = true -> in_range (rev s) (rev idx) = true.
Proof.
  revert idx. induction s as [|d s IH]; intros [|i idx] Hr; try discriminate.
  - reflexivity.
  - cbn [in_range] in Hr. apply andb_true_iff in Hr as [Hi Hr].
    cbn [rev]. apply NnFacts.in_range_app; [now apply IH|].
    cbn [in_range]. now rewrite Hi.
Qed.

Lemma broadcast_rev_same (r : list nat) : Nn.broadcast_rev r r = Some r.
Proof.
  induction r as [|d r IH]; [reflexivity|].
  cbn [Nn.broadcast_rev]. now rewrite Nat.eqb_refl, IH.
Qed.

Lemma broadcast_index_same (r ridx : list nat) :
  in_range r ridx = true -> Nn.broadcast_index_rev r ridx = ridx.
Proof.
  revert ridx. induction r as [|d r IH]; intros [|i ridx] Hr; try discriminate.
  - reflexivity.
  - cbn [in_range] in Hr. apply andb_true_iff in Hr as [Hi Hr].
    apply Nat.ltb_lt in Hi. cbn [Nn.broadcast_index_rev]. rewrite IH by assumption.
    destruct (Nat.eqb_spec d 1) as [->|_]; [f_equal; lia | reflexivity].
Qed.

Section WithScalar.

Context {F : Type} `{Scalar F}.

(** The element of a mapped tensor at an index of its shape. *)
Lemma get_map_elems (g : F -> F) (t : tensor F) (idx : list nat) :
  wf t -> in_range (shape t) idx = true ->
  get (map_elems g t) idx = g (get t idx).
Proof.
  intros Hwf Hr. unfold get, map_elems. cbn [shape data].
  pose proof (offset_lt _ _ Hr) as Hlt. rewrite <- Hwf in Hlt.
  rewrite (List.nth_indep _ inhabitant (g inhabitant)) by now rewrite List.length_map.
  apply List.map_nth.
Qed.

(** An operation on two tensors of one shape works element by element. *)
Lemma binop_same_shape (f : F -> F -> F) (a b : tensor F) :
  shape b = shape a ->
  exists y,
    binop f a b = Py.Ok y
    /\ shape y = shape a /\ wf y
    /\ forall idx, in_range (shape a) idx = true ->
         get y idx = f (get a idx) (get b idx).
Proof.
  intros Hb. unfold binop. rewrite Hb, broadcast_rev_same, List.rev_involutive.
  eexists. split; [reflexivity|]. split; [reflexivity|]. split; [apply tabulate_wf|].
  intros idx Hr. rewrite get_tabulate by assumption.
  rewrite broadcast_index_same by now apply in_range_rev.
  now rewrite List.rev_involutive.
Qed.

(** Arithmetic taken as exact on the constants 0 and 1. *)
Hypothesis fsub_0_r : forall x : F, fsub x (of_Z 0) = x.
Hypothesis fmul_1_r : forall x : F, fmul x (of_Z 1) = x.
Hypothesis fmul_0_r : forall x : F, fmul x (of_Z 0) = of_Z 0.
Hypothesis fsub_1_1 : fsub (of_Z 1) (of_Z 1) = of_Z 0 :> F.

(** X16.  With arithmetic exact on 0 and 1, [PoolerStartLogits.forward]
    with a mask [p_mask] of zeros and ones leaves the score of a position
    whose mask is 0 as the call without mask gives it, and gives every
    position whose mask is 1 the same score, whatever its hidden state:
    [0 - 1e30], or [0 - 65500] when the parameters are half precision. *)
Theorem start_logits_masking (self : PoolerStartLogits)
    (hidden_states p_mask : tensor F) (B S Hd : nat) :
  shape hidden_states = [B; S; Hd] ->
  shape (Nn.weight (psl_dense self)) = [1%nat; Hd] ->
  shape (Nn.bias (psl_dense self)) = [1%nat] ->
  shape p_mask = [B; S] -> wf p_mask ->
  exists x y,
    PoolerStartLogits_forward self hidden_states None = Py.Ok x
    /\ PoolerStartLogits_forward self hidden_states (Some p_mask) = Py.Ok y
    /\ shape x = [B; S] /\ shape y = [B; S]
    /\ forall b s, (b < B)%nat -> (s < S)%nat ->
         (get p_mask [b; s] = of_Z 0 -> get y [b; s] = get x [b; s])
         /\ (get p_mask [b; s] = of_Z 1 ->
             get y [b; s]
             = fsub (of_Z 0) (of_Z (if half self then 65500 else 10 ^ 30))).
Proof.
  intros Hh Hw Hbias Hp Hpwf. unfold PoolerStartLogits_forward.
  destruct (NnFacts.linear_returns (psl_dense self) hidden_states 1 Hd [B; S]
              Hw Hbias Hh) as (x0 & -> & Hx0 & _).
  cbn [mbind result_bind Py.bind].
  set (x := squeeze_last x0).
  assert (Hx : shape x = [B; S]).
  { subst x. unfold squeeze_last. cbn [shape]. rewrite Hx0.
    apply (squeeze_last_shape_app_one [B; S]). }
  set (large := if half self then 65500 else 10 ^ 30).
  destruct (binop_same_shape fmul x (map_elems (fsub (of_Z 1)) p_mask))
    as (kept & -> & Hkept & Hkwf & Hkget).
  { cbn [map_elems shape]. congruence. }
  cbn [mbind result_bind Py.bind].
  destruct (binop_same_shape fsub kept (map_elems (fmul (of_Z large)) p_mask))
    as (y & -> & Hy & Hywf & Hyget).
  { cbn [map_elems shape]. congruence. }
  exists x, y. split; [reflexivity|]. split; [reflexivity|].
  split; [exact Hx|]. split; [congruence|].
  intros b s Hb Hs.
  assert (Hr : in_range [B; S] [b; s] = true).
  { cbn [in_range]. apply Nat.ltb_lt in Hb, Hs. now rewrite Hb, Hs. }
  rewrite Hyget by (rewrite Hkept, Hx; exact Hr).
  rewrite Hkget by (rewrite Hx; exact Hr).
  rewrite !get_map_elems by (try assumption; rewrite Hp; exact Hr).
  split; intros ->.
  - now rewrite fsub_0_r, fmul_1_r, fmul_0_r, fsub_0_r.
  - now rewrite fsub_1_1, fmul_0_r, fmul_1_r.
Qed.

End WithScalar.

(** [t.view(-1, n)] on a tensor of [k * n] elements, for [n > 0]. *)
Lemma view_as_rows {A : Type} (t : tensor A) (k n : nat) :
  length (data t) = (k * n)%nat -> (0 < n)%nat ->
  view t [-1; Z.of_nat n] = Py.Ok {| shape := [k; n]; data := data t |}.
Proof.
  intros Hlen Hn. unfold view.
  assert (Hlt : (Z.of_nat n <? -1) = false) by (apply Z.ltb_ge; lia).
  cbn [existsb orb]. rewrite Hlt. cbn [orb count_occ].
  destruct (Z.eq_dec (-1) (-1)) as [_|Hne]; [|contradiction].
  destruct (Z.eq_dec (Z.of_nat n) (-1)) as [Heq|_]; [lia|].
  unfold infer_dim.
  assert (Hneq : (Z.of_nat n =? -1) = false) by (apply Z.eqb_neq; lia).
  cbn [List.filter]. rewrite Hneq. cbn [Z.eqb Pos.eqb negb fold_right].
  rewrite Z.mul_1_r.
  destruct (Z.eqb_spec (Z.of_nat n) 0) as [Hzero|_]; [lia|].
  rewrite Hlen. replace (Z.of_nat (k * n)) with (Z.of_nat k * Z.of_nat n) by lia.
  rewrite Z.mod_mul by lia. cbn [Z.eqb]. rewrite Z.div_mul by lia.
  cbn [map]. rewrite Hneq, !Nat2Z.id. reflexivity.
Qed.

Section WithPrimitives.

Context {F : Type} `{Primitives F}.
Variable activation : F -> F.

(** Adding a bias of the width of the last dimension. *)
Lemma add_bias (a b : tensor F) (B S V : nat) :
  shape a = [B; S; V] -> shape b = [V] ->
  exists y,
    Nn.add a b = Py.Ok y /\ shape y = [B; S; V] /\ wf y
    /\ forall ib s v, (ib < B)%nat -> (s < S)%nat -> (v < V)%nat ->
         get y [ib; s; v] = fadd (get a [ib; s; v]) (get b [v]).
Proof.
  intros Ha Hb. unfold Nn.add. rewrite Ha, Hb.
  cbn [rev app Nn.broadcast_rev]. rewrite Nat.eqb_refl.
  cbn [fmap option_fmap option_map rev app].
  eexists. split; [reflexivity|]. split; [reflexivity|]. split; [apply tabulate_wf|].
  intros ib s v Hib Hs Hv.
  assert (Hr : in_range [B; S; V] [ib; s; v] = true).
  { cbn [in_range]. apply Nat.ltb_lt in Hib, Hs, Hv. now rewrite Hib, Hs, Hv. }
  rewrite get_tabulate by exact Hr.
  rewrite (broadcast_index_same [V; S; B] (rev [ib; s; v]))
    by (apply (in_range_rev [B; S; V]); exact Hr).
  rewrite List.rev_involutive. cbn [rev app Nn.broadcast_index_rev].
  destruct (Nat.eqb_spec V 1) as [->|_]; [|reflexivity].
  now replace v with 0%nat by lia.
Qed.

(** X17.  On hidden states of shape (batch, sequence, hidden size), with a
    layer normalisation that keeps the shape of its input and
    [vocab_size > 0], the prediction scores of [AlbertForMaskedLM.forward]
    have shape (batch, sequence, vocab_size).  A score is the output of the
    linear layer [decoder], which adds its own bias, plus the bias of the
    head: two biases are added.  With labels the loss in front of the
    scores is the cross entropy that ignores the label [-1], on the scores
    seen as batch * sequence rows of [vocab_size] scores and on the
    flattened labels; the call returns exactly when that loss does. *)
Theorem masked_lm_scores (self : AlbertForMaskedLM)
    (input_ids attention_mask token_type_ids position_ids head_mask
       inputs_embeds : option (tval F))
    (outputs : albert_outputs) (B S Hd E V : nat) :
  let head := predictions self in
  AlbertModel_forward (mlm_albert self) input_ids attention_mask token_type_ids
    position_ids head_mask inputs_embeds = Py.Ok outputs ->
  shape (sequence_output outputs) = [B; S; Hd] ->
  shape (Nn.weight (mlm_dense head)) = [E; Hd] ->
  shape (Nn.bias (mlm_dense head)) = [E] ->
  (forall t, shape (LayerNorm_forward (mlm_LayerNorm head) t) = shape t) ->
  shape (Nn.weight (decoder head)) = [V; E] ->
  shape (Nn.bias (decoder head)) = [V] ->
  shape (mlm_bias head) = [V] ->
  vocab_size self = Z.of_nat V -> (0 < V)%nat ->
  exists hidden scores,
    shape hidden = [B; S; E] /\ shape scores = [B; S; V]
    /\ (forall b s v, (b < B)%nat -> (s < S)%nat -> (v < V)%nat ->
          get scores [b; s; v]
          = fadd (fadd (Nn.fsum (map (fun e => fmul (get hidden [b; s; e])
                                                    (get (Nn.weight (decoder head)) [v; e]))
                                     (seq 0 E)))
                       (get (Nn.bias (decoder head)) [v]))
                 (get (mlm_bias head) [v]))
    /\ AlbertForMaskedLM_forward activation self input_ids attention_mask
         token_type_ids position_ids head_mask inputs_embeds None
       = Py.Ok (VTensor scores :: rest outputs)
    /\ forall labels,
         AlbertForMaskedLM_forward activation self input_ids attention_mask
           token_type_ids position_ids head_mask inputs_embeds (Some labels)
         = (loss ← CrossEntropyLoss (-1)
                     {| shape := [(B * S)%nat; V]; data := data scores |}
                     (flat_v labels);
            Py.Ok (VScalar loss :: VTensor scores :: rest outputs)).
Proof.
  intros head Halbert Hseq Hdw Hdb Hln Hcw Hcb Hbias Hvocab HV.
  destruct (NnFacts.linear_returns (mlm_dense head) (sequence_output outputs)
              E Hd [B; S] Hdw Hdb Hseq) as (h1 & Hh1 & Hh1s & _).
  set (hidden := LayerNorm_forward (mlm_LayerNorm head) (map_elems activation h1)).
  assert (Hhidden : shape hidden = [B; S; E]).
  { subst hidden. rewrite Hln. exact Hh1s. }
  destruct (NnFacts.linear_returns (decoder head) hidden V E [B; S] Hcw Hcb Hhidden)
    as (h2 & Hh2 & Hh2s & Hh2get).
  destruct (add_bias h2 (mlm_bias head) B S V Hh2s Hbias)
    as (scores & Hadd & Hscores & Hwf & Hget).
  exists hidden, scores. split; [exact Hhidden|]. split; [exact Hscores|].
  split.
  { intros b s v Hb Hs Hv. rewrite Hget by assumption. f_equal.
    apply (Hh2get [b; s] v); [|exact Hv].
    cbn [in_range]. apply Nat.ltb_lt in Hb, Hs. now rewrite Hb, Hs. }
  assert (Hhead : AlbertMLMHead_forward activation head (sequence_output outputs)
                  = Py.Ok scores).
  { unfold AlbertMLMHead_forward. rewrite Hh1. cbn [mbind result_bind Py.bind].
    fold hidden. rewrite Hh2. cbn [mbind result_bind Py.bind]. now rewrite Hadd. }
  unfold AlbertForMaskedLM_forward. rewrite Halbert.
  cbn [mbind result_bind Py.bind]. fold head. rewrite Hhead.
  cbn [mbind result_bind Py.bind]. split; [reflexivity|].
  intros labels. rewrite Hvocab.
  rewrite (view_as_rows scores (B * S) V), ModelFacts.view_v_flat; [reflexivity| |exact HV].
  unfold wf in Hwf. rewrite Hwf, Hscores. cbn [numel fold_right]. lia.
Qed.

End WithPrimitives.

(** *** [AlbertForQuestionAnsweringAVPool] *)

Section WithHeap.

Context {F : Type} `{Primitives F}.

Lemma read_opt_cases (r : option nat) (h : Heap.heap F) :
  exists v, Heap.read_opt r h = (h, v).
Proof.
  pose proof (HeapFacts.read_opt_heap r h) as Hh.
  destruct (Heap.read_opt r h) as [h' v]. cbn in Hh. subst h'. now exists v.
Qed.

(** The local rebinding of a label tensor never writes to a storage and
    never removes an object; it returns when the label is a tensor of the
    heap. *)
Lemma squeeze_if_batched_frame (p : nat) (h : Heap.heap F) :
  exists h' r,
    squeeze_if_batched p h = (h', r)
    /\ Heap.storages h' = Heap.storages h
    /\ Heap.objects h ⊆ Heap.objects h'
    /\ (is_Some (Heap.objects h !! p) -> exists p', r = Py.Ok p').
Proof.
  destruct (Heap.objects h !! p) as [o|] eqn:Ho.
  - destruct (QaFacts.squeeze_if_batched_spec h p o Ho)
      as (h' & p' & Hrun & Hst & Hsub & _).
    exists h', (Py.Ok p'). repeat split; try assumption. intros _. now exists p'.
  - exists h, (Py.Raise Py.RuntimeError).
    split; [|split; [reflexivity|split; [reflexivity|]]].
    + unfold squeeze_if_batched, mbind, heap_bind, Heap.bind, Heap.size.
      now rewrite Ho.
    + intros [o Hsome]. discriminate.
Qed.

(** X18.  [AlbertForQuestionAnsweringAVPool.forward] called with
    [start_positions] and [end_positions] but without [is_impossibles]
    never returns: whatever the inputs, the call raises, it writes to no
    storage of the caller's tensors and removes none of the caller's
    objects.  When the call without labels returns and the two positions
    are tensors, what it raises is the [AttributeError] of
    [is_impossibles.size()]. *)
Theorem avpool_needs_is_impossibles (self : AlbertForQuestionAnsweringAVPool)
    (input_ids attention_mask token_type_ids position_ids head_mask
       inputs_embeds : option nat) (sp ep : nat) (h : Heap.heap F) :
  let run :=
    AlbertForQuestionAnsweringAVPool_forward self input_ids attention_mask
      token_type_ids position_ids head_mask inputs_embeds (Some sp) (Some ep) None h in
  (forall out, run.2 <> Py.Ok out)
  /\ Heap.storages run.1 = Heap.storages h
  /\ Heap.objects h ⊆ Heap.objects run.1
  /\ (forall out,
        AlbertForQuestionAnsweringAVPool_forward self input_ids attention_mask
          token_type_ids position_ids head_mask inputs_embeds None None None h
        = (h, Py.Ok out) ->
        is_Some (Heap.objects h !! sp) -> is_Some (Heap.objects h !! ep) ->
        run.2 = Py.Raise Py.AttributeError).
Proof.
  unfold AlbertForQuestionAnsweringAVPool_forward, mbind, mret, heap_bind, heap_ret,
    Heap.bind, Heap.ret, Heap.lift. cbn zeta.
  repeat match goal with
         | |- context [Heap.read_opt ?r h] =>
             let v := fresh "v" in
             let Hv := fresh "Hv" in
             destruct (read_opt_cases r h) as [v Hv]; rewrite Hv; clear Hv;
             destruct v as [?|?]
         end;
    try (cbn [fst snd]; split; [intros ?; discriminate|];
         split; [reflexivity|]; split; [reflexivity|]; intros ? ?; discriminate).
  repeat match goal with
         | |- context [match ?m with Py.Ok _ => _ | Py.Raise _ => _ end] =>
             lazymatch m with
             | AlbertModel_forward _ _ _ _ _ _ _ => destruct m as [?|?]
             | Nn.linear _ _ => destruct m as [?|?]
             | split_logits _ => destruct m as [[? ?]|?]
             | first_word_of _ => destruct m as [?|?]
             end
         end;
    try (cbn [fst snd]; split; [intros ?; discriminate|];
         split; [reflexivity|]; split; [reflexivity|]; intros ? ?; discriminate).
  unfold avpool_loss, squeeze_label, mbind, mret, heap_bind, heap_ret,
    Heap.bind, Heap.ret, Heap.lift.
  destruct (squeeze_if_batched_frame sp h) as (h1 & r1 & -> & Hst1 & Hsub1 & Hok1).
  destruct r1 as [sp'|e1].
  2:{ cbn [fst snd]. split; [intros ?; discriminate|].
      split; [exact Hst1|]. split; [exact Hsub1|].
      intros out _ Hsp _. destruct (Hok1 Hsp) as [? Hcontra]. discriminate. }
  destruct (squeeze_if_batched_frame ep h1) as (h2 & r2 & -> & Hst2 & Hsub2 & Hok2).
  destruct r2 as [ep'|e2].
  2:{ cbn [fst snd]. split; [intros ?; discriminate|].
      split; [congruence|]. split; [now transitivity (Heap.objects h1)|].
      intros out _ _ [o Hep]. destruct Hok2 as [? Hcontra]; [|discriminate].
      exists o. eapply lookup_weaken; eassumption. }
  cbn [fst snd]. split; [intros ?; discriminate|].
  split; [congruence|]. split; [now transitivity (Heap.objects h1)|].
  reflexivity.
Qed.

(** One [clamp_] among several on label tensors that may share storages.
    [done] lists the storages clamped so far with the elements they held at
    first, [todo] those still to be clamped. *)
Lemma clamp_among (n : Z) (h : Heap.heap F) (r : nat) (o : Heap.tensor_obj)
    (l : list Z) (done todo : list (nat * list Z)) :
  0 <= n ->
  Heap.objects h !! r = Some o ->
  (forall s lj, In (s, lj) done ->
     Heap.storages h !! s = Some (Heap.SLong (map (Heap.clamp_Z 0 n) lj))) ->
  (forall s lj, In (s, lj) ((Heap.storage_of o, l) :: todo) ->
     exists l', Heap.storages h !! s = Some (Heap.SLong l')
                /\ map (Heap.clamp_Z 0 n) l' = map (Heap.clamp_Z 0 n) lj) ->
  exists h',
    Heap.clamp_ r 0 n h = (h', Py.Ok tt)
    /\ Heap.objects h' = Heap.objects h
    /\ Heap.storages h'
       = <[Heap.storage_of o := Heap.SLong (map (Heap.clamp_Z 0 n) l)]> (Heap.storages h)
    /\ (forall s lj, In (s, lj) ((Heap.storage_of o, l) :: done) ->
          Heap.storages h' !! s = Some (Heap.SLong (map (Heap.clamp_Z 0 n) lj)))
    /\ (forall s lj, In (s, lj) todo ->
          exists l', Heap.storages h' !! s = Some (Heap.SLong l')
                     /\ map (Heap.clamp_Z 0 n) l' = map (Heap.clamp_Z 0 n) lj).
Proof.
  intros Hn Ho Hdone Htodo.
  set (c := Heap.clamp_Z 0 n) in *.
  assert (Hidem : forall l0 : list Z, map c (map c l0) = map c l0).
  { intros l0. rewrite List.map_map. apply List.map_ext. intros x.
    now apply HeapFacts.clamp_Z_idempotent. }
  destruct (Htodo _ _ (or_introl eq_refl)) as (l' & Hl' & Hcl').
  exists {| Heap.objects := Heap.objects h;
            Heap.storages :=
              <[Heap.storage_of o := Heap.SLong (map c l)]> (Heap.storages h) |}.
  split; [|split; [reflexivity|split]].
  - rewrite (HeapFacts.clamp_spec h r o (Heap.SLong l') 0 n Ho Hl').
    cbn [Heap.clamp_storage]. fold c. rewrite Hcl'. reflexivity.
  - reflexivity.
  - cbn [Heap.storages]. split.
    + intros s lj [[= <- <-]|Hin]; [apply lookup_insert_eq|].
      destruct (decide (Heap.storage_of o = s)) as [<-|Hne].
      * rewrite lookup_insert_eq. pose proof (Hdone _ _ Hin) as Hs.
        rewrite Hl' in Hs. injection Hs as Hs. rewrite <- Hcl', Hs. now rewrite Hidem.
      * rewrite lookup_insert_ne by assumption. now apply Hdone.
    + intros s lj Hin. destruct (Htodo s lj (or_intror Hin)) as (l'' & Hs & Hc).
      destruct (decide (Heap.storage_of o = s)) as [<-|Hne].
      * rewrite lookup_insert_eq. eexists. split; [reflexivity|].
        rewrite Hl' in Hs. injection Hs as <-. now rewrite Hidem, <- Hcl'.
      * rewrite lookup_insert_ne by assumption. eauto.
Qed.

(** X19.  With the three label tensors given, the loss of
    [AlbertForQuestionAnsweringAVPool.forward] is the mean of three cross
    entropies that all ignore the index [n = start_logits.size(1)]: of the
    start scores and the start positions, of the end scores and the end
    positions, and of [has_log] and [is_impossibles], each label tensor
    clamped into [[0, n]] and seen at the size of the local variable.  The
    three clamps are in place: the storages of the caller's three tensors
    hold the clamped labels afterwards, also when the loss raises, and
    whether or not the tensors share a storage. *)
Theorem avpool_loss_definition (h : Heap.heap F)
    (start_logits end_logits has_log : tensor F) (sp ep ip : nat)
    (osp oep oip : Heap.tensor_obj) (ls le li : list Z) (n : nat) :
  size1 start_logits = Py.Ok (Z.of_nat n) ->
  Heap.objects h !! sp = Some osp -> Heap.objects h !! ep = Some oep ->
  Heap.objects h !! ip = Some oip ->
  Heap.storages h !! Heap.storage_of osp = Some (Heap.SLong ls) ->
  Heap.storages h !! Heap.storage_of oep = Some (Heap.SLong le) ->
  Heap.storages h !! Heap.storage_of oip = Some (Heap.SLong li) ->
  exists h',
    avpool_loss start_logits end_logits has_log sp ep (Some ip) h
    = (h',
       start_loss ← CrossEntropyLoss (Z.of_nat n) start_logits
                      (clamped_target n (Heap.size_of osp) ls);
       end_loss ← CrossEntropyLoss (Z.of_nat n) end_logits
                    (clamped_target n (Heap.size_of oep) le);
       choice_loss ← CrossEntropyLoss (Z.of_nat n) has_log
                       (clamped_target n (Heap.size_of oip) li);
       Py.Ok (fdiv (fadd (fadd start_loss end_loss) choice_loss) (of_Z 3)))
    /\ Heap.objects h ⊆ Heap.objects h'
    /\ Heap.storages h'
       = <[Heap.storage_of oip := Heap.SLong (map (Heap.clamp_Z 0 (Z.of_nat n)) li)]>
           (<[Heap.storage_of oep := Heap.SLong (map (Heap.clamp_Z 0 (Z.of_nat n)) le)]>
              (<[Heap.storage_of osp
                   := Heap.SLong (map (Heap.clamp_Z 0 (Z.of_nat n)) ls)]>
                 (Heap.storages h))).
Proof.
  intros Hsize Hsp Hep Hip Hls Hle Hli.
  destruct (QaFacts.squeeze_if_batched_spec h sp osp Hsp)
    as (h1 & sp' & Hsq1 & Hst1 & Hsub1 & Hsp').
  destruct (QaFacts.squeeze_if_batched_spec h1 ep oep (lookup_weaken _ _ _ _ Hep Hsub1))
    as (h2 & ep' & Hsq2 & Hst2 & Hsub2 & Hep').
  assert (Hsub02 : Heap.objects h ⊆ Heap.objects h2) by now transitivity (Heap.objects h1).
  destruct (QaFacts.squeeze_if_batched_spec h2 ip oip (lookup_weaken _ _ _ _ Hip Hsub02))
    as (h3 & ip' & Hsq3 & Hst3 & Hsub3 & Hip').
  assert (Hsub03 : Heap.objects h ⊆ Heap.objects h3) by now transitivity (Heap.objects h2).
  pose proof (lookup_weaken _ _ _ _ (lookup_weaken _ _ _ _ Hsp' Hsub2) Hsub3) as Hsp3.
  pose proof (lookup_weaken _ _ _ _ Hep' Hsub3) as Hep3.
  assert (Hst03 : Heap.storages h3 = Heap.storages h) by congruence.
  set (c := Heap.clamp_Z 0 (Z.of_nat n)).
  set (osp' := {| Heap.storage_of := Heap.storage_of osp;
                  Heap.size_of := Heap.local_size (Heap.size_of osp) |}) in *.
  set (oep' := {| Heap.storage_of := Heap.storage_of oep;
                  Heap.size_of := Heap.local_size (Heap.size_of oep) |}) in *.
  set (oip' := {| Heap.storage_of := Heap.storage_of oip;
                  Heap.size_of := Heap.local_size (Heap.size_of oip) |}) in *.
  destruct (clamp_among (Z.of_nat n) h3 sp' osp' ls []
              [(Heap.storage_of oep, le); (Heap.storage_of oip, li)])
    as (h4 & Hc1 & Hobj4 & Hst4 & Hdone4 & Htodo4); [lia | exact Hsp3 | intros ? ? [] |..].
  { intros s lj Hin. rewrite Hst03.
    destruct Hin as [[= <- <-]|[[= <- <-]|[[= <- <-]|[]]]]; eauto. }
  destruct (clamp_among (Z.of_nat n) h4 ep' oep' le [(Heap.storage_of osp, ls)]
              [(Heap.storage_of oip, li)])
    as (h5 & Hc2 & Hobj5 & Hst5 & Hdone5 & Htodo5);
    [lia | rewrite Hobj4; exact Hep3 | exact Hdone4 | exact Htodo4 |].
  destruct (clamp_among (Z.of_nat n) h5 ip' oip' li
              [(Heap.storage_of oep, le); (Heap.storage_of osp, ls)] [])
    as (h6 & Hc3 & Hobj6 & Hst6 & Hdone6 & _);
    [lia | rewrite Hobj5, Hobj4; exact Hip' | exact Hdone5 | exact Htodo5 |].
  assert (Hread : forall (r : nat) (o : Heap.tensor_obj) (l : list Z),
             Heap.objects h3 !! r
             = Some {| Heap.storage_of := Heap.storage_of o;
                       Heap.size_of := Heap.local_size (Heap.size_of o) |} ->
             In (Heap.storage_of o, l)
                [(Heap.storage_of oip, li); (Heap.storage_of oep, le);
                 (Heap.storage_of osp, ls)] ->
             Heap.read r h6 = (h6, Py.Ok (clamped_target n (Heap.size_of o) l))).
  { intros r o l Hr Hin. unfold Heap.read. rewrite Hobj6, Hobj5, Hobj4, Hr.
    cbn [Heap.storage_of Heap.size_of]. now rewrite (Hdone6 _ _ Hin). }
  exists h6. split; [|split].
  - unfold avpool_loss, squeeze_label, mbind, mret, heap_bind, heap_ret, Heap.bind,
      Heap.ret, Heap.lift.
    rewrite Hsq1, Hsq2, Hsq3, Hsize, Hc1, Hc2, Hc3.
    rewrite (Hread sp' osp ls Hsp3) by (cbn; tauto).
    destruct (CrossEntropyLoss (Z.of_nat n) start_logits _) as [l1|e1]; [|reflexivity].
    rewrite (Hread ep' oep le Hep3) by (cbn; tauto). cbn [result_bind Py.bind].
    destruct (CrossEntropyLoss (Z.of_nat n) end_logits _) as [l2|e2]; [|reflexivity].
    rewrite (Hread ip' oip li Hip') by (cbn; tauto). cbn [result_bind Py.bind].
    destruct (CrossEntropyLoss (Z.of_nat n) has_log _) as [l3|e3]; reflexivity.
  - rewrite Hobj6, Hobj5, Hobj4. exact Hsub03.
  - rewrite Hst6, Hst5, Hst4, Hst03. reflexivity.
Qed.

End WithHeap.

End HeadsFacts.

(** ** The head mask that [AlbertModel.forward] hands to the encoder *)

Module HeadMaskFacts.

Import Tensor TensorFacts Torch Model.

Lemma nth_concat_repeat {X : Type} (d : list X) (x : X) (n L i j : nat) :
  length d = n -> (i < L)%nat -> (j < n)%nat ->
  nth (i * n + j) (concat (repeat d L)) x = nth j d x.
Proof.
  intros Hd. revert i. induction L as [|L IH]; intros i Hi Hj; [lia|].
  cbn [repeat concat]. destruct i as [|i].
  - cbn [Nat.mul Nat.add]. apply List.app_nth1. lia.
  - rewrite List.app_nth2 by lia.
    replace (S i * n + j - length d)%nat with (i * n + j)%nat by lia.
    apply IH; lia.
Qed.

Section WithPrimitives.

Context {F : Type} `{Primitives F}.

Lemma to_float_shape (v : tval F) : shape (to_float v) = size v.
Proof. destruct v; reflexivity. Qed.

(** X20.  A head mask with one dimension, of [n] heads, is handed to the
    encoder as [num_hidden_layers] entries that all hold the same mask, of
    shape (1, n, 1, 1).  A head mask with two dimensions, of [r] rows of [n]
    heads, is handed over as [r] entries: entry [i] holds row [i], at the
    same shape.  The number of entries is then the number of rows of the
    caller's tensor, whatever [num_hidden_layers] is. *)
Theorem head_mask_entries (cfg : AlbertConfig) (head_mask : tval F) (n : nat) :
  wf (to_float head_mask) ->
  (size head_mask = [n] -> 0 <= num_hidden_layers cfg ->
   exists l,
     prepare_head_mask cfg (Some head_mask) = Py.Ok l
     /\ length l = Z.to_nat (num_hidden_layers cfg)
     /\ forall i, (i < Z.to_nat (num_hidden_layers cfg))%nat ->
          exists t, l !! i = Some (Some t) /\ shape t = [1; n; 1; 1]%nat
            /\ forall j, (j < n)%nat ->
                 get t [0; j; 0; 0]%nat = get (to_float head_mask) [j])
  /\ (forall r, size head_mask = [r; n] ->
      exists l,
        prepare_head_mask cfg (Some head_mask) = Py.Ok l
        /\ length l = r
        /\ forall i, (i < r)%nat ->
             exists t, l !! i = Some (Some t) /\ shape t = [1; n; 1; 1]%nat
               /\ forall j, (j < n)%nat ->
                    get t [0; j; 0; 0]%nat = get (to_float head_mask) [i; j]).
Proof.
  intros Hwf. unfold wf in Hwf. rewrite to_float_shape in Hwf.
  pose proof (to_float_shape head_mask) as Hshape.
  set (m := to_float head_mask) in *. split.
  - intros Hsize HL. unfold prepare_head_mask. rewrite Hsize. cbn [length].
    fold m. unfold unsqueeze. rewrite Hshape, Hsize.
    cbn [length Nat.leb firstn skipn app mbind result_bind Py.bind shape data
           unsqueeze_last].
    destruct (Z.eqb_spec (num_hidden_layers cfg) (-1)) as [?|_]; [lia|].
    destruct (Z.ltb_spec (num_hidden_layers cfg) 0) as [?|_]; [lia|].
    unfold expand_first. cbn [shape data app mbind result_bind Py.bind].
    unfold rows. cbv beta iota zeta delta [shape data unsqueeze_last]. cbn [app].
    set (L := Z.to_nat (num_hidden_layers cfg)).
    eexists. split; [reflexivity|]. split.
    { now rewrite !List.length_map, List.length_seq. }
    intros i Hi. eexists. split.
    { rewrite list_lookup_fmap, list_lookup_fmap, lookup_seq_lt by assumption.
      reflexivity. }
    split; [reflexivity|]. intros j Hj.
    rewrite Hsize in Hwf. cbn [numel fold_right] in Hwf.
    unfold get. cbn [shape data]. rewrite Hshape, Hsize.
    cbn [offset numel fold_right].
    rewrite List.nth_firstn, List.nth_skipn.
    match goal with
    | |- context [(?a <? ?b)%nat] => destruct (Nat.ltb_spec a b) as [_|?]; [|lia]
    end.
    match goal with
    | |- nth ?a _ _ = nth ?b _ _ =>
        replace a with (i * n + j)%nat by lia; replace b with j by lia
    end.
    apply nth_concat_repeat; lia.
  - intros r Hsize. unfold prepare_head_mask. rewrite Hsize. cbn [length].
    fold m. unfold unsqueeze. rewrite Hshape, Hsize.
    cbn [length Nat.leb firstn skipn app mbind result_bind Py.bind shape data
           unsqueeze_last].
    unfold rows. cbv beta iota zeta delta [shape data unsqueeze_last]. cbn [app].
    eexists. split; [reflexivity|]. split.
    { now rewrite !List.length_map, List.length_seq. }
    intros i Hi. eexists. split.
    { rewrite list_lookup_fmap, list_lookup_fmap, lookup_seq_lt by assumption.
      reflexivity. }
    split; [reflexivity|]. intros j Hj.
    unfold get. cbn [shape data]. rewrite Hshape, Hsize.
    cbn [offset numel fold_right].
    rewrite List.nth_firstn, List.nth_skipn.
    match goal with
    | |- context [(?a <? ?b)%nat] => destruct (Nat.ltb_spec a b) as [_|?]; [|lia]
    end.
    f_equal. lia.
Qed.

End WithPrimitives.

End HeadMaskFacts.

(** ** Instances of the further properties *)

(** The conversion of the pooler kernel followed by a kernel of the wrong
    shape: the first is assigned, the second raises and leaves no trace,
    the third variable is not looked at. *)
Lemma conversion_stops_at_first_exception_witness :
  let σ1 := <[3%nat := Loader.NnParameter
                          {| Tensor.shape := [2; 3]%nat;
                             Tensor.data := [1; 3; 5; 2; 4; 6] |}]>
              Examples.pooler_store in
  σ1 = σ1
  /\ Loader.load_tf_weights_in_albert 0%nat Examples.pooler_store
       ([MoreExamples.good_variable]
        ++ MoreExamples.bad_variable :: [MoreExamples.bias_variable])
     = (σ1, Py.Raise (Py.AssertionError [[2; 3]%nat; [2; 2]%nat])).
Proof.
  apply (LoaderInvariants.conversion_stops_at_first_exception 0%nat
           Examples.pooler_store);
    vm_compute; reflexivity.
Defined.

(** Two poolers that differ in the values of the weight only: the
    conversion of the kernel and of the bias ends alike and leaves the same
    weight and the same bias in both. *)
Lemma conversion_depends_on_structure_only_witness :
  let vars := [MoreExamples.good_variable; MoreExamples.bias_variable] in
  let out1 := Loader.load_tf_weights_in_albert 0%nat Examples.pooler_store vars in
  let out2 := Loader.load_tf_weights_in_albert 0%nat MoreExamples.other_store vars in
  out1.2 = out2.2
  /\ forall l, out1.1 !! l = out2.1 !! l
               \/ (out1.1 !! l = Examples.pooler_store !! l
                   /\ out2.1 !! l = MoreExamples.other_store !! l).
Proof.
  apply (LoaderInvariants.conversion_depends_on_structure_only 0%nat
           [MoreExamples.good_variable; MoreExamples.bias_variable]
           Examples.pooler_store MoreExamples.other_store).
  apply LoaderInvariants.set_data_structure. reflexivity.
Defined.

(** The pooler has no attribute [encoder] under [albert]: the path with
    that component resolves to the weight of the pooler as the path
    without it does. *)
Lemma unknown_component_is_passed_over_witness :
  Loader.walk Examples.pooler_store 0%nat
    (["albert"%string] ++ "encoder"%string :: ["pooler"%string; "kernel"%string])
  = Loader.walk Examples.pooler_store 0%nat
      (["albert"%string] ++ ["pooler"%string; "kernel"%string]).
Proof.
  apply (LoaderInvariants.unknown_component_is_passed_over Examples.pooler_store
           0%nat ["albert"%string] ["pooler"%string; "kernel"%string]
           "encoder"%string (Loader.PObj 1));
    vm_compute; reflexivity.
Defined.

(** Four layers in two groups of two inner layers: five hidden states and
    eight attentions. *)
Lemma encoder_output_sizes_witness :
  exists out,
    MoreExamples.run_all 4 2 2 [1; 1; 1; 1] = Py.Ok out
    /\ length (Encoder.calls out) = 4%nat
    /\ (exists l, Encoder.all_hidden_states out = Some l /\ length l = 5%nat
                  /\ List.last l (Encoder.last_hidden_state out)
                     = Encoder.last_hidden_state out
                  /\ Py.Ok [] = Py.Ok (hd (Encoder.last_hidden_state out) l))
    /\ (exists l, Encoder.all_attentions out = Some l /\ length l = 8%nat).
Proof.
  eexists. split; [vm_compute; reflexivity|].
  apply (EncoderOutputs.encoder_output_sizes MoreExamples.masked_layer
           (fun h => Py.Ok h) (MoreExamples.cfg_all 4 2 2)
           (fun g k => 10 * g + k + 1) [] tt [1; 1; 1; 1]).
  vm_compute. reflexivity.
Defined.

(** Two layers and no group: the call raises [ZeroDivisionError]. *)
Lemma no_hidden_groups_raises_witness :
  MoreExamples.run_all 2 0 1 [1; 1] = Py.Raise Py.ZeroDivisionError.
Proof.
  apply (EncoderOutputs.no_hidden_groups_raises MoreExamples.masked_layer
           (fun h => Py.Ok h)
           (Encoder.AlbertTransformer_init (MoreExamples.cfg_all 2 0 1)
              (fun g k => 10 * g + k + 1)) [] []);
    [reflexivity | cbn; lia | reflexivity].
Defined.

(** Twelve layers in one group: the head mask that masks the layers 1 to 11
    gives what the head mask of ones gives. *)
Lemma single_group_head_mask_witness :
  MoreExamples.run_all 12 1 1 (1 :: repeat 0 11)
  = MoreExamples.run_all 12 1 1 (repeat 1 12).
Proof.
  apply (EncoderOutputs.single_group_head_mask MoreExamples.masked_layer
           (fun h => Py.Ok h) (MoreExamples.cfg_all 12 1 1)
           (fun g k => 10 * g + k + 1) [] tt (1 :: repeat 0 11) (repeat 1 12));
    [reflexivity | cbn; lia | reflexivity | reflexivity].
Defined.

(** Six tokens, a question that ends at position 2 and a context that ends
    at position 4: the question is the tokens 11 and 12, the context is the
    token 14. *)
Lemma split_ques_context_layout_witness :
  exists out : @Split.outputs Z Z,
    @Split.split_ques_context Z Examples.z_scalar Z 0 MoreExamples.tokens MoreExamples.ends = Py.Ok out
    /\ Split.ques_sequence_output out !! 0%nat
       = Some (Split.padded 0 Split.ques_max_len [11; 12])
    /\ Split.context_sequence_output out !! 0%nat
       = Some (Split.padded 0 Split.context_max_len [14])
    /\ Split.ques_attention_mask out !! 0%nat
       = Some (Split.padded 0 Split.ques_max_len [1; 1])
    /\ Split.context_attention_mask out !! 0%nat
       = Some (Split.padded 0 Split.context_max_len [1]).
Proof.
  assert (Hfit : Split.row_fits [10; 11; 12; 13; 14; 15] [2; 4] 2 4).
  { split; [exists []; reflexivity|]. vm_compute.
    repeat split; discriminate. }
  destruct (@SplitFacts.split_ques_context_layout Z Examples.z_scalar Z 0
              MoreExamples.tokens MoreExamples.ends)
    as (out & Hrun & _ & _ & _ & _ & Hrows).
  - intros [|i] row Hrow; [|destruct i; discriminate Hrow].
    injection Hrow as <-. exists [2; 4], 2, 4. split; [reflexivity|exact Hfit].
  - exists out. split; [exact Hrun|].
    exact (Hrows 0%nat [10; 11; 12; 13; 14; 15] [2; 4] 2 4 eq_refl eq_refl Hfit).
Defined.

(** Three tokens for a question said to end at position 5. *)
Lemma short_sequence_raises_witness :
  @Split.split_ques_context Z Examples.z_scalar Z 0 MoreExamples.short_tokens MoreExamples.long_ends
  = Py.Raise Py.RuntimeError.
Proof.
  apply (@SplitFacts.short_sequence_raises Z Examples.z_scalar Z 0
           MoreExamples.short_tokens MoreExamples.long_ends 0%nat
           [10; 11; 12] 5 9 []).
  - intros j row Hj. lia.
  - reflexivity.
  - reflexivity.
  - lia.
  - vm_compute. discriminate.
  - discriminate.
Defined.

(** Four heads of size two of which head 0 is pruned: pruning head 2 leaves
    two heads and four positions. *)
Lemma prune_heads_bookkeeping_witness :
  exists self',
    Pruning.prune_heads MoreExamples.pruned_with MoreExamples.attention_heads [2]
    = Py.Ok self'
    /\ Pruning.consistent 4 self'
    /\ Pruning.pruned_heads self' = {[ 0 ]} ∪ list_to_set [2]
    /\ Pruning.num_attention_heads self' = 2
    /\ Pruning.all_head_size self' = 4.
Proof.
  destruct (Pruning.prune_heads MoreExamples.pruned_with
              MoreExamples.attention_heads [2]) as [self'|e] eqn:Hrun;
    [|vm_compute in Hrun; discriminate].
  exists self'. split; [reflexivity|].
  destruct (PruningFacts.prune_heads_bookkeeping MoreExamples.pruned_with 4
              MoreExamples.attention_heads self' [2])
    as (Hc & Hp & Hs & Hn & Ha & _).
  - split; [|split; [vm_compute; reflexivity|split; [lia|cbn; lia]]].
    intros h Hh. cbn in Hh. apply elem_of_singleton in Hh. lia.
  - discriminate.
  - intros h [<-|[]]. lia.
  - exact Hrun.
  - split; [exact Hc|]. split; [exact Hp|].
    assert (Hn' : Pruning.num_attention_heads self' = 2)
      by (rewrite Hn; vm_compute; reflexivity).
    split; [exact Hn'|]. rewrite Ha, Hs, Hn'. reflexivity.
Defined.

(** Pruning head 0 again keeps the three heads and the six positions. *)
Lemma pruning_pruned_heads_keeps_all_witness :
  exists self',
    Pruning.prune_heads MoreExamples.pruned_with MoreExamples.attention_heads [0]
    = Py.Ok self'
    /\ Pruning.num_attention_heads self' = 3
    /\ Pruning.pruned_heads self' = {[ 0 ]}
    /\ Pruning.all_head_size self' = 6
    /\ Pruning.query self' = ([0; 1; 2; 3; 4; 5]%nat, 0%nat).
Proof.
  destruct (Pruning.prune_heads MoreExamples.pruned_with
              MoreExamples.attention_heads [0]) as [self'|e] eqn:Hrun;
    [|vm_compute in Hrun; discriminate].
  exists self'. split; [reflexivity|].
  destruct (PruningFacts.pruning_pruned_heads_keeps_all MoreExamples.pruned_with 4
              MoreExamples.attention_heads self' [0])
    as (Hn & _ & Hp & Hindex).
  - split; [|split; [vm_compute; reflexivity|split; [lia|cbn; lia]]].
    intros h Hh. cbn in Hh. apply elem_of_singleton in Hh. lia.
  - intros h [<-|[]]. cbn. now apply elem_of_singleton.
  - exact Hrun.
  - destruct (Hindex ltac:(discriminate)) as (Ha & Hq & _).
    split; [exact Hn|]. split; [exact Hp|]. split; [exact Ha|].
    injection Hq as <-. reflexivity.
Defined.

(** Two groups of two layers: the key 3 prunes the second layer of the
    second group. *)
Lemma prune_heads_flattened_index_witness :
  exists model,
    @Pruning._prune_heads Z Examples.z_scalar Examples.z_primitives
      MoreExamples.prune_named MoreExamples.albert22
      [(3, [0; 1])] = Py.Ok model
    /\ Encoder.albert_layer_groups (Model.encoder model)
       = [ {| Encoder.albert_layers := [0; 1] |};
           {| Encoder.albert_layers := [10; 211] |} ].
Proof.
  destruct (@PruningFacts.prune_heads_flattened_index Z Examples.z_scalar
              Examples.z_primitives MoreExamples.prune_named
              MoreExamples.albert22 3 [0; 1]) as [Hin _].
  - cbn. lia.
  - lia.
  - repeat constructor.
  - destruct Hin as (group & albert_layer & Hgroup & Hlayer & Hrun).
    + vm_compute. reflexivity.
    + vm_compute in Hgroup. injection Hgroup as <-.
      vm_compute in Hlayer. injection Hlayer as <-.
      eexists. split; [exact Hrun|]. reflexivity.
Defined.

(** Hidden states of shape (1, 2, 2) and two heads of size one. *)
Lemma transpose_for_scores_elements_witness :
  exists y,
    CoAttention.transpose_for_scores MoreExamples.two_heads MoreExamples.hidden122
    = Py.Ok y
    /\ Tensor.shape y = [1; 2; 2; 1]%nat
    /\ forall b n s d, (b < 1)%nat -> (n < 2)%nat -> (s < 2)%nat -> (d < 1)%nat ->
         Tensor.get y [b; n; s; d]
         = Tensor.get MoreExamples.hidden122 [b; s; (n * 1 + d)%nat].
Proof.
  apply (CoAttentionFacts.transpose_for_scores_elements MoreExamples.two_heads
           MoreExamples.hidden122 1 2); reflexivity.
Defined.

Lemma reshape_undoes_transpose_witness :
  (y ← CoAttention.transpose_for_scores MoreExamples.two_heads MoreExamples.hidden122;
   CoAttention.reshape_context MoreExamples.two_heads y)
  = Py.Ok MoreExamples.hidden122.
Proof.
  apply (CoAttentionFacts.reshape_undoes_transpose MoreExamples.two_heads
           MoreExamples.hidden122 1 2); reflexivity.
Defined.

(** The second position is hidden: the first keeps its score, the second
    gets [- 10 ^ 30]. *)
Lemma start_logits_masking_witness :
  exists x y : tensor Z,
    @Heads.PoolerStartLogits_forward Z Examples.z_scalar
      MoreExamples.start_pooler MoreExamples.hidden121 None = Py.Ok x
    /\ @Heads.PoolerStartLogits_forward Z Examples.z_scalar
         MoreExamples.start_pooler MoreExamples.hidden121
         (Some MoreExamples.p_mask) = Py.Ok y
    /\ @Tensor.get Z (@scalar_inhabited Z Examples.z_scalar) y [0; 0]%nat
       = @Tensor.get Z (@scalar_inhabited Z Examples.z_scalar) x [0; 0]%nat
    /\ @Tensor.get Z (@scalar_inhabited Z Examples.z_scalar) y [0; 1]%nat
       = - 10 ^ 30.
Proof.
  destruct (@HeadsFacts.start_logits_masking Z Examples.z_scalar
              Z.sub_0_r Z.mul_1_r Z.mul_0_r eq_refl
              MoreExamples.start_pooler MoreExamples.hidden121
              MoreExamples.p_mask 1 2 1 eq_refl eq_refl eq_refl eq_refl eq_refl)
    as (x & y & Hx & Hy & _ & _ & Hget).
  exists x, y. split; [exact Hx|]. split; [exact Hy|]. split.
  - apply (proj1 (Hget 0%nat 0%nat ltac:(lia) ltac:(lia))). reflexivity.
  - apply (proj2 (Hget 0%nat 1%nat ltac:(lia) ltac:(lia))). reflexivity.
Defined.

(** A vocabulary of two tokens on the three tokens of the examples. *)
Lemma masked_lm_scores_witness :
  exists scores : tensor Z,
    @Heads.AlbertForMaskedLM_forward Z Examples.z_scalar Examples.z_primitives
      (fun x => x) MoreExamples.mlm_model (Some Examples.input_ids_value)
      None None None None None None
    = Py.Ok [Torch.VTensor scores]
    /\ Tensor.shape scores = [1; 3; 2]%nat.
Proof.
  destruct (@HeadsFacts.masked_lm_scores Z Examples.z_scalar Examples.z_primitives
              (fun x => x) MoreExamples.mlm_model (Some Examples.input_ids_value)
              None None None None None Examples.encoded 1 3 1 1 2
              QaExamples.albert_example eq_refl eq_refl eq_refl
              (fun t => eq_refl) eq_refl eq_refl eq_refl eq_refl ltac:(lia))
    as (hidden & scores & _ & Hshape & _ & Hrun & _).
  exists scores. split; [exact Hrun|exact Hshape].
Defined.

(** Three scores, the start position 9, the end position -4 and the
    choice 7: the caller's three tensors hold 3, 0 and 3 afterwards. *)
Lemma avpool_loss_definition_witness :
  exists h' r,
    @Heads.avpool_loss Z Examples.z_scalar Examples.z_primitives
      MoreExamples.scores13 MoreExamples.scores13 MoreExamples.scores12
      1%nat 2%nat (Some 3%nat) MoreExamples.caller_heap3 = (h', r)
    /\ Heap.storages h' !! 11%nat = Some (Heap.SLong [3])
    /\ Heap.storages h' !! 12%nat = Some (Heap.SLong [0])
    /\ Heap.storages h' !! 13%nat = Some (Heap.SLong [3]).
Proof.
  destruct (@HeadsFacts.avpool_loss_definition Z Examples.z_scalar
              Examples.z_primitives MoreExamples.caller_heap3
              MoreExamples.scores13 MoreExamples.scores13 MoreExamples.scores12
              1%nat 2%nat 3%nat
              {| Heap.storage_of := 11%nat; Heap.size_of := [1; 1]%nat |}
              {| Heap.storage_of := 12%nat; Heap.size_of := [1]%nat |}
              {| Heap.storage_of := 13%nat; Heap.size_of := [1]%nat |}
              [9] [-4] [7] 3
              eq_refl eq_refl eq_refl eq_refl eq_refl eq_refl eq_refl)
    as (h' & Hrun & _ & Hstorages).
  eexists h', _. split; [exact Hrun|]. rewrite Hstorages.
  repeat split; vm_compute; reflexivity.
Defined.

(** A mask for two heads and a model of two layers: two entries. *)
Lemma head_mask_entries_witness :
  exists l,
    @Model.prepare_head_mask Z Examples.z_scalar (Examples.cfg 2 1 1) (Some MoreExamples.head_mask2) = Py.Ok l
    /\ length l = 2%nat.
Proof.
  destruct (@HeadMaskFacts.head_mask_entries Z Examples.z_scalar
              (Examples.cfg 2 1 1)
              MoreExamples.head_mask2 2 eq_refl) as [Hone _].
  destruct (Hone eq_refl ltac:(cbn; lia)) as (l & Hrun & Hlen & _).
  exists l. split; [exact Hrun|exact Hlen].
Defined.
